(** * cF Data Tools: a shallow embedding of [cf_data_tools.py]

    The module reads vendor bulk-download text files and a survey XML
    definition and reshapes them into tables.  The embedding keeps the
    shape of the Python code: every function that prints and returns
    [None] on failure is a computation in a small output-and-exception
    monad, Python's [None] is [option]'s [None], local variables that may
    be unbound when they are read are [option]s whose reading raises
    [UnboundLocalError], and the outside world (the import system, the file
    system, pandas' CSV reader and the XML parser) is an explicit record.
    Data frames are modelled by their column labels and rows of cells, with
    the pandas operations the module calls ([DataFrame.append] among them,
    as in the pandas the module was written for) defined on them. *)

From Stdlib Require Import String Ascii List ZArith Lia Bool Arith.
From Stdlib Require Import Permutation Sorted DecimalString.
Import ListNotations.

Local Open Scope string_scope.
Local Open Scope list_scope.

(** ** Python strings *)

Module PyStr.

Definition TAB : ascii := "009"%char.
Definition NL : ascii := "010"%char.
Definition SPACE : ascii := " "%char.

Definition tab : string := String TAB "".
Definition nl : string := String NL "".

(** Python's [sub in s]. *)
Fixpoint contains (sub s : string) : bool :=
  prefix sub s ||
  match s with
  | "" => false
  | String _ s' => contains sub s'
  end.

(** [s.split(sep)] for a non-empty separator: the pieces between the
    non-overlapping occurrences of [sep], scanned from the left.  [skip]
    counts the characters of a matched separator still to be passed. *)
Fixpoint split_go (sep : string) (skip : nat) (s : string) : list string :=
  match s with
  | "" => [""]
  | String a s' =>
      match skip with
      | S k => split_go sep k s'
      | O =>
          if prefix sep s then "" :: split_go sep (String.length sep - 1) s'
          else match split_go sep 0 s' with
               | w :: ws => String a w :: ws
               | [] => [String a ""]
               end
      end
  end.

Definition split (sep s : string) : list string := split_go sep 0 s.

Fixpoint lstrip (p : ascii -> bool) (s : string) : string :=
  match s with
  | "" => ""
  | String a s' => if p a then lstrip p s' else s
  end.

Fixpoint rstrip (p : ascii -> bool) (s : string) : string :=
  match s with
  | "" => ""
  | String a s' =>
      let r := rstrip p s' in
      if (r =? "") && p a then "" else String a r
  end.

(** [s.strip(chars)], [chars] given as a predicate on characters. *)
Definition strip_by (p : ascii -> bool) (s : string) : string :=
  rstrip p (lstrip p s).

(** [s.strip(' ')], [s.strip('\n')]. *)
Definition strip_char (c : ascii) : string -> string := strip_by (Ascii.eqb c).

(** The white space of [str.strip()] and [int()], for the code points
    below 256 (the files are decoded as latin-1). *)
Definition is_space (a : ascii) : bool :=
  let n := nat_of_ascii a in
  ((9 <=? n)%nat && (n <=? 13)%nat) || ((28 <=? n)%nat && (n <=? 32)%nat)
  || (n =? 133)%nat || (n =? 160)%nat.

(** [s.strip()]. *)
Definition strip : string -> string := strip_by is_space.

Definition is_digit (a : ascii) : bool :=
  let n := nat_of_ascii a in (48 <=? n)%nat && (n <=? 57)%nat.

(** The characters matched by [\w] in a [str] pattern, for the code
    points below 256: letters, digits and other numeric characters, and
    the underscore. *)
Definition is_word (a : ascii) : bool :=
  let n := nat_of_ascii a in
  is_digit a
  || ((65 <=? n)%nat && (n <=? 90)%nat) || ((97 <=? n)%nat && (n <=? 122)%nat)
  || (n =? 95)%nat
  || (n =? 170)%nat || (n =? 178)%nat || (n =? 179)%nat || (n =? 181)%nat
  || (n =? 185)%nat || (n =? 186)%nat || ((188 <=? n)%nat && (n <=? 190)%nat)
  || ((192 <=? n)%nat && (n <=? 214)%nat) || ((216 <=? n)%nat && (n <=? 246)%nat)
  || ((248 <=? n)%nat && (n <=? 255)%nat).

(** The longest prefix of word characters. *)
Fixpoint take_word (s : string) : string :=
  match s with
  | "" => ""
  | String a s' => if is_word a then String a (take_word s') else ""
  end.

(** [re.findall(c + "_\w+", s)]: the non-overlapping matches, leftmost
    first, each as long as it can be.  [skip] counts the characters of
    the last match still to be passed. *)
Fixpoint findall_go (c : ascii) (skip : nat) (s : string) : list string :=
  match s with
  | "" => []
  | String a s' =>
      match skip with
      | S k => findall_go c k s'
      | O =>
          if Ascii.eqb a c then
            match s' with
            | String u rest =>
                if Ascii.eqb u "_"%char then
                  match take_word rest with
                  | "" => findall_go c 0 s'
                  | w => String c (String "_"%char w)
                         :: findall_go c (S (String.length w)) s'
                  end
                else findall_go c 0 s'
            | "" => []
            end
          else findall_go c 0 s'
      end
  end.

Definition findall_field (c : ascii) (s : string) : list string :=
  findall_go c 0 s.

(** [str(n)] for an integer. *)
Definition of_int (z : Z) : string := NilZero.string_of_int (Z.to_int z).

(** The digits of an [int()] literal: decimal digits, single underscores
    allowed between digits.  [acc] is the value so far, [last_digit]
    tells whether the previous character was a digit. *)
Fixpoint digits_go (acc : Z) (last_digit : bool) (s : string) : option Z :=
  match s with
  | "" => if last_digit then Some acc else None
  | String a s' =>
      if is_digit a then
        digits_go (10 * acc + Z.of_nat (nat_of_ascii a - 48)) true s'
      else if Ascii.eqb a "_"%char && last_digit then digits_go acc false s'
      else None
  end.

(** [int(s)] for a string: white space around, an optional sign, digits.
    [None] stands for [ValueError]. *)
Definition to_int (s : string) : option Z :=
  match strip s with
  | String "-" d => option_map Z.opp (digits_go 0 false d)
  | String "+" d => digits_go 0 false d
  | d => digits_go 0 false d
  end.

(** The number of non-overlapping occurrences of [sub] in [s]
    ([s.count(sub)]), for a non-empty [sub]. *)
Fixpoint count_go (sub : string) (skip : nat) (s : string) : nat :=
  match s with
  | "" => 0
  | String _ s' =>
      match skip with
      | S k => count_go sub k s'
      | O => if prefix sub s then S (count_go sub (String.length sub - 1) s')
             else count_go sub 0 s'
      end
  end.

Definition count (sub s : string) : nat := count_go sub 0 s.

End PyStr.

(** ** Exceptions, printing and [None] *)

Inductive exn : Type :=
| TypeError | AttributeError | KeyError | IndexError | ValueError
| UnboundLocalError | OSError | ParseError | EmptyDataError.

(** The outcome of evaluating Python code that prints nothing. *)
Inductive outcome (A : Type) : Type :=
| Returns (a : A)
| Raises (e : exn).
Arguments Returns {A} a.
Arguments Raises {A} e.

(** Code that also prints: the lines written to standard output, in order,
    and the outcome. *)
Definition Py (A : Type) : Type := (list string * outcome A)%type.

Class Monad (M : Type -> Type) : Type := {
  ret : forall {A}, A -> M A;
  bind : forall {A B}, M A -> (A -> M B) -> M B
}.

#[export] Instance Monad_outcome : Monad outcome := {
  ret := fun A a => Returns a;
  bind := fun A B m k => match m with Returns a => k a | Raises e => Raises e end
}.

#[export] Instance Monad_Py : Monad Py := {
  ret := fun A a => ([], Returns a);
  bind := fun A B m k =>
    match m with
    | (out, Returns a) => let (out', r) := k a in (out ++ out', r)
    | (out, Raises e) => (out, Raises e)
    end
}.

Declare Scope py_scope.
Delimit Scope py_scope with py.
Notation "x <- m ;; k" := (bind m (fun x => k))
  (at level 61, m at next level, right associativity) : py_scope.
Notation "m ;; k" := (bind m (fun _ => k))
  (at level 61, right associativity) : py_scope.
Local Open Scope py_scope.

Definition print (s : string) : Py unit := ([s], Returns tt).

(** Pure code run inside printing code. *)
Definition lift {A} (o : outcome A) : Py A := ([], o).

(** [try: body except: handler], the bare [except] that catches all. *)
Definition try_except {A} (body handler : Py A) : Py A :=
  match body with
  | (out, Returns a) => (out, Returns a)
  | (out, Raises _) => let (out', r) := handler in (out ++ out', r)
  end.

(** The same for code that prints nothing. *)
Definition try_pure {A} (body handler : outcome A) : outcome A :=
  match body with
  | Returns a => Returns a
  | Raises _ => handler
  end.

(** What a computation printed, and how it ended. *)
Definition printed {A} (m : Py A) : list string := fst m.
Definition result {A} (m : Py A) : outcome A := snd m.

(** Lines printed earlier, by the statements of a block already run. *)
Definition emit (out : list string) : Py unit := (out, Returns tt).

(** Reading a local variable that may not have been assigned yet. *)
Definition read_local {A} (v : option A) : outcome A :=
  match v with
  | Some a => Returns a
  | None => Raises UnboundLocalError
  end.

(** [l[i]] on a list, with Python's negative indices. *)
Definition py_index {A} (l : list A) (i : Z) : outcome A :=
  let n := Z.of_nat (List.length l) in
  let j := if (i <? 0)%Z then (i + n)%Z else i in
  if ((0 <=? j)%Z && (j <? n)%Z)%bool then
    match nth_error l (Z.to_nat j) with
    | Some a => Returns a
    | None => Raises IndexError
    end
  else Raises IndexError.

(** ** Tables *)

(** A cell of a table: pandas' null, a string, or an integer. *)
Inductive cell : Type :=
| NaN
| Str (s : string)
| Num (z : Z).

Definition cell_eq_dec : forall a b : cell, {a = b} + {a <> b}.
Proof.
  decide equality; [apply string_dec | apply Z.eq_dec].
Defined.

(** Structural equality, as used for join keys and by [unique()], where
    nulls compare equal. *)
Definition cell_same (a b : cell) : bool :=
  if cell_eq_dec a b then true else false.

(** Python's [a == b] on cells: a null is equal to nothing. *)
Definition cell_eqb (a b : cell) : bool :=
  match a, b with
  | Str s, Str t => String.eqb s t
  | Num x, Num y => Z.eqb x y
  | _, _ => false
  end.

(** [pd.isnull]. *)
Definition isnull (c : cell) : bool :=
  match c with NaN => true | _ => false end.

(** [str(c)]. *)
Definition cell_str (c : cell) : string :=
  match c with
  | NaN => "nan"
  | Str s => s
  | Num z => PyStr.of_int z
  end.

(** [int(c)]. *)
Definition cell_int (c : cell) : outcome Z :=
  match c with
  | NaN => Raises ValueError
  | Str s => match PyStr.to_int s with
             | Some z => Returns z
             | None => Raises ValueError
             end
  | Num z => Returns z
  end.

(** A data frame: its column labels and its rows, every row holding one
    cell per column.  The row index is not modelled; column labels
    are taken to be distinct, as the constructors used in the module make
    them. *)
Record DataFrame : Type := mkDataFrame {
  columns : list string;
  rows : list (list cell)
}.

Module Pd.

Fixpoint index_of (name : string) (cols : list string) : option nat :=
  match cols with
  | [] => None
  | c :: cs => if String.eqb c name then Some 0
               else option_map S (index_of name cs)
  end.

(** [row[name]] for a row of a frame with columns [cols]. *)
Definition row_get (cols : list string) (row : list cell) (name : string)
  : outcome cell :=
  match index_of name cols with
  | Some i => Returns (nth i row NaN)
  | None => Raises KeyError
  end.

(** [df[name]] and [df.loc[:, name]]: a column. *)
Definition series (df : DataFrame) (name : string) : outcome (list cell) :=
  match index_of name (columns df) with
  | Some i => Returns (map (fun r => nth i r NaN) (rows df))
  | None => Raises KeyError
  end.

Fixpoint replace_nth {A} (i : nat) (x : A) (l : list A) : list A :=
  match l, i with
  | [], _ => []
  | _ :: t, O => x :: t
  | h :: t, S k => h :: replace_nth k x t
  end.

(** [df[name] = values]: an existing column is overwritten, a new one is
    added at the end. *)
Definition set_series (df : DataFrame) (name : string) (vals : list cell)
  : DataFrame :=
  match index_of name (columns df) with
  | Some i =>
      mkDataFrame (columns df)
        (map (fun rv => replace_nth i (snd rv) (fst rv)) (combine (rows df) vals))
  | None =>
      mkDataFrame (columns df ++ [name])
        (map (fun rv => fst rv ++ [snd rv]) (combine (rows df) vals))
  end.

Fixpoint indices_of (names cols : list string) : outcome (list nat) :=
  match names with
  | [] => Returns []
  | n :: ns =>
      match index_of n cols with
      | Some i => idxs <- indices_of ns cols ;; ret (i :: idxs)
      | None => Raises KeyError
      end
  end.

(** [df[[n1, n2, ...]]]: the named columns, in the order asked for. *)
Definition select (df : DataFrame) (names : list string) : outcome DataFrame :=
  idxs <- indices_of names (columns df) ;;
  ret (mkDataFrame names (map (fun r => map (fun i => nth i r NaN) idxs) (rows df))).

(** [df.reset_index()]: the index, given by its values, becomes a first
    column. *)
Definition reset_index (index : list cell) (df : DataFrame) : outcome DataFrame :=
  let numbered name :=
    mkDataFrame (name :: columns df)
      (map (fun ir => fst ir :: snd ir) (combine index (rows df))) in
  match index_of "index" (columns df), index_of "level_0" (columns df) with
  | None, _ => Returns (numbered "index")
  | Some _, None => Returns (numbered "level_0")
  | Some _, Some _ => Raises ValueError
  end.

(** [series.str.strip()]: the accessor exists for a column of text
    only; in such a column the cells that are not text become null. *)
Definition str_strip (col : list cell) : outcome (list cell) :=
  let is_text c := match c with Str _ => true | _ => false end in
  if match col with [] => true | _ => existsb is_text col end then
    Returns (map (fun c => match c with
                           | Str s => Str (PyStr.strip s)
                           | _ => NaN
                           end) col)
  else Raises AttributeError.

(** [series.unique().tolist()]: the distinct values, first occurrences
    first. *)
Fixpoint unique_go (seen : list cell) (l : list cell) : list cell :=
  match l with
  | [] => []
  | c :: t => if existsb (cell_same c) seen then unique_go seen t
              else c :: unique_go (c :: seen) t
  end.

Definition unique (l : list cell) : list cell := unique_go [] l.

(** [df.fillna(v)]. *)
Definition fillna (v : cell) (df : DataFrame) : DataFrame :=
  mkDataFrame (columns df)
    (map (map (fun c => if isnull c then v else c)) (rows df)).

(** [df.drop(names, axis=1)]. *)
Definition drop (df : DataFrame) (names : list string) : outcome DataFrame :=
  _ <- indices_of names (columns df) ;;
  let keep := filter (fun c => negb (existsb (String.eqb c) names)) (columns df) in
  select df keep.

(** [df.columns = names]: the labels are replaced, their number must be
    that of the columns. *)
Definition set_columns (df : DataFrame) (names : list string) : outcome DataFrame :=
  if (List.length names =? List.length (columns df))%nat
  then Returns (mkDataFrame names (rows df))
  else Raises ValueError.

(** [pd.merge(left, right, how='left', left_on=lk, right_on=rk,
    suffixes=sfx)]: every left row, in order, once for each right row
    with the same key, and once with nulls when there is none.  With one
    key label on both sides ([on=]) the key column appears once; other
    labels found on both sides get the suffixes. *)
Definition merge_left (left right : DataFrame) (lk rk : string)
    (sfx : string * string) : outcome DataFrame :=
  match index_of lk (columns left), index_of rk (columns right) with
  | Some i, Some j =>
      let same := String.eqb lk rk in
      let rcols := if same then filter (fun c => negb (String.eqb c rk)) (columns right)
                   else columns right in
      ridx <- indices_of rcols (columns right) ;;
      let clash side c :=
        existsb (String.eqb c) side && negb (same && String.eqb c lk) in
      let lnames := map (fun c => if clash rcols c then (c ++ fst sfx)%string else c) (columns left) in
      let rnames := map (fun c => if clash (columns left) c then (c ++ snd sfx)%string else c) rcols in
      let part r := map (fun k => nth k r NaN) ridx in
      let joined l :=
        match filter (fun r => cell_same (nth i l NaN) (nth j r NaN)) (rows right) with
        | [] => [l ++ map (fun _ => NaN) ridx]
        | ms => map (fun r => l ++ part r) ms
        end in
      ret (mkDataFrame (lnames ++ rnames) (flat_map joined (rows left)))
  | _, _ => Raises KeyError
  end.

(** [pd.concat(frames)]: the rows of the frames one after the other,
    under the union of their columns, nulls where a frame lacks one. *)
Definition concat (frames : list DataFrame) : DataFrame :=
  let cols :=
    fold_left (fun acc df =>
                 acc ++ filter (fun c => negb (existsb (String.eqb c) acc)) (columns df))
              frames [] in
  let widen df r :=
    map (fun c => match index_of c (columns df) with
                  | Some i => nth i r NaN
                  | None => NaN
                  end) cols in
  mkDataFrame cols (flat_map (fun df => map (widen df) (rows df)) frames).

(** [pd.to_numeric(series, downcast='integer')] on cells: empty text
    becomes a null, text that reads as an integer becomes that integer,
    other text is refused.  Numbers that are not integers are outside the
    cells modelled. *)
Fixpoint to_numeric (col : list cell) : outcome (list cell) :=
  match col with
  | [] => Returns []
  | c :: t =>
      v <- match c with
           | Str "" => Returns NaN
           | Str _ => z <- cell_int c ;; ret (Num z)
           | _ => Returns c
           end ;;
      vs <- to_numeric t ;;
      ret (v :: vs)
  end.

(** [df.rename(columns={old: new, ...})]: labels not found are left
    alone. *)
Definition rename (df : DataFrame) (renames : list (string * string)) : DataFrame :=
  let new c :=
    match find (fun on => String.eqb (fst on) c) renames with
    | Some on => snd on
    | None => c
    end in
  mkDataFrame (map new (columns df)) (rows df).

End Pd.

(** The loop shared by the readers and by [strip_cols]:
<<
    for col_name in col_list:
        try:
            df[col_name] = df[col_name].str.strip()
        except:
            pass
>> *)
Definition strip_column (df : DataFrame) (col_name : string) : DataFrame :=
  match try_pure
          (col <- Pd.series df col_name ;;
           stripped <- Pd.str_strip col ;;
           ret (Pd.set_series df col_name stripped))
          (ret df)
  with
  | Returns df' => df'
  | Raises _ => df
  end.

Definition strip_all_columns (df : DataFrame) : DataFrame :=
  fold_left strip_column (columns df) df.

(** ** The outside world *)

(** What iterating over an open text file yields: the lines read, and the
    error that ends the iteration early, if any. *)
Record file_read : Type := mkFileRead {
  file_lines : list string;
  file_fault : option exn
}.

(** An element of an XML document: its attributes and its children. *)
#[warnings="-register-all"]
Inductive element : Type :=
| Element (attrib : list (string * string)) (children : list element).

Record World : Type := mkWorld {
  (** [import name] succeeds *)
  importable : string -> bool;
  (** [os.path.isfile] *)
  isfile : string -> bool;
  (** [open(path, 'r')] and the iteration over its lines *)
  open_file : string -> outcome file_read;
  (** [pd.read_csv(path, sep=sep, skiprows=n,
      encoding='latin-1').reset_index()] *)
  read_csv : string -> string -> nat -> outcome DataFrame;
  (** the document [iterparse] reads at a path, or its parse error *)
  parse_xml : string -> outcome element
}.

Definition imports (w : World) (names : list string) : bool :=
  forallb (importable w) names.

(** ** Bulk-file readers *)

(** The body shared by [read_q_fields], [read_e_fields] and
    [read_a_fields], which differ in their messages only: the imports, the
    [os.path.isfile] test, and under one [try] the CSV read with one line
    skipped and the stripping of every column. *)
Definition read_plain_fields (msg_import msg_read msg_path : string)
    (w : World) (path delim : string) : Py (option DataFrame) :=
  if negb (imports w ["pandas"; "os.path"]) then
    print msg_import ;; ret None
  else if isfile w path then
    try_except
      (df <- lift (read_csv w path delim 1) ;;
       ret (Some (strip_all_columns df)))
      (print msg_read ;; ret None)
  else
    print msg_path ;; ret None.

Definition read_q_fields : World -> string -> string -> Py (option DataFrame) :=
  read_plain_fields
    "python package 'pandas' and 'os' must be installed before using 'read_q_fields' function"
    "error occurred while reading in the q-field text file, check the file path and integrity of data"
    "please check the q-field text file path, it appears to be invalid".

Definition read_e_fields : World -> string -> string -> Py (option DataFrame) :=
  read_plain_fields
    "python package 'pandas' and 'os' must be installed before using 'read_e_fields' function"
    "error occurred while reading in the e-field text file, check the file path and integrity of data"
    "please check the e-field file path, it appears to be invalid".

Definition read_a_fields : World -> string -> string -> Py (option DataFrame) :=
  read_plain_fields
    "python package 'pandas' and 'os' must be installed before using 'read_a_fields' function"
    "error occurred while reading in the a-field text file, check the file path and integrity of data"
    "please check the a-field file path, it appears to be invalid".

(** The end of a [for line in input_file] loop that was not left by
    [break]: the error of the iteration, if there is one, is raised. *)
Definition end_of_file (f : file_read) : outcome unit :=
  match file_fault f with
  | Some e => Raises e
  | None => Returns tt
  end.

(** [read_k_fields]: the lines up to and including the first one that
    holds the marker are counted, and the loop tells whether it was left by
    [break]. *)
Fixpoint count_to_marker (marker : string) (lines : list string) : nat * bool :=
  match lines with
  | [] => (0, false)
  | line :: rest =>
      if PyStr.contains marker line then (1, true)
      else let (n, b) := count_to_marker marker rest in (S n, b)
  end.

Definition read_k_fields (w : World) (path delim : string) : Py (option DataFrame) :=
  if negb (imports w ["pandas"; "os.path"]) then
    print "python package 'pandas' and 'os' must be installed before using 'read_k_fields' function" ;;
    ret None
  else if isfile w path then
    try_except
      (f <- lift (open_file w path) ;;
       let (row_count, broke) := count_to_marker "%%CalculatedSurveyField" (file_lines f) in
       lift (if broke then Returns tt else end_of_file f) ;;
       df <- lift (read_csv w path PyStr.tab row_count) ;;
       ret (Some (strip_all_columns df)))
      (print "error occurred while reading in the k-fields text file, check the file path and integrity of data" ;;
       ret None)
  else
    print "please check the k-fields file path, it appears to be invalid" ;;
    ret None.

Definition alt_set_headers : list string :=
  ["AltSetNumber"; "AlternativeNumber"; "Name"; "InSurvey"; "InMobile";
   "InReport"; "ShortForm"; "Description"; "Visibility"; "SequenceNumber";
   "NumericValue"; "ExportValue"; "PriorityRaw"; "RIColumn"; "RIColSpan";
   "BoxColor"; "FontColor"; "IsOtherOption"; "TranslationExplanation"].

(** [read_alt_sets]: the lines after the first one that holds the
    marker. *)
Fixpoint lines_after (marker : string) (flag : bool) (lines : list string)
  : list string :=
  match lines with
  | [] => []
  | line :: rest =>
      (if flag then [line] else [])
      ++ lines_after marker (flag || PyStr.contains marker line) rest
  end.

(** The cells of one line: split at tabs, blanks and then newlines
    stripped from both ends of each piece. *)
Definition trimmed_values (line : string) : list string :=
  map (PyStr.strip_char PyStr.NL)
      (map (PyStr.strip_char PyStr.SPACE) (PyStr.split PyStr.tab line)).

(** One row of the alt-set table: the set number, cut from the first cell
    at its first underscore, is put in front, the row is filled up with
    ['NA'], and a row longer than the header is refused by the
    [DataFrame] constructor. *)
Definition alt_set_row (line : string) : outcome (list cell) :=
  let trimmed := trimmed_values line in
  first <- py_index trimmed 0 ;;
  alt_set_num <- py_index (PyStr.split "_" first) 0 ;;
  let trimmed := alt_set_num :: trimmed in
  let padded :=
    trimmed ++ repeat "NA" (List.length alt_set_headers - List.length trimmed) in
  if (List.length padded =? List.length alt_set_headers)%nat
  then Returns (map Str padded)
  else Raises ValueError.

Fixpoint alt_set_rows (lines : list string) : outcome (list (list cell)) :=
  match lines with
  | [] => Returns []
  | line :: rest =>
      r <- alt_set_row line ;;
      rs <- alt_set_rows rest ;;
      ret (r :: rs)
  end.

Definition read_alt_sets (w : World) (path delim : string) : Py (option DataFrame) :=
  if negb (imports w ["pandas"; "os.path"]) then
    print "python package 'pandas' and 'os' must be installed before using 'read_alt_sets' function" ;;
    ret None
  else if isfile w path then
    try_except
      (f <- lift (open_file w path) ;;
       let line_list := lines_after "%%AlternativeDb" false (file_lines f) in
       lift (end_of_file f) ;;
       (* line_list.pop(0) *)
       line_list <- lift (match line_list with
                          | [] => Raises IndexError
                          | _ :: t => Returns t
                          end) ;;
       rs <- lift (alt_set_rows line_list) ;;
       ret (Some (mkDataFrame alt_set_headers rs)))
      (print "error occurred while reading in the alt-sets text file, check the file path and integrity of data" ;;
       ret None)
  else
    print "please check the alt-sets file path, it appears to be invalid" ;;
    ret None.

Definition col_headers : list string :=
  ["Column Number"; "Export Number"; "Export Name"; "Export Fields"].

(** [read_exports]: the lines before the first one that holds the marker,
    and whether the loop was left by [break]. *)
Fixpoint lines_before (marker : string) (lines : list string)
  : list string * bool :=
  match lines with
  | [] => ([], false)
  | line :: rest =>
      if PyStr.contains marker line then ([], true)
      else let (ls, b) := lines_before marker rest in (line :: ls, b)
  end.

(** The table built from a line whose second cell is the export's name:
    cells 17 and 18 split at [' : '], the empty pieces dropped, one row
    per field. *)
Definition export_table (trimmed : list string) : outcome DataFrame :=
  c17 <- py_index trimmed 17 ;;
  c18 <- py_index trimmed 18 ;;
  number <- py_index trimmed 0 ;;
  name <- py_index trimmed 1 ;;
  let split_fields :=
    filter (fun s => negb (s =? "")) (PyStr.split " : " c17 ++ PyStr.split " : " c18) in
  ret (mkDataFrame col_headers
         (map (fun nf => [Str (PyStr.of_int (Z.of_nat (fst nf) + 1));
                          Str number; Str name; Str (snd nf)])
              (combine (seq 0 (List.length split_fields)) split_fields))).

(** One turn of the loop over the data lines; [df_exports] is the local
    variable, unbound ([None]) until a line matches. *)
Definition exports_line (export_name : string) (df_exports : option DataFrame)
    (line : string) : outcome (option DataFrame) :=
  let trimmed := trimmed_values line in
  name <- py_index trimmed 1 ;;
  if name =? export_name then
    df <- export_table trimmed ;; ret (Some df)
  else ret df_exports.

Fixpoint exports_loop (export_name : string) (df_exports : option DataFrame)
    (lines : list string) : outcome (option DataFrame) :=
  match lines with
  | [] => Returns df_exports
  | line :: rest =>
      df_exports <- exports_line export_name df_exports line ;;
      exports_loop export_name df_exports rest
  end.

Definition read_exports (w : World) (path export_name delim : string)
  : Py (option DataFrame) :=
  if negb (imports w ["pandas"; "os.path"]) then
    print "python package 'pandas' and 'os' must be installed before using 'read_exports' function" ;;
    ret None
  else if isfile w path then
    try_except
      (f <- lift (open_file w path) ;;
       let (exports_lines, broke) := lines_before "%%EpisodeCondition" (file_lines f) in
       lift (if broke then Returns tt else end_of_file f) ;;
       (* for i in range(2, len(exports_lines)) *)
       df_exports <- lift (exports_loop export_name None (skipn 2 exports_lines)) ;;
       df <- lift (read_local df_exports) ;;
       ret (Some df))
      (print "error occurred while reading in the exports text file, the structure of the data may have been changed since downloading from Medallia or this function needs an update" ;;
       ret None)
  else
    print "please check the exports text file path, it appears to be invalid" ;;
    ret None.

(** ** Survey XML tree walker *)

Inductive event : Type := EvStart | EvEnd.

Definition attributes : Type := list (string * string).

(** [node.attrib.get(key, default)]. *)
Fixpoint attrib_get (a : attributes) (key default : string) : string :=
  match a with
  | [] => default
  | (k, v) :: t => if k =? key then v else attrib_get t key default
  end.

(** The events [iterparse(path, events=['start', 'end'])] yields for a
    document, each with the attributes of its node. *)
Fixpoint iterparse (e : element) : list (event * attributes) :=
  match e with
  | Element a children =>
      (EvStart, a) :: flat_map iterparse children ++ [(EvEnd, a)]
  end.

(** One entry of each list of the [output] dictionary. *)
Record survey_node : Type := mkNode {
  o_xml_node_number : Z;
  o_xml_node_depth : Z;
  o_survey_page_number : Z;
  o_group_name : string;
  o_group_text : string;
  o_group_condition : string;
  o_type : string;
  o_name : string;
  o_field : string;
  o_question_text : string;
  o_condition : string
}.

(** The variables of the enclosing group; all but [group_node_num] are
    unbound before the first turn of the loop. *)
Record group_vars : Type := mkGroup {
  group_name : option string;
  group_condition : option string;
  group_node_num : cell;
  group_type : option string;
  group_text : option string;
  group_depth : option Z
}.

(** The local variables that live across the turns of the loop. *)
Record walker : Type := mkWalker {
  page_num : Z;
  xml_node_num : Z;
  xml_nestingroup_depth : Z;
  xml_group_flag : bool;
  group : group_vars;
  question_text : option string;
  output : list survey_node
}.

Definition walker_init : walker :=
  mkWalker 1 0 0 false (mkGroup None None (Num 0) None None None) None [].

Definition types : list string := ["CHOOSE_MANY"; "GRID"; "EXPLANATION"].

Definition is_start (e : event) : bool :=
  match e with EvStart => true | EvEnd => false end.

Definition is_end (e : event) : bool :=
  match e with EvStart => false | EvEnd => true end.

Definition node_type (node : attributes) : string := attrib_get node "type" "NA".

(** The test of the page counter:
    [node.attrib.get('type', 'NA') == 'PAGE_BREAK' and event == 'start']. *)
Definition page_break_start (ev : event * attributes) : bool :=
  (node_type (snd ev) =? "PAGE_BREAK") && is_start (fst ev).

(** The test of the last rule for the question text:
<<
    node.attrib.get('type', 'NA') == 'ALT_COLUMN'
      and output['type'][(xml_node_num-1)] == 'SIMPLE_QUESTION'
>>
    The event is not part of it. *)
Definition alt_column_rule (st : walker) (ev : event * attributes) : outcome bool :=
  if node_type (snd ev) =? "ALT_COLUMN" then
    t <- py_index (map o_type (output st)) (xml_node_num st - 1) ;;
    ret (t =? "SIMPLE_QUESTION")
  else ret false.

(** The branches for group nodes: the variables of the group, the flag
    and the question text after them.  [depth] is the nesting depth of
    this turn. *)
Definition group_step (st : walker) (ev : event * attributes) (depth : Z)
  : group_vars * bool * option string :=
  let (event, node) := ev in
  if (node_type node =? "GROUP") && is_start event then
    (mkGroup (Some (attrib_get node "name" "NA"))
             (Some (attrib_get node "condition" "NA"))
             (Num (xml_node_num st))
             (Some (node_type node))
             (Some (attrib_get node "text" "NA"))
             (Some depth),
     true, question_text st)
  else if negb (xml_group_flag st) then
    (mkGroup (Some "NA") (Some "NA") (Str "NA") (Some "NA") (Some "NA")
             (group_depth (group st)),
     xml_group_flag st, Some "NA")
  else if (node_type node =? "GROUP") && xml_group_flag st && is_end event then
    (group st, false, Some "NA")
  else (group st, xml_group_flag st, question_text st).

(** The rules for the question text that look at the node alone; the
    last one that applies wins. *)
Definition question_step (ev : event * attributes) (qt : option string)
  : option string :=
  let (event, node) := ev in
  let ty := node_type node in
  let qt := if existsb (String.eqb ty) types && is_start event
            then Some (attrib_get node "text" "NA") else qt in
  let qt := if existsb (String.eqb ty) types && is_end event
            then (if negb (ty =? "EXPLANATION") then Some "NA" else qt)
            else qt in
  if (ty =? "ALT_ENTRY") && is_start event
  then Some (attrib_get node "name" "NA") else qt.

(** One turn of the loop over the events.  The variables [node_type],
    [node_name], [node_field] and [node_condition] of the source are
    assigned on every start event and read on start events only, in the
    same turn, so they are the attributes of the current node. *)
Definition step (st : walker) (ev : event * attributes) : outcome walker :=
  let event := fst ev in
  let node := snd ev in
  (* nesting depth *)
  let depth := if is_start event then (xml_nestingroup_depth st + 1)%Z
               else (xml_nestingroup_depth st - 1)%Z in
  (* survey page number *)
  let page := if page_break_start ev then (page_num st + 1)%Z else page_num st in
  (* group nodes *)
  let gfq := group_step st ev depth in
  let grp := fst (fst gfq) in
  let flag := snd (fst gfq) in
  (* question text *)
  let qt := question_step ev (snd gfq) in
  fires <- alt_column_rule st ev ;;
  qt <- (if fires : bool then
           f <- py_index (map o_field (output st)) (xml_node_num st - 1) ;;
           ret (Some ("q-field text - " ++ f)%string)
         else ret qt) ;;
  (* output *)
  if is_start event then
    g_name <- read_local (group_name grp) ;;
    g_text <- read_local (group_text grp) ;;
    g_condition <- read_local (group_condition grp) ;;
    q_text <- read_local qt ;;
    ret (mkWalker page (xml_node_num st + 1) depth flag grp qt
           (output st ++
            [mkNode (xml_node_num st) depth page g_name g_text g_condition
                    (node_type node) (attrib_get node "name" "NA")
                    (attrib_get node "field" "NA")
                    q_text (attrib_get node "condition" "NA")]))
  else
    ret (mkWalker page (xml_node_num st) depth flag grp qt (output st)).

Fixpoint walk (st : walker) (evs : list (event * attributes)) : outcome walker :=
  match evs with
  | [] => Returns st
  | ev :: rest => st' <- step st ev ;; walk st' rest
  end.

Definition output_columns : list string :=
  ["xml_node_number"; "xml_node_depth"; "survey_page_number"; "group_name";
   "group_text"; "group_condition"; "type"; "name"; "field"; "question_text";
   "condition"].

Definition node_row (n : survey_node) : list cell :=
  [Num (o_xml_node_number n); Num (o_xml_node_depth n);
   Num (o_survey_page_number n); Str (o_group_name n); Str (o_group_text n);
   Str (o_group_condition n); Str (o_type n); Str (o_name n); Str (o_field n);
   Str (o_question_text n); Str (o_condition n)].

(** [pd.DataFrame.from_dict(output, orient='columns')]. *)
Definition output_frame (out : list survey_node) : DataFrame :=
  mkDataFrame output_columns (map node_row out).

(** The function that chooses between the text found in the XML and the
    text of the q-field. *)
Definition select_question_text (df_column_1 df_column_2 : cell) : cell :=
  if cell_eqb df_column_1 (Str "NA") && negb (cell_eqb df_column_2 (Str "NA"))
  then df_column_2
  else df_column_1.

(** [df.apply(lambda row: select_question_text(row['question_text'],
    row['In survey']), axis=1)]. *)
Fixpoint apply_select (cols : list string) (rs : list (list cell))
  : outcome (list cell) :=
  match rs with
  | [] => Returns []
  | r :: t =>
      c1 <- Pd.row_get cols r "question_text" ;;
      c2 <- Pd.row_get cols r "In survey" ;;
      vs <- apply_select cols t ;;
      ret (select_question_text c1 c2 :: vs)
  end.

(** [df[[...]]] on a value that may be [None]. *)
Definition subscript (df : option DataFrame) (names : list string)
  : outcome DataFrame :=
  match df with
  | None => Raises TypeError
  | Some d => Pd.select d names
  end.

(** What follows the loop in [create_survey_spec], from the records
    collected to the table returned. *)
Definition survey_spec_table (w : World) (q_field_path : string)
    (out : list survey_node) : Py DataFrame :=
  df_output <- lift (Pd.select (output_frame out) output_columns) ;;
  df_q_field <- read_q_fields w q_field_path PyStr.tab ;;
  df_q_field <- lift (subscript df_q_field ["# Key"; "In survey"]) ;;
  df_q_field <- lift (Pd.set_columns df_q_field ["field"; "In survey"]) ;;
  df_merged <- lift (Pd.merge_left df_output df_q_field "field" "field" ("xml", "q_field")) ;;
  let df_merged := Pd.fillna (Str "NA") df_merged in
  texts <- lift (apply_select (columns df_merged) (rows df_merged)) ;;
  let df_merged := Pd.set_series df_merged "survey_question_text" texts in
  lift (Pd.drop df_merged ["question_text"; "In survey"]).

Definition create_survey_spec (w : World) (survey_xml_path q_field_path delim : string)
  : Py (option DataFrame) :=
  if negb (imports w ["pandas"; "os.path"; "xml.etree.ElementTree"]) then
    print "python package 'pandas', 'xml', and 'os' must be installed before using this function" ;;
    ret None
  else if isfile w survey_xml_path then
    try_except
      (doc <- lift (parse_xml w survey_xml_path) ;;
       st <- lift (walk walker_init (iterparse doc)) ;;
       df <- survey_spec_table w q_field_path (output st) ;;
       ret (Some df))
      (print "error occurred while parsing XML, please verify the file contains a valid xml structure and/or contact your local friendly python enthusiast" ;;
       ret None)
  else
    print "please check the xml file path, it appears to be invalid" ;;
    ret None.

(** ** Alt-set organizer *)

(** A method or attribute looked up on a value that may be [None]. *)
Definition attribute_of {A} (v : option A) : outcome A :=
  match v with
  | Some a => Returns a
  | None => Raises AttributeError
  end.

(** The variables the loop over the rows of one alt set updates.
    [value] is assigned inside the loop only and, being a local of
    the function, keeps its last content from one alt set to the next. *)
Record alt_acc : Type := mkAcc {
  alt_set_number : cell;
  alt_set_value : string;
  alt_set_label : string;
  value : option string
}.

(** [try: value = str(int(c)) except: value = str(c)]. *)
Definition export_value_text (c : cell) : string :=
  match cell_int c with
  | Returns z => PyStr.of_int z
  | Raises _ => cell_str c
  end.

(** One turn of the loop over [df_alt_set.iterrows()]. *)
Definition alt_row (cols : list string) (alt_number alt_label alt_value : string)
    (acc : alt_acc) (row : list cell) : outcome alt_acc :=
  (* alt set number *)
  number <- (if cell_eqb (alt_set_number acc) (Str "") then
               c <- Pd.row_get cols row alt_number ;;
               ret (if isnull c then alt_set_number acc else c)
             else ret (alt_set_number acc)) ;;
  (* alt set value *)
  vv <- (if alt_set_value acc =? "" then
           c <- Pd.row_get cols row alt_value ;;
           let v := if isnull c then value acc else Some (export_value_text c) in
           s <- read_local v ;;
           ret (v, s)
         else
           c <- Pd.row_get cols row alt_value ;;
           let v := export_value_text c in
           ret (Some v, (alt_set_value acc ++ "; " ++ v)%string)) ;;
  (* alt set label *)
  label <- (if alt_set_label acc =? "" then
              c <- Pd.row_get cols row alt_label ;;
              ret (if isnull c then alt_set_label acc else cell_str c)
            else
              c <- Pd.row_get cols row alt_label ;;
              ret (alt_set_label acc ++ "; " ++ cell_str c)%string) ;;
  ret (mkAcc number (snd vv) label (fst vv)).

Fixpoint alt_rows (cols : list string) (alt_number alt_label alt_value : string)
    (acc : alt_acc) (rs : list (list cell)) : outcome alt_acc :=
  match rs with
  | [] => Returns acc
  | r :: t =>
      acc' <- alt_row cols alt_number alt_label alt_value acc r ;;
      alt_rows cols alt_number alt_label alt_value acc' t
  end.

(** [dataframe[dataframe[alt_name] == name].reset_index()]: the rows
    whose name is [name], each with its position in [dataframe] in
    front. *)
Definition alt_set_group (dataframe : DataFrame) (alt_name : string) (name : cell)
  : outcome DataFrame :=
  keys <- Pd.series dataframe alt_name ;;
  let positions :=
    map (fun i => Num (Z.of_nat i)) (seq 0 (List.length (rows dataframe))) in
  let kept := filter (fun irk => cell_eqb (snd (snd irk)) name)
                     (combine positions (combine (rows dataframe) keys)) in
  Pd.reset_index (map fst kept)
                 (mkDataFrame (columns dataframe) (map (fun irk => fst (snd irk)) kept)).

(** The loop over the alt-set names: for each, one row
    (name, number, labels, values) of the result; [value] is handed
    on from one alt set to the next. *)
Fixpoint alt_sets (dataframe : DataFrame) (alt_name alt_number alt_label alt_value : string)
    (last_value : option string) (names : list cell) : outcome (list (list cell)) :=
  match names with
  | [] => Returns []
  | name :: rest =>
      df_alt_set <- alt_set_group dataframe alt_name name ;;
      acc <- alt_rows (columns df_alt_set) alt_number alt_label alt_value
               (mkAcc (Str "") "" "" last_value) (rows df_alt_set) ;;
      others <- alt_sets dataframe alt_name alt_number alt_label alt_value
                  (value acc) rest ;;
      ret ([name; alt_set_number acc; Str (alt_set_label acc); Str (alt_set_value acc)]
             :: others)
  end.

Definition alt_set_columns : list string :=
  ["alt_set_name"; "alt_set_number"; "alt_set_labels"; "alt_set_values"].

Definition organize_alt_sets (w : World) (dataframe : option DataFrame)
    (alt_name alt_number alt_label alt_value : string) : Py (option DataFrame) :=
  if negb (imports w ["pandas"]) then
    print "python package 'pandas' must be installed before using 'organize_alt_sets' function" ;;
    ret None
  else
    try_except
      (dataframe <- lift (attribute_of dataframe) ;;
       df_alt_set_names <- lift (Pd.series dataframe alt_name) ;;
       let alt_set_name_list := Pd.unique df_alt_set_names in
       rs <- lift (alt_sets dataframe alt_name alt_number alt_label alt_value
                     None alt_set_name_list) ;;
       df <- lift (Pd.select (mkDataFrame alt_set_columns rs) alt_set_columns) ;;
       ret (Some df))
      (print "and error occured while organizing the alt-set data, please check the integrity of the dataframe being passed in and that column names have been specified as parameters if different than Medallia's system defaults" ;;
       ret None).

(** ** K-field parser *)

(** The four [re.findall] calls on a calculation, concatenated. *)
Definition all_matches (k_field_calculation : string) : list string :=
  PyStr.findall_field "q" k_field_calculation
  ++ PyStr.findall_field "e" k_field_calculation
  ++ PyStr.findall_field "a" k_field_calculation
  ++ PyStr.findall_field "k" k_field_calculation.

(** [d[k] = v] on a dictionary kept in insertion order: a key that is
    there keeps its place and gets the new value. *)
Fixpoint dict_set {V} (d : list (string * V)) (k : string) (v : V)
  : list (string * V) :=
  match d with
  | [] => [(k, v)]
  | (k', v') :: t => if k' =? k then (k, v) :: t else (k', v') :: dict_set t k v
  end.

(** The first loop: the matches of every k-field, by its name. *)
Fixpoint k_field_dict (cols : list string) (rs : list (list cell))
    (d : list (string * list string)) : outcome (list (string * list string)) :=
  match rs with
  | [] => Returns d
  | row :: t =>
      key <- Pd.row_get cols row "# Key" ;;
      calc <- Pd.row_get cols row "Calculation" ;;
      let k_field_name := PyStr.strip_char PyStr.SPACE (cell_str key) in
      let k_field_calculation := cell_str calc in
      k_field_dict cols t (dict_set d k_field_name (all_matches k_field_calculation))
  end.

(** [[i.strip(' ') for i in l]]: only text has a [strip]. *)
Fixpoint strip_each (l : list cell) : outcome (list string) :=
  match l with
  | [] => Returns []
  | Str s :: t => ss <- strip_each t ;; ret (PyStr.strip_char PyStr.SPACE s :: ss)
  | _ :: _ => Raises AttributeError
  end.

(** [df.loc[:, "# Key"].unique().tolist()], stripped. *)
Definition field_list (df : option DataFrame) : outcome (list string) :=
  df <- attribute_of df ;;
  names <- Pd.series df "# Key" ;;
  strip_each (Pd.unique names).

(** The second loop: for every k-field of the dictionary, in its order,
    the fields of [all_list] found among its matches. *)
Definition k_field_edges (d : list (string * list string)) (all_list : list string)
  : list (string * string) :=
  flat_map (fun kv =>
              map (fun field => (fst kv, field))
                  (filter (fun field => existsb (String.eqb field) (snd kv)) all_list))
           d.

Definition parse_k_fields (w : World) (df_k_fields df_q_fields df_e_fields df_a_fields : option DataFrame)
  : Py (option DataFrame) :=
  if negb (imports w ["pandas"; "re"]) then
    print "python package 'pandas' and 're' must be installed before using 'parse_k_fields' function" ;;
    ret None
  else
    try_except
      (k <- lift (attribute_of df_k_fields) ;;
       d <- lift (k_field_dict (columns k) (rows k) []) ;;
       q_field_list <- lift (field_list df_q_fields) ;;
       e_field_list <- lift (field_list df_e_fields) ;;
       a_field_list <- lift (field_list df_a_fields) ;;
       k_field_list <- lift (field_list df_k_fields) ;;
       let all_list := e_field_list ++ q_field_list ++ a_field_list ++ k_field_list in
       ret (Some (mkDataFrame ["k-field"; "components"]
                    (map (fun e => [Str (fst e); Str (snd e)])
                         (k_field_edges d all_list)))))
      (print "error occurred while parsing k-fields, please verify the integrity of the inputs to 'parse_k_fields' function" ;;
       ret None).

(** The edges of a table returned by [parse_k_fields]. *)
Definition edges_of (df : DataFrame) : list (cell * cell) :=
  map (fun r => (nth 0 r NaN, nth 1 r NaN)) (rows df).

(** ** Export-spec assembler *)

(** [strip_cols(dataframe, col_name)]; the frame is returned as it was
    passed when nothing can be stripped. *)
Definition strip_cols (dataframe : option DataFrame) (col_name : option string)
  : outcome (option DataFrame) :=
  match col_name with
  | Some (String a s) =>
      ret (option_map (fun df => strip_column df (String a s)) dataframe)
  | _ =>
      df <- attribute_of dataframe ;;
      ret (Some (strip_all_columns df))
  end.

(** A value used where a data frame is needed. *)
Definition frame_of (v : option DataFrame) : outcome DataFrame :=
  match v with
  | Some df => Returns df
  | None => Raises TypeError
  end.

(** The assignments of a [try] block, one after the other: the values
    assigned before the first exception, what was printed, and whether an
    exception ended the block. *)
Fixpoint assign_each {V} (actions : list (Py V)) : list string * list V * bool :=
  match actions with
  | [] => ([], [], false)
  | (out, Returns v) :: rest =>
      let '(out', vs, raised) := assign_each rest in (out ++ out', v :: vs, raised)
  | (out, Raises _) :: _ => (out, [], true)
  end.

Definition field_columns : list string := ["# Key"; "Name"; "AlternativeSet"].

Definition export_spec_columns : list string :=
  ["Column Number"; "Export Number"; "Export Name"; "survey_question_text";
   "Name"; "Export Fields"; "alt_set_name"; "alt_set_labels"; "alt_set_values"].

(** The values [create_export_spec] assigns to its arguments before it
    reads them. *)
Definition fixed_q_path : string := "tms_Q-Fields_Q-Field Details_bulk.txt".
Definition fixed_e_path : string := "tms_E-Fields.txt".
Definition fixed_k_path : string := "tms_K-Fields_K-Field Details_bulk.txt".
Definition fixed_alt_set_path : string := "tms_Alt Sets.txt".
Definition fixed_export_path : string := "tms_Exports_Export Details_bulk.txt".
Definition fixed_export_name : string :=
  "ECSC Daily File - PLS (with survey data flag)".
Definition fixed_survey_xml_path : string :=
  "/Users/kjohnson/Documents/Projects/TMNA/2018_01_16_Survey_XML_Parser/TMNA_PLS.xml".

(** [create_export_spec].  Its arguments are overwritten by fixed values
    before they are read.  The five readers run under a [try] whose
    handler prints and does not return; the rest of the body is outside
    any [try]. *)
Definition create_export_spec (w : World)
    (q_path e_path k_path alt_set_path export_path export_name survey_xml_path delim : string)
  : Py (option DataFrame) :=
  if negb (imports w ["pandas"]) then
    print "python package 'pandas' must be installed before using 'create_export_spec' function" ;;
    ret None
  else
    let q_path := fixed_q_path in
    let e_path := fixed_e_path in
    let k_path := fixed_k_path in
    let alt_set_path := fixed_alt_set_path in
    let export_path := fixed_export_path in
    let export_name := fixed_export_name in
    let survey_xml_path := fixed_survey_xml_path in
    let delim := PyStr.tab in
    let '(out, vals, raised) :=
      assign_each [read_q_fields w q_path delim;
                   read_e_fields w e_path delim;
                   read_k_fields w k_path delim;
                   read_alt_sets w alt_set_path delim;
                   read_exports w export_path export_name delim] in
    emit out ;;
    (if raised then
       print "failure while reading in text files for function 'create_export_spec'. Ensure the paths are valid and the files use the correct delimeter"
     else ret tt) ;;
    (* combine fields into one dataframe *)
    df_q <- lift (read_local (nth_error vals 0)) ;;
    df_q_subset <- lift (subscript df_q field_columns) ;;
    df_e <- lift (read_local (nth_error vals 1)) ;;
    df_e_subset <- lift (subscript df_e field_columns) ;;
    df_k <- lift (read_local (nth_error vals 2)) ;;
    df_k_subset <- lift (subscript df_k field_columns) ;;
    let df_combined := Pd.concat [df_q_subset; df_e_subset; df_k_subset] in
    df_combined <- lift (strip_cols (Some df_combined) None) ;;
    df_export <- lift (read_local (nth_error vals 4)) ;;
    df_export <- lift (strip_cols df_export None) ;;
    (* join to export df to associate alt-set number to a field *)
    l <- lift (frame_of df_export) ;;
    r <- lift (frame_of df_combined) ;;
    df_joined <- lift (Pd.merge_left l r "Export Fields" "# Key" ("_x", "_y")) ;;
    (* convert alt set number to an int so it joins successfully *)
    df_alt <- lift (read_local (nth_error vals 3)) ;;
    df_alt_set <- organize_alt_sets w df_alt "Name" "AltSetNumber" "InSurvey" "ExportValue" ;;
    df_alt_set <- lift (frame_of df_alt_set) ;;
    numbers <- lift (Pd.series df_alt_set "alt_set_number") ;;
    numbers <- lift (Pd.to_numeric numbers) ;;
    let df_alt_set := Pd.set_series df_alt_set "alt_set_number" numbers in
    (* join alt sets onto field list *)
    df_alt_set_joined <-
      lift (Pd.merge_left df_joined df_alt_set "AlternativeSet" "alt_set_number" ("_x", "_y")) ;;
    (* survey build info *)
    df_survey_spec <- create_survey_spec w survey_xml_path q_path PyStr.tab ;;
    df_survey_spec <- lift (subscript df_survey_spec ["field"; "survey_question_text"]) ;;
    df_survey_spec <- lift (Pd.set_columns df_survey_spec ["# Key"; "survey_question_text"]) ;;
    df_merged <-
      lift (Pd.merge_left df_alt_set_joined df_survey_spec "# Key" "# Key" ("export", "survey")) ;;
    let df_merged := Pd.fillna (Str "NA") df_merged in
    df_export_spec <- lift (Pd.select df_merged export_spec_columns) ;;
    ret (Some (Pd.rename df_export_spec
                 [("Name", "Field Name"); ("survey_question_text", "Survey Question Text")])).

(** ** Properties of the traversal *)

(** The page numbers of the records of a traversal whose counter stands at
    [p]: the counter goes up by one at every PAGE_BREAK start event and
    at no other event, and every start event emits a record with the
    counter's value. *)
Fixpoint spec_pages (p : Z) (evs : list (event * attributes)) : list Z :=
  match evs with
  | [] => []
  | ev :: rest =>
      let p' := if page_break_start ev then (p + 1)%Z else p in
      (if is_start (fst ev) then [p'] else []) ++ spec_pages p' rest
  end.

(** The same from the types of the records alone: one more at every
    record of type PAGE_BREAK, that record included. *)
Fixpoint pages_by_type (p : Z) (tys : list string) : list Z :=
  match tys with
  | [] => []
  | ty :: rest =>
      let p' := if ty =? "PAGE_BREAK" then (p + 1)%Z else p in
      p' :: pages_by_type p' rest
  end.

(** The number of PAGE_BREAK types in a list. *)
Definition page_breaks (tys : list string) : Z :=
  Z.of_nat (List.length (filter (fun ty => ty =? "PAGE_BREAK") tys)).

(** The state in which the loop can go on whatever comes: a record has been
    emitted, the node counter is the number of records, and the variables
    read when a record is emitted are bound. *)
Definition ready (st : walker) : Prop :=
  xml_node_num st = Z.of_nat (List.length (output st)) /\
  output st <> [] /\
  question_text st <> None /\
  group_name (group st) <> None /\
  group_text (group st) <> None /\
  group_condition (group st) <> None.

(** ** The question text as the specification words it *)

(** The labels the q-field table, cut down to its key and its "In survey"
    column, holds for a field: one for every row with that key, and a null
    when there is none. *)
Definition looked_up (q : DataFrame) (field : string) : list cell :=
  match filter (fun r => cell_same (Str field) (nth 0 r NaN)) (rows q) with
  | [] => [NaN]
  | ms => map (fun r => nth 1 r NaN) ms
  end.

(** The final question text: the label looked up when the text of the
    traversal is the sentinel and the label is there, the text of the
    traversal in every other case. *)
Definition spec_question_text (n : survey_node) (label : cell) : cell :=
  if (o_question_text n =? "NA") && negb (isnull label) then label
  else Str (o_question_text n).

Definition survey_spec_columns : list string :=
  ["xml_node_number"; "xml_node_depth"; "survey_page_number"; "group_name";
   "group_text"; "group_condition"; "type"; "name"; "field"; "condition";
   "survey_question_text"].

(** The row of the survey specification for a record and its final
    question text. *)
Definition survey_spec_row (n : survey_node) (text : cell) : list cell :=
  [Num (o_xml_node_number n); Num (o_xml_node_depth n);
   Num (o_survey_page_number n); Str (o_group_name n); Str (o_group_text n);
   Str (o_group_condition n); Str (o_type n); Str (o_name n); Str (o_field n);
   Str (o_condition n); text].

(** ** Row order and edge sets *)

(** Two outcomes of the same kind: both raise, or both return and the
    values returned are related. *)
Definition agree {A} (R : A -> A -> Prop) (x y : outcome A) : Prop :=
  match x, y with
  | Returns a, Returns b => R a b
  | Raises _, Raises _ => True
  | _, _ => False
  end.

(** Lists with the same elements. *)
Definition same_elements {A} (l l' : list A) : Prop :=
  forall x, In x l <-> In x l'.

(** The same table with its rows in another order. *)
Definition reordered (df df' : DataFrame) : Prop :=
  columns df = columns df' /\ Permutation (rows df) (rows df').

(** The names under which [parse_k_fields] files the rows of the k-field
    table: their keys as text, blanks stripped. *)
Definition k_field_names (k : DataFrame) : list string :=
  match Pd.series k "# Key" with
  | Returns col => map (fun c => PyStr.strip_char PyStr.SPACE (cell_str c)) col
  | Raises _ => []
  end.

(** The entry of the dictionary for a row of the k-field table whose key
    is in column [i] and whose calculation is in column [j]. *)
Definition k_entry (i j : nat) (row : list cell) : string * list string :=
  (PyStr.strip_char PyStr.SPACE (cell_str (nth i row NaN)),
   all_matches (cell_str (nth j row NaN))).

(** Two results of [parse_k_fields] with the same set of edges: both
    [None], or two tables whose edges are the same. *)
Definition same_edges (r r' : option DataFrame) : Prop :=
  match r, r' with
  | None, None => True
  | Some df, Some df' => same_elements (edges_of df) (edges_of df')
  | _, _ => False
  end.

(** ** The strings of an alt set *)

(** The number of cells of a column, among the rows of the alt set
    [name], that are not null. *)
Definition non_null_cells (df : DataFrame) (name : cell) (column : string) : nat :=
  match Pd.series df "Name", Pd.series df column with
  | Returns names, Returns col =>
      List.length (filter (fun nc => cell_eqb (fst nc) name && negb (isnull (snd nc)))
                          (combine names col))
  | _, _ => 0
  end.

(** The cells of a label column that the loop of [organize_alt_sets]
    passes over before it starts the labels string: nulls and empty
    text. *)
Fixpoint skip_leading (cells : list cell) : list cell :=
  match cells with
  | [] => []
  | c :: rest => if isnull c || (cell_str c =? "") then skip_leading rest else cells
  end.

(** ** Sample worlds and inputs *)

(** Every module can be imported and there is no file at any path. *)
Definition no_files : World :=
  mkWorld (fun _ => true) (fun _ => false) (fun _ => Raises OSError)
          (fun _ _ _ => Raises OSError) (fun _ => Raises ParseError).

(** The cells of a line of a bulk download, joined by tabs, with the end
    of line. *)
Definition tab_line (cells : list string) : string :=
  (String.concat PyStr.tab cells ++ PyStr.nl)%string.

(** An exports file with two header lines, one export named
    [Weekly file] and the marker that ends the table. *)
Definition sample_exports_lines : list string :=
  [tab_line ["Exports"];
   tab_line ["# Key"; "Name"];
   tab_line (["7"; " Weekly file "] ++ repeat "" 15 ++ ["q_1 : e_2"; "k_3"]);
   tab_line ["%%EpisodeCondition"];
   tab_line ["7"; "Monthly file"]].

Definition exports_only : World :=
  mkWorld (fun _ => true) (fun p => p =? "exports.txt")
          (fun p => if p =? "exports.txt"
                    then Returns (mkFileRead sample_exports_lines None)
                    else Raises OSError)
          (fun _ _ _ => Raises EmptyDataError) (fun _ => Raises ParseError).

(** A node with a type. *)
Definition typed (ty : string) (extra : attributes) (children : list element)
  : element :=
  Element (("type", ty) :: extra) children.

(** A small survey: a question, a page break, a group that holds an
    ALT_COLUMN around a SIMPLE_QUESTION and then a drop-down, a second
    page break and a closing explanation. *)
Definition sample_survey : element :=
  Element [("name", "survey")]
    [typed "SIMPLE_QUESTION" [("field", "q_1")] [];
     typed "PAGE_BREAK" [] [];
     typed "GROUP" [("name", "visit"); ("text", "Your visit")]
       [typed "ALT_COLUMN" [("name", "scale")]
          [typed "SIMPLE_QUESTION" [("field", "q_2")] []];
        typed "DROP_DOWN" [("field", "q_3")] []];
     typed "PAGE_BREAK" [] [];
     typed "EXPLANATION" [("text", "Thank you")] []].

(** A q-field table with the two columns the survey specification
    reads. *)
Definition sample_q_fields : DataFrame :=
  mkDataFrame ["index"; "# Key"; "Name"; "In survey"]
    [[Num 0; Str "q_1 "; Str "Overall"; Str " How was your visit? "];
     [Num 1; Str "q_3"; Str "Store"; NaN]].

(** A world with a survey document and a q-field file. *)
Definition survey_world : World :=
  mkWorld (fun _ => true)
          (fun p => (p =? "survey.xml") || (p =? "q.txt"))
          (fun _ => Raises OSError)
          (fun p _ _ => if p =? "q.txt" then Returns sample_q_fields
                        else Raises OSError)
          (fun p => if p =? "survey.xml" then Returns sample_survey
                    else Raises ParseError).

Definition k_table (rs : list (list cell)) : DataFrame :=
  mkDataFrame ["# Key"; "Calculation"] rs.

Definition key_table (keys : list string) : DataFrame :=
  mkDataFrame ["# Key"] (map (fun k => [Str k]) keys).

(** The scenario of the specification: one k-field over three
    q-fields. *)
Definition sample_k_fields : DataFrame :=
  k_table [[Str "k_1"; Str "q_5 + q_6 * 2"]].

Definition sample_q_keys : DataFrame := key_table ["q_5"; "q_6"; "q_7"].

(** A k-field table in which one key comes twice, and the same rows the
    other way round. *)
Definition twice_k_1 : DataFrame :=
  k_table [[Str "k_1"; Str "q_5"]; [Str "k_1"; Str "q_6"]].

Definition twice_k_1_reversed : DataFrame :=
  k_table [[Str "k_1"; Str "q_6"]; [Str "k_1"; Str "q_5"]].

(** Two k-fields with different keys, and the same rows swapped. *)
Definition two_k_fields : DataFrame :=
  k_table [[Str "k_1"; Str "q_5 + q_6 * 2"]; [Str " k_2"; Str "k_1 - q_7"]].

Definition two_k_fields_swapped : DataFrame :=
  k_table [[Str " k_2"; Str "k_1 - q_7"]; [Str "k_1"; Str "q_5 + q_6 * 2"]].

Definition alt_table (rs : list (list cell)) : DataFrame :=
  mkDataFrame ["AltSetNumber"; "Name"; "InSurvey"; "ExportValue"] rs.

(** The scenario of the specification: the alt set [YesNo] with its two
    alternatives. *)
Definition yes_no : DataFrame :=
  alt_table [[Str "1"; Str "YesNo"; Str "Y"; Str "1"];
             [Str "1"; Str "YesNo"; Str "N"; Str "2"]].

(** The same alt set with a row between the two whose label and export
    value are null. *)
Definition yes_no_gap : DataFrame :=
  alt_table [[Str "1"; Str "YesNo"; Str "Y"; Str "1"];
             [Str "1"; Str "YesNo"; NaN; NaN];
             [Str "1"; Str "YesNo"; Str "N"; Str "2"]].

(** Two alt sets, the second with a null export value. *)
Definition second_without_value : DataFrame :=
  alt_table [[Str "1"; Str "YesNo"; Str "Y"; Str "1"];
             [Str "2"; Str "Other"; Str "Other"; NaN]].

(** An alt set whose first export value is null. *)
Definition first_without_value : DataFrame :=
  alt_table [[Str "1"; Str "YesNo"; Str "Y"; NaN];
             [Str "1"; Str "YesNo"; Str "N"; Str "2"]].

(** A group inside a group: the inner one holds the first question, the
    second question lies in the outer group after the inner one. *)
Definition nested_groups : element :=
  Element [("name", "survey")]
    [typed "GROUP" [("name", "outer")]
       [typed "GROUP" [("name", "inner")]
          [typed "SIMPLE_QUESTION" [("field", "q_1")] []];
        typed "SIMPLE_QUESTION" [("field", "q_2")] []]].

(** ** Records, depths and group context of a traversal *)

(** The nodes of the start events, in order. *)
Definition start_nodes (evs : list (event * attributes)) : list attributes :=
  map snd (filter (fun ev => is_start (fst ev)) evs).

(** What a record says about its node: type, name, field and condition,
    ['NA'] for an attribute the node does not have. *)
Definition node_facts (node : attributes) : string * string * string * string :=
  (node_type node, attrib_get node "name" "NA", attrib_get node "field" "NA",
   attrib_get node "condition" "NA").

Definition record_facts (n : survey_node) : string * string * string * string :=
  (o_type n, o_name n, o_field n, o_condition n).

(** The nesting depths of the records of a traversal that starts at depth
    [d]: one up at every start event, one down at every end event, a
    record at every start event with the depth after the step up. *)
Fixpoint spec_depths (d : Z) (evs : list (event * attributes)) : list Z :=
  match evs with
  | [] => []
  | ev :: rest =>
      let d' := if is_start (fst ev) then (d + 1)%Z else (d - 1)%Z in
      (if is_start (fst ev) then [d'] else []) ++ spec_depths d' rest
  end.

(** The depths of the nodes of a document below depth [d], in document
    order: the root of the document has depth 1. *)
Fixpoint tree_depths (d : Z) (e : element) : list Z :=
  match e with
  | Element _ children => (d + 1)%Z :: flat_map (tree_depths (d + 1)) children
  end.

(** The group a record is filed under. *)
Definition record_group (n : survey_node) : string * string * string :=
  (o_group_name n, o_group_text n, o_group_condition n).

(** The group attributes of a GROUP node. *)
Definition group_of (node : attributes) : string * string * string :=
  (attrib_get node "name" "NA", attrib_get node "text" "NA",
   attrib_get node "condition" "NA").

(** The start of a GROUP node. *)
Definition group_start (ev : event * attributes) : bool :=
  (node_type (snd ev) =? "GROUP") && is_start (fst ev).

(** The question text of a record emitted outside any group, from its
    node and the record before it. *)
Definition text_outside_group (before : list survey_node) (node : attributes)
  : string :=
  let ty := node_type node in
  if (ty =? "ALT_COLUMN")
     && match last (map Some before) None with
        | Some p => o_type p =? "SIMPLE_QUESTION"
        | None => false
        end
  then match last (map Some before) None with
       | Some p => ("q-field text - " ++ o_field p)%string
       | None => "NA"
       end
  else if ty =? "ALT_ENTRY" then attrib_get node "name" "NA"
  else if existsb (String.eqb ty) types then attrib_get node "text" "NA"
  else "NA".

(** The nesting depth after a run of events that starts at depth [d]. *)
Fixpoint depth_after (d : Z) (evs : list (event * attributes)) : Z :=
  match evs with
  | [] => d
  | ev :: rest =>
      depth_after (if is_start (fst ev) then (d + 1)%Z else (d - 1)%Z) rest
  end.

(** The nodes of a document, in document order. *)
Fixpoint tree_nodes (e : element) : list attributes :=
  match e with
  | Element a children => a :: flat_map tree_nodes children
  end.

(** A world with the survey document and no q-field file. *)
Definition survey_only : World :=
  mkWorld (fun _ => true) (fun p => p =? "survey.xml")
          (fun _ => Raises OSError) (fun _ _ _ => Raises OSError)
          (fun p => if p =? "survey.xml" then Returns sample_survey
                    else Raises ParseError).

(** An alt-set file: a preamble, the marker line, the line of headers
    that is dropped, and two alternatives of the alt set [YesNo], the
    second one a short line. *)
Definition sample_alt_lines : list string :=
  [tab_line ["Alternative sets"];
   tab_line ["%%AlternativeDb"];
   tab_line ["AlternativeNumber"; "Name"; "InSurvey"];
   tab_line (["1_1"; " YesNo "; "Yes"; "Yes"; "Yes"; "Y"; ""; "1"; "1"; "1"; "1"]
             ++ repeat "" 7);
   tab_line ["1_2"; "YesNo"; "No"]].

Definition alt_sets_only : World :=
  mkWorld (fun _ => true) (fun p => p =? "alt_sets.txt")
          (fun p => if p =? "alt_sets.txt"
                    then Returns (mkFileRead sample_alt_lines None)
                    else Raises OSError)
          (fun _ _ _ => Raises EmptyDataError) (fun _ => Raises ParseError).

(** A file without any marker line. *)
Definition no_marker_file : World :=
  mkWorld (fun _ => true) (fun p => p =? "plain.txt")
          (fun p => if p =? "plain.txt"
                    then Returns (mkFileRead [tab_line ["a"; "b"]; tab_line ["1"; "2"]] None)
                    else Raises OSError)
          (fun _ _ _ => Raises EmptyDataError) (fun _ => Raises ParseError).

(** A k-field file whose table starts after the third line, and a CSV
    reader that gives the table when exactly those lines are skipped. *)
Definition sample_k_lines : list string :=
  [tab_line ["K-Fields"];
   tab_line ["exported"];
   tab_line ["%%CalculatedSurveyField"];
   tab_line ["# Key"; "Calculation"];
   tab_line ["k_1 "; "q_5 + q_6 * 2"]].

Definition sample_k_frame : DataFrame :=
  mkDataFrame ["index"; "# Key"; "Calculation"]
    [[Num 0; Str "k_1 "; Str "q_5 + q_6 * 2"]].

Definition k_fields_only : World :=
  mkWorld (fun _ => true) (fun p => p =? "k_fields.txt")
          (fun p => if p =? "k_fields.txt"
                    then Returns (mkFileRead sample_k_lines None)
                    else Raises OSError)
          (fun p sep skiprows =>
             if (p =? "k_fields.txt") && (sep =? PyStr.tab) && Nat.eqb skiprows 3
             then Returns sample_k_frame else Raises EmptyDataError)
          (fun _ => Raises ParseError).

(** ** The rows of an organized alt-set table *)

(** The rows of a table whose cell in column [i] equals [name] in
    Python's sense, so that a null name has no rows. *)
Definition group_rows (df : DataFrame) (i : nat) (name : cell) : list (list cell) :=
  filter (fun r => cell_eqb (nth i r NaN) name) (rows df).

(** The number of an alt set: the first cell of the number column that is
    neither null nor empty text, and empty text when there is none. *)
Definition first_number (cells : list cell) : cell :=
  hd (Str "") (filter (fun c => negb (isnull c) && negb (cell_eqb c (Str ""))) cells).

(** The labels of an alt set: the text of its label cells from the first
    one on that is neither null nor empty, joined by ["; "]. *)
Definition labels_text (cells : list cell) : string :=
  String.concat "; " (map cell_str (skip_leading cells)).

(** ** The row a k-field name stands for *)

(** [r] is the last row of [rs] filed under [key]: the dictionary of
    [parse_k_fields] keeps one list of matches per name, and a later row
    with the same name replaces it. *)
Definition last_row_named (i j : nat) (rs : list (list cell)) (key : string)
    (r : list cell) : Prop :=
  exists pre post,
    rs = pre ++ r :: post /\
    fst (k_entry i j r) = key /\
    ~ In key (map (fun x => fst (k_entry i j x)) post).

(** ** What stripping does to a cell *)

Definition is_text (c : cell) : bool :=
  match c with Str _ => true | _ => false end.

(** A cell of a column after [.str.strip()]: text without the white
    space around it, and null for anything that is not text. *)
Definition strip_cell (c : cell) : cell :=
  match c with
  | Str s => Str (PyStr.strip s)
  | _ => NaN
  end.

(** A cell as it was, or as [.str.strip()] leaves it. *)
Definition stripped_or_kept (c c' : cell) : Prop :=
  c' = c \/ c' = strip_cell c.

(** ** Tables whose rows are as long as their header *)

Definition well_formed (df : DataFrame) : Prop :=
  Forall (fun r => List.length r = List.length (columns df)) (rows df).

(** The labels of the table [create_export_spec] returns. *)
Definition export_spec_labels : list string :=
  ["Column Number"; "Export Number"; "Export Name"; "Survey Question Text";
   "Field Name"; "Export Fields"; "alt_set_name"; "alt_set_labels"; "alt_set_values"].

(** The rows of a table made from those of another by left joins: every
    row of the first, in order, with at least one extension to its
    right. *)
Definition extends_rows (L M : list (list cell)) : Prop :=
  exists ext : list cell -> list (list cell),
    (forall x, ext x <> []) /\
    M = flat_map (fun x => map (fun t => x ++ t) (ext x)) L.

(** The four cells of a row of the export spec that come from the
    exports file: column number, export number, export name and
    field. *)
Definition export_part (row : list cell) : list cell :=
  [nth 0 row NaN; nth 1 row NaN; nth 2 row NaN; nth 5 row NaN].

(** A world that holds every input of [create_export_spec] under the
    names the function reads: three field tables, an alt-set file, an
    exports file with the export asked for, and a survey document. *)
Definition field_table (extra : string) (rs : list (list cell)) : DataFrame :=
  mkDataFrame ["index"; "# Key"; "Name"; "AlternativeSet"; extra] rs.

Definition export_spec_exports : list string :=
  [tab_line ["Exports"];
   tab_line ["# Key"; "Name"];
   tab_line (["7"; fixed_export_name] ++ repeat "" 15 ++ ["q_1 : e_2 : x_9"; "k_3"]);
   tab_line ["%%EpisodeCondition"]].

Definition export_spec_world : World :=
  mkWorld (fun _ => true)
          (fun p => existsb (String.eqb p)
                      [fixed_q_path; fixed_e_path; fixed_k_path; fixed_alt_set_path;
                       fixed_export_path; fixed_survey_xml_path])
          (fun p => if p =? fixed_alt_set_path
                    then Returns (mkFileRead sample_alt_lines None)
                    else if p =? fixed_export_path
                    then Returns (mkFileRead export_spec_exports None)
                    else if p =? fixed_k_path
                    then Returns (mkFileRead sample_k_lines None)
                    else Raises OSError)
          (fun p _ _ =>
             if p =? fixed_q_path
             then Returns (field_table "In survey"
                             [[Num 0; Str "q_1 "; Str "Overall"; Num 1;
                               Str " How was your visit? "]])
             else if p =? fixed_e_path
             then Returns (field_table "In survey"
                             [[Num 0; Str "e_2"; Str "Store"; NaN; NaN]])
             else if p =? fixed_k_path
             then Returns (field_table "Calculation"
                             [[Num 0; Str "k_3 "; Str "Score"; NaN; Str "q_1 * 2"]])
             else Raises EmptyDataError)
          (fun p => if p =? fixed_survey_xml_path then Returns sample_survey
                    else Raises ParseError).

(** ** File concatenation *)

(** [s[-1:]]: the last character of [s] as a string, empty for the empty
    string. *)
Definition last_slice (s : string) : string :=
  substring (String.length s - 1) 1 s.

(** [s.endswith(suffix)]. *)
Definition endswith (s suffix : string) : bool :=
  let n := String.length s in
  let m := String.length suffix in
  (m <=? n)%nat && (substring (n - m) m s =? suffix).

(** The directories [concatenate_files] looks at. *)
Record Directories : Type := mkDirectories {
  (** [os.path.isdir] *)
  isdir : string -> bool;
  (** [os.listdir] *)
  listdir : string -> outcome (list string)
}.

Definition row_same (r r' : list cell) : bool :=
  if list_eq_dec cell_eq_dec r r' then true else false.

(** [df.drop_duplicates()]: of equal rows the first one stays. *)
Fixpoint drop_duplicates_go (seen rs : list (list cell)) : list (list cell) :=
  match rs with
  | [] => []
  | r :: t => if existsb (row_same r) seen then drop_duplicates_go seen t
              else r :: drop_duplicates_go (r :: seen) t
  end.

Definition drop_duplicates (df : DataFrame) : DataFrame :=
  mkDataFrame (columns df) (drop_duplicates_go [] (rows df)).

(** The loop of [dataframe_concat]: every file is read, gets its name in
    the column [source_file], and is put under what was read before. *)
Fixpoint concat_loop (w : World) (path delim : string)
    (df_output : option DataFrame) (filename_list : list string)
  : outcome (option DataFrame) :=
  match filename_list with
  | [] => Returns df_output
  | file :: rest =>
      let full_path := (path ++ file)%string in
      df_temp <- read_csv w full_path delim 0 ;;
      let df_temp :=
        Pd.set_series df_temp "source_file"
          (repeat (Str file) (List.length (rows df_temp))) in
      let df_output :=
        match df_output with
        | Some d => Pd.concat [d; df_temp]
        | None => df_temp
        end in
      concat_loop w path delim (Some df_output) rest
  end.

(** [dataframe_concat]: the loop, then the column [index] is dropped from
    its result, which is [None] when there was no file. *)
Definition dataframe_concat (w : World) (path delim : string)
    (filename_list : list string) : outcome DataFrame :=
  df_output <- concat_loop w path delim None filename_list ;;
  df_output <- attribute_of df_output ;;
  Pd.drop df_output ["index"].

(** The path with a slash at its end. *)
Definition with_slash (path : string) : string :=
  if negb (last_slice path =? "/") then (path ++ "/")%string else path.

(** The files to read: the list passed in, or the names in the directory
    that end with [file_type]. *)
Definition file_names (d : Directories) (path file_type : string)
    (filename_list : option (list string)) : outcome (list string) :=
  match filename_list with
  | Some l => Returns l
  | None =>
      names <- listdir d path ;;
      ret (filter (fun file => endswith file file_type) names)
  end.

Definition concatenate_files (w : World) (d : Directories)
    (path file_type delim : string) (drop_dupes : option string)
    (filename_list : option (list string)) : Py (option DataFrame) :=
  if negb (imports w ["pandas"; "os.path"]) then
    print "python package 'pandas' and 'os' must be installed before using 'concatenate_files' function" ;;
    ret None
  else
    try_except
      (let path := with_slash path in
       if isdir d path then
         filename_list <- lift (file_names d path file_type filename_list) ;;
         df_output <- lift (dataframe_concat w path delim filename_list) ;;
         let df_output :=
           match drop_dupes with
           | Some "Y" => drop_duplicates df_output
           | _ => df_output
           end in
         ret (Some df_output)
       else
         print "please check the path to the directory holding the input files, it appears to be invalid" ;;
         ret None)
      (print "error occurred while concatenating files, check the file path and the number and labeling of columns" ;;
       ret None).

(** The cells of a column, none when the table has no such column. *)
Definition cells_of (df : DataFrame) (name : string) : list cell :=
  match Pd.series df name with
  | Returns col => col
  | Raises _ => []
  end.

(** Two files with the same columns in a directory, the second one a
    copy of the first. *)
Definition daily_file : DataFrame :=
  mkDataFrame ["index"; "vin"; "score"]
    [[Num 0; Str "A1"; Num 9]; [Num 1; Str "B2"; Num 7]].

Definition two_daily_files : World :=
  mkWorld (fun _ => true) (fun _ => true) (fun _ => Raises OSError)
          (fun p sep _ =>
             if ((p =? "data/mon.txt") || (p =? "data/tue.txt")) && (sep =? PyStr.tab)
             then Returns daily_file else Raises OSError)
          (fun _ => Raises ParseError).

Definition data_directory : Directories :=
  mkDirectories (fun p => p =? "data/")
                (fun p => if p =? "data/"
                          then Returns ["mon.txt"; "notes.md"; "tue.txt"]
                          else Raises OSError).

(** * Properties *)

(** ** Python strings on examples *)

Example split_tab :
  PyStr.split PyStr.tab ("a" ++ PyStr.tab ++ PyStr.tab ++ "b c") = ["a"; ""; "b c"].
Proof. reflexivity. Qed.

Example split_colon : PyStr.split " : " "q_1 : q_2 :  : e_3" = ["q_1"; "q_2"; ""; "e_3"].
Proof. reflexivity. Qed.

Example findall_q : PyStr.findall_field "q" "q_5 + q_6 * 2 - xq_q_7,q_ q" = ["q_5"; "q_6"; "q_q_7"].
Proof. reflexivity. Qed.

Example to_int_ex : map PyStr.to_int [" 007 "; "-1_0"; "1.0"; ""; "+"; "1__0"] =
  [Some 7%Z; Some (-10)%Z; None; None; None; None].
Proof. reflexivity. Qed.

Example of_int_ex : map PyStr.of_int [0%Z; 12%Z; (-5)%Z] = ["0"; "12"; "-5"].
Proof. reflexivity. Qed.

Example count_ex : PyStr.count "; " "Y; nan; N" = 2.
Proof. reflexivity. Qed.


(** ** Outcomes *)

(** Unfolds the monads' operations and nothing else. *)
Ltac py_simpl :=
  cbn [bind ret Monad_Py Monad_outcome lift try_except try_pure print app
       fst snd].

Lemma py_index_nat {A} (l : list A) (i : nat) :
  py_index l (Z.of_nat i) =
  match nth_error l i with
  | Some a => Returns a
  | None => Raises IndexError
  end.
Proof.
  unfold py_index.
  destruct (Z.ltb_spec (Z.of_nat i) 0); [lia |].
  rewrite Nat2Z.id.
  destruct (nth_error l i) eqn:E.
  - assert (i < List.length l)%nat by (apply nth_error_Some; congruence).
    destruct (Z.leb_spec 0 (Z.of_nat i)); [| lia].
    destruct (Z.ltb_spec (Z.of_nat i) (Z.of_nat (List.length l))); [| lia].
    reflexivity.
  - destruct (_ && _)%bool; reflexivity.
Qed.

Lemma result_bind {A B} (m : Py A) (k : A -> Py B) :
  result (bind m k) =
  match result m with
  | Returns a => result (k a)
  | Raises e => Raises e
  end.
Proof.
  destruct m as [out [a | e]]; simpl; [destruct (k a) |]; reflexivity.
Qed.

(** One step into a sequence of statements. *)
Ltac next :=
  rewrite result_bind;
  cbn [result snd lift emit nth_error read_local ret Monad_Py].

Lemma result_lift {A} (o : outcome A) : result (lift o) = o.
Proof. reflexivity. Qed.

(** A [try] whose handler prints one line and returns [None] prints at
    most that line more and never raises. *)
Lemma try_except_returns {A} (body : Py (option A)) (msg : string) :
  exists out v, try_except body (print msg ;; ret None) = (out, Returns v).
Proof.
  destruct body as [out [v | e]]; simpl; eauto.
Qed.

(** ** Bulk-file readers *)

Lemma read_plain_fields_missing (m1 m2 m3 : string) (w : World) (path delim : string) :
  isfile w path = false ->
  exists msg, read_plain_fields m1 m2 m3 w path delim = ([msg], Returns None).
Proof.
  intros H. unfold read_plain_fields. rewrite H.
  destruct (imports w _); simpl; eauto.
Qed.

(** C6: a reader given a path at which there is no file prints one
    diagnostic line and returns [None]; it raises nothing.  This holds for
    each of the six readers. *)
Theorem reader_missing_file (w : World) (path delim export_name : string) :
  isfile w path = false ->
  forall r,
    In r [read_q_fields w path delim; read_e_fields w path delim;
          read_a_fields w path delim; read_k_fields w path delim;
          read_alt_sets w path delim; read_exports w path export_name delim] ->
    exists msg, r = ([msg], Returns None).
Proof.
  intros H r Hr. simpl in Hr.
  destruct Hr as [<- | [<- | [<- | [<- | [<- | [<- | []]]]]]].
  - now apply read_plain_fields_missing.
  - now apply read_plain_fields_missing.
  - now apply read_plain_fields_missing.
  - unfold read_k_fields. rewrite H. destruct (imports w _); simpl; eauto.
  - unfold read_alt_sets. rewrite H. destruct (imports w _); simpl; eauto.
  - unfold read_exports. rewrite H. destruct (imports w _); simpl; eauto.
Qed.

Lemma reader_missing_file_witness :
  isfile no_files "q_field.txt" = false /\
  forall r,
    In r [read_q_fields no_files "q_field.txt" PyStr.tab;
          read_e_fields no_files "q_field.txt" PyStr.tab;
          read_a_fields no_files "q_field.txt" PyStr.tab;
          read_k_fields no_files "q_field.txt" PyStr.tab;
          read_alt_sets no_files "q_field.txt" PyStr.tab;
          read_exports no_files "q_field.txt" "Weekly file" PyStr.tab] ->
    exists msg, r = ([msg], Returns None).
Proof.
  split; [reflexivity |].
  apply (reader_missing_file no_files "q_field.txt" PyStr.tab "Weekly file").
  reflexivity.
Defined.

(** The readers return on every path: their result is never an
    exception. *)
Lemma read_plain_fields_returns (m1 m2 m3 : string) (w : World) (path delim : string) :
  exists out v, read_plain_fields m1 m2 m3 w path delim = (out, Returns v).
Proof.
  unfold read_plain_fields.
  destruct (imports w _); simpl; eauto.
  destruct (isfile w path); simpl; eauto.
  apply try_except_returns.
Qed.

Lemma read_k_fields_returns (w : World) (path delim : string) :
  exists out v, read_k_fields w path delim = (out, Returns v).
Proof.
  unfold read_k_fields.
  destruct (imports w _); simpl; eauto.
  destruct (isfile w path); simpl; eauto.
  apply try_except_returns.
Qed.

Lemma read_alt_sets_returns (w : World) (path delim : string) :
  exists out v, read_alt_sets w path delim = (out, Returns v).
Proof.
  unfold read_alt_sets.
  destruct (imports w _); simpl; eauto.
  destruct (isfile w path); simpl; eauto.
  apply try_except_returns.
Qed.

Lemma read_exports_returns (w : World) (path export_name delim : string) :
  exists out v, read_exports w path export_name delim = (out, Returns v).
Proof.
  unfold read_exports.
  destruct (imports w _); simpl; eauto.
  destruct (isfile w path); simpl; eauto.
  apply try_except_returns.
Qed.

(** The rows [read_exports] looks at: the lines before the marker, but
    for the first two. *)
Lemma exports_loop_no_match (export_name : string) (lines : list string) :
  (forall line, In line lines ->
     nth_error (trimmed_values line) 1 <> Some export_name) ->
  exports_loop export_name None lines = Returns None \/
  exists e, exports_loop export_name None lines = Raises e.
Proof.
  induction lines as [| line rest IH]; intros H; simpl.
  - now left.
  - unfold exports_line.
    change 1%Z with (Z.of_nat 1). rewrite py_index_nat.
    destruct (nth_error (trimmed_values line) 1) as [name |] eqn:E; simpl.
    + destruct (String.eqb_spec name export_name) as [-> | Hne].
      * exfalso. apply (H line); [now left | exact E].
      * simpl. apply IH. intros l Hl. apply H. now right.
    + right. eauto.
Qed.

(** C10: when the exports file is there and can be opened but none of its
    data rows has the export's name in its second cell, [read_exports]
    prints one diagnostic line and returns [None], not an empty table; it
    raises nothing. *)
Theorem read_exports_no_match (w : World) (path export_name delim : string)
    (f : file_read) :
  isfile w path = true ->
  open_file w path = Returns f ->
  (forall line,
     In line (skipn 2 (fst (lines_before "%%EpisodeCondition" (file_lines f)))) ->
     nth_error (trimmed_values line) 1 <> Some export_name) ->
  exists msg, read_exports w path export_name delim = ([msg], Returns None).
Proof.
  intros Hfile Hopen Hrows. unfold read_exports. rewrite Hfile, Hopen.
  destruct (imports w _); simpl negb; cbv iota; [| simpl; eauto].
  cbn -[skipn lines_before].
  destruct (lines_before _ (file_lines f)) as [exports_lines broke].
  cbn [fst] in Hrows.
  pose proof (exports_loop_no_match export_name _ Hrows) as Hloop.
  destruct (if broke then Returns tt else end_of_file f) as [[] | e];
    cbn -[skipn]; [| eauto].
  destruct Hloop as [-> | [e ->]]; cbn; eauto.
Qed.

Lemma read_exports_no_match_witness :
  exists msg,
    read_exports exports_only "exports.txt" "Monthly file" PyStr.tab
    = ([msg], Returns None).
Proof.
  apply (read_exports_no_match exports_only "exports.txt" "Monthly file" PyStr.tab
           (mkFileRead sample_exports_lines None)).
  - reflexivity.
  - reflexivity.
  - intros line Hl. vm_compute in Hl.
    destruct Hl as [<- | []]. vm_compute. discriminate.
Defined.

(** With the name of an export of the file, the same file gives its
    table. *)
Example read_exports_sample :
  read_exports exports_only "exports.txt" "Weekly file" PyStr.tab
  = ([], Returns (Some (mkDataFrame col_headers
                          [[Str "1"; Str "7"; Str "Weekly file"; Str "q_1"];
                           [Str "2"; Str "7"; Str "Weekly file"; Str "e_2"];
                           [Str "3"; Str "7"; Str "Weekly file"; Str "k_3"]]))).
Proof. vm_compute. reflexivity. Qed.

(** ** Survey XML tree walker *)

(** What one turn of the loop does to the counters and to the output. *)
Lemma step_inv (st st' : walker) (ev : event * attributes) :
  step st ev = Returns st' ->
  page_num st' = (if page_break_start ev then page_num st + 1 else page_num st)%Z /\
  if is_start (fst ev) then
    exists n, output st' = output st ++ [n] /\
              o_survey_page_number n = page_num st' /\
              o_type n = node_type (snd ev) /\
              o_field n = attrib_get (snd ev) "field" "NA" /\
              question_text st' = Some (o_question_text n) /\
              xml_node_num st' = (xml_node_num st + 1)%Z
  else output st' = output st /\ xml_node_num st' = xml_node_num st.
Proof.
  destruct ev as [event node]. unfold step.
  destruct (group_step st (event, node) _) as [[grp flag] qt].
  destruct (alt_column_rule st (event, node)) as [fires | e]; [| discriminate].
  cbn [bind Monad_outcome fst snd].
  match goal with
  | |- context [if fires then ?a else ?b] =>
      destruct (if fires then a else b) as [qt' | e]; [| discriminate]
  end.
  destruct (is_start event).
  - destruct (read_local (group_name grp)); [| discriminate].
    destruct (read_local (group_text grp)); [| discriminate].
    destruct (read_local (group_condition grp)); [| discriminate].
    destruct qt' as [q |]; [| discriminate].
    cbn. intros [= <-]. cbn. eauto 10.
  - cbn. intros [= <-]. cbn. auto.
Qed.

Lemma walk_pages (evs : list (event * attributes)) (st st' : walker) :
  walk st evs = Returns st' ->
  exists ns,
    output st' = output st ++ ns /\
    map o_survey_page_number ns = spec_pages (page_num st) evs /\
    map o_survey_page_number ns = pages_by_type (page_num st) (map o_type ns) /\
    page_num st' = (page_num st + page_breaks (map o_type ns))%Z.
Proof.
  revert st. induction evs as [| ev rest IH]; intros st H; simpl in H.
  - injection H as <-. exists []. rewrite app_nil_r. cbn.
    repeat split. unfold page_breaks. simpl. lia.
  - destruct (step st ev) as [st1 |] eqn:Hstep; [| discriminate].
    apply step_inv in Hstep. destruct Hstep as [Hpage Hout].
    destruct (IH _ H) as (ns & Hns & Hspec & Htype & Hnum). clear IH.
    cbn [spec_pages].
    destruct (is_start (fst ev)) eqn:Hs.
    + destruct Hout as (n & Hn & Hnp & Hnt & _).
      assert (Hpb : (node_type (snd ev) =? "PAGE_BREAK") = page_break_start ev)
        by (unfold page_break_start; rewrite Hs; now rewrite andb_true_r).
      exists (n :: ns). rewrite Hns, Hn, <- app_assoc.
      cbn [app map pages_by_type].
      rewrite Hnt, Hpb, <- Hpage, Hnp.
      split; [reflexivity |].
      split; [now rewrite Hspec |].
      split; [now rewrite <- Htype |].
      rewrite Hnum, Hpage. unfold page_breaks. cbn [filter]. rewrite Hpb.
      destruct (page_break_start ev); cbn [List.length]; lia.
    + destruct Hout as [Hout _].
      assert (Hpb : page_break_start ev = false)
        by (unfold page_break_start; rewrite Hs; apply andb_false_r).
      rewrite Hpb in *.
      exists ns. rewrite Hns, Hout, <- Hpage. cbn [app]. auto.
Qed.

Lemma pages_by_type_nth (tys : list string) (p : Z) (i : nat) :
  (i < List.length tys)%nat ->
  nth_error (pages_by_type p tys) i = Some (p + page_breaks (firstn (S i) tys))%Z.
Proof.
  revert p i. induction tys as [| ty rest IH]; intros p i Hi; simpl in Hi; [lia |].
  destruct i as [| i].
  - cbn. unfold page_breaks. cbn.
    destruct (ty =? "PAGE_BREAK"); cbn; f_equal; lia.
  - cbn [pages_by_type nth_error]. rewrite IH by lia. f_equal.
    unfold page_breaks. cbn [firstn filter].
    destruct (ty =? "PAGE_BREAK"); cbn [List.length]; lia.
Qed.

Lemma pages_by_type_sorted (tys : list string) (p : Z) :
  StronglySorted Z.le (pages_by_type p tys) /\
  Forall (Z.le p) (pages_by_type p tys).
Proof.
  revert p. induction tys as [| ty rest IH]; intros p; cbn.
  - split; constructor.
  - set (p' := if ty =? "PAGE_BREAK" then (p + 1)%Z else p).
    assert (p <= p')%Z by (subst p'; destruct (ty =? "PAGE_BREAK"); lia).
    destruct (IH p') as [Hs Hf]. split.
    + constructor; assumption.
    + constructor; [assumption |].
      eapply Forall_impl; [| exact Hf]. cbn. intros; lia.
Qed.

(** C3: the page counter starts at 1; every turn of the loop adds exactly
    one to it when the event is the start of a PAGE_BREAK node and leaves
    it alone on every other event; the page numbers of the records
    emitted are those counter values at the start events, and they never
    decrease along the records. *)
Theorem page_number_counter (evs : list (event * attributes)) (st : walker) :
  walk walker_init evs = Returns st ->
  page_num walker_init = 1%Z /\
  (forall s ev s', step s ev = Returns s' ->
     page_num s' = (if page_break_start ev then page_num s + 1 else page_num s)%Z) /\
  map o_survey_page_number (output st) = spec_pages 1 evs /\
  StronglySorted Z.le (map o_survey_page_number (output st)).
Proof.
  intros H. split; [reflexivity |]. split.
  - intros s ev s' Hs. now apply step_inv in Hs.
  - destruct (walk_pages _ _ _ H) as (ns & Hns & Hspec & Htype & _).
    cbn in Hns. subst ns. split; [exact Hspec |].
    rewrite Htype. apply pages_by_type_sorted.
Qed.

Lemma page_number_counter_witness :
  exists st,
    walk walker_init (iterparse sample_survey) = Returns st /\
    page_num walker_init = 1%Z /\
    (forall s ev s', step s ev = Returns s' ->
       page_num s' = (if page_break_start ev then page_num s + 1 else page_num s)%Z) /\
    map o_survey_page_number (output st) = spec_pages 1 (iterparse sample_survey) /\
    StronglySorted Z.le (map o_survey_page_number (output st)).
Proof.
  destruct (walk walker_init (iterparse sample_survey)) as [st |] eqn:E;
    [| vm_compute in E; discriminate].
  exists st. split; [reflexivity |].
  exact (page_number_counter (iterparse sample_survey) st E).
Defined.

Example sample_survey_pages :
  match walk walker_init (iterparse sample_survey) with
  | Returns st => map (fun n => (o_type n, o_survey_page_number n)) (output st)
  | Raises _ => []
  end
  = [("NA", 1); ("SIMPLE_QUESTION", 1); ("PAGE_BREAK", 2); ("GROUP", 2);
     ("ALT_COLUMN", 2); ("SIMPLE_QUESTION", 2); ("DROP_DOWN", 2);
     ("PAGE_BREAK", 3); ("EXPLANATION", 3)]%Z.
Proof. vm_compute. reflexivity. Qed.

Lemma page_breaks_zero (tys : list string) :
  page_breaks tys = 0%Z <-> Forall (fun ty => ty <> "PAGE_BREAK") tys.
Proof.
  unfold page_breaks. induction tys as [| ty rest IH]; cbn.
  - split; [constructor | reflexivity].
  - destruct (String.eqb_spec ty "PAGE_BREAK") as [-> | Hne]; cbn [List.length].
    + split; [lia |]. intros H. inversion H. congruence.
    + rewrite IH. split; [now constructor |]. intros H. now inversion H.
Qed.

Lemma page_breaks_nonneg (tys : list string) : (0 <= page_breaks tys)%Z.
Proof. unfold page_breaks. lia. Qed.

Lemma firstn_S_snoc {A} (l : list A) (i : nat) (x : A) :
  nth_error l i = Some x -> firstn (S i) l = firstn i l ++ [x].
Proof.
  revert i. induction l as [| a l IH]; intros [| i] H; cbn in *; try discriminate.
  - now injection H as ->.
  - f_equal. now apply IH.
Qed.

Lemma page_breaks_app (l1 l2 : list string) :
  page_breaks (l1 ++ l2) = (page_breaks l1 + page_breaks l2)%Z.
Proof.
  unfold page_breaks. rewrite filter_app, length_app. lia.
Qed.

(** C9: in the records of a traversal that came to its end, a record of
    type PAGE_BREAK carries the page number of the record before it plus
    one, and a record carries page number 1 exactly when neither it nor a
    record before it is of type PAGE_BREAK. *)
Theorem page_break_record (evs : list (event * attributes)) (st : walker) :
  walk walker_init evs = Returns st ->
  (forall i prev cur,
     nth_error (output st) i = Some prev ->
     nth_error (output st) (S i) = Some cur ->
     o_type cur = "PAGE_BREAK" ->
     o_survey_page_number cur = (o_survey_page_number prev + 1)%Z) /\
  (forall i n,
     nth_error (output st) i = Some n ->
     (o_survey_page_number n = 1%Z <->
      forall j m, (j <= i)%nat -> nth_error (output st) j = Some m ->
                  o_type m <> "PAGE_BREAK")).
Proof.
  intros H.
  destruct (walk_pages _ _ _ H) as (ns & Hns & _ & Htype & _).
  cbn in Hns. subst ns. cbn in Htype.
  assert (Hpage : forall i n, nth_error (output st) i = Some n ->
            o_survey_page_number n
            = (1 + page_breaks (firstn (S i) (map o_type (output st))))%Z).
  { intros i n Hn.
    assert (Hi : (i < List.length (map o_type (output st)))%nat).
    { rewrite length_map. apply nth_error_Some. congruence. }
    pose proof (pages_by_type_nth _ 1%Z _ Hi) as Hp.
    rewrite <- Htype, nth_error_map, Hn in Hp. cbn [option_map] in Hp.
    now injection Hp. }
  split.
  - intros i prev cur Hprev Hcur Hty.
    rewrite (Hpage _ _ Hprev), (Hpage _ _ Hcur).
    rewrite (firstn_S_snoc (map o_type (output st)) (S i) (o_type cur))
      by (rewrite nth_error_map, Hcur; reflexivity).
    rewrite page_breaks_app, Hty.
    change (page_breaks ["PAGE_BREAK"]) with 1%Z. lia.
  - intros i n Hn. rewrite (Hpage _ _ Hn).
    pose proof (page_breaks_nonneg (firstn (S i) (map o_type (output st)))).
    transitivity (page_breaks (firstn (S i) (map o_type (output st))) = 0%Z);
      [lia |].
    rewrite page_breaks_zero, Forall_forall. split.
    + intros Hall j m Hj Hm. apply Hall.
      assert (Hjm : nth_error (firstn (S i) (map o_type (output st))) j
                    = Some (o_type m)).
      { rewrite nth_error_firstn.
        destruct (Nat.ltb_spec j (S i)); [| lia].
        now rewrite nth_error_map, Hm. }
      eapply nth_error_In; exact Hjm.
    + intros Hall ty Hin. apply In_nth_error in Hin. destruct Hin as [j Hj].
      rewrite nth_error_firstn in Hj.
      destruct (Nat.ltb_spec j (S i)); [| discriminate].
      rewrite nth_error_map in Hj.
      destruct (nth_error (output st) j) as [m |] eqn:Hm; [| discriminate].
      injection Hj as <-. apply (Hall j m); [lia | exact Hm].
Qed.

Lemma page_break_record_witness :
  exists st,
    walk walker_init (iterparse sample_survey) = Returns st /\
    (forall i prev cur,
       nth_error (output st) i = Some prev ->
       nth_error (output st) (S i) = Some cur ->
       o_type cur = "PAGE_BREAK" ->
       o_survey_page_number cur = (o_survey_page_number prev + 1)%Z) /\
    (forall i n,
       nth_error (output st) i = Some n ->
       (o_survey_page_number n = 1%Z <->
        forall j m, (j <= i)%nat -> nth_error (output st) j = Some m ->
                    o_type m <> "PAGE_BREAK")).
Proof.
  destruct (walk walker_init (iterparse sample_survey)) as [st |] eqn:E;
    [| vm_compute in E; discriminate].
  exists st. split; [reflexivity |].
  exact (page_break_record (iterparse sample_survey) st E).
Defined.

(** *** The traversal comes to its end *)

Lemma py_index_last {A} (l : list A) :
  l <> [] -> exists a, py_index l (Z.of_nat (List.length l) - 1) = Returns a.
Proof.
  intros Hl. destruct l as [| x l]; [congruence |].
  replace (Z.of_nat (List.length (x :: l)) - 1)%Z with (Z.of_nat (List.length l))
    by (cbn [List.length]; lia).
  rewrite py_index_nat.
  destruct (nth_error (x :: l) (List.length l)) eqn:E; [eauto |].
  apply nth_error_None in E. cbn in E. lia.
Qed.

Lemma group_step_bound (st : walker) (ev : event * attributes) (depth : Z) :
  question_text st <> None ->
  group_name (group st) <> None ->
  group_text (group st) <> None ->
  group_condition (group st) <> None ->
  let gfq := group_step st ev depth in
  snd gfq <> None /\
  group_name (fst (fst gfq)) <> None /\
  group_text (fst (fst gfq)) <> None /\
  group_condition (fst (fst gfq)) <> None.
Proof.
  intros Hq Hn Ht Hc. destruct ev as [event node]. unfold group_step.
  repeat match goal with
         | |- context [if ?b then _ else _] => destruct b
         end; cbn; repeat split; auto; discriminate.
Qed.

Lemma question_step_bound (ev : event * attributes) (qt : option string) :
  qt <> None -> question_step ev qt <> None.
Proof.
  intros Hq. destruct ev as [event node]. unfold question_step.
  repeat match goal with
         | |- context [if ?b then _ else _] => destruct b
         end; auto; discriminate.
Qed.

(** Once a record has been emitted, no turn of the loop raises. *)
Lemma step_ready (st : walker) (ev : event * attributes) :
  ready st -> exists st', step st ev = Returns st' /\ ready st'.
Proof.
  intros (Hnum & Hout & Hq & Hn & Ht & Hc).
  assert (Hty : exists t, py_index (map o_type (output st)) (xml_node_num st - 1)
                          = Returns t).
  { rewrite Hnum, <- (length_map o_type). apply py_index_last.
    destruct (output st); [congruence | discriminate]. }
  assert (Hfd : exists f, py_index (map o_field (output st)) (xml_node_num st - 1)
                          = Returns f).
  { rewrite Hnum, <- (length_map o_field). apply py_index_last.
    destruct (output st); [congruence | discriminate]. }
  destruct Hty as [t Hty]. destruct Hfd as [f Hfd].
  unfold step.
  pose proof (group_step_bound st ev
                (if is_start (fst ev) then xml_nestingroup_depth st + 1
                 else xml_nestingroup_depth st - 1)%Z Hq Hn Ht Hc) as Hg.
  cbv zeta in Hg.
  destruct (group_step st ev _) as [[grp flag] qt].
  cbn [fst snd] in Hg |- *. destruct Hg as (Hq' & Hn' & Ht' & Hc').
  pose proof (question_step_bound ev qt Hq') as Hq''.
  assert (Hrule : exists b, alt_column_rule st ev = Returns b).
  { unfold alt_column_rule. destruct (node_type (snd ev) =? "ALT_COLUMN").
    - rewrite Hty. cbn. eauto.
    - cbn. eauto. }
  destruct Hrule as [fires ->]. cbn [bind Monad_outcome].
  destruct (group_name grp) as [gn |] eqn:En; [| congruence].
  destruct (group_text grp) as [gt |] eqn:Et; [| congruence].
  destruct (group_condition grp) as [gc |] eqn:Ec; [| congruence].
  destruct (question_step ev qt) as [q |]; [| congruence].
  destruct fires; [rewrite Hfd |];
    (destruct (is_start (fst ev)); cbn; eexists; (split; [reflexivity |]);
     unfold ready; cbn; rewrite ?En, ?Et, ?Ec;
     repeat split; auto; try discriminate;
     try (rewrite length_app, Hnum; cbn; lia);
     try (intros E; now apply app_eq_nil in E)).
Qed.

Lemma walk_ready (evs : list (event * attributes)) (st : walker) :
  ready st -> exists st', walk st evs = Returns st'.
Proof.
  revert st. induction evs as [| ev rest IH]; intros st Hst; cbn [walk].
  - eauto.
  - destruct (step_ready st ev Hst) as (st1 & -> & H1).
    cbn [bind Monad_outcome]. now apply IH.
Qed.

(** The traversal of a document comes to its end whenever the root node
    is neither a GROUP nor an ALT_COLUMN. *)
Lemma walk_document_returns (a : attributes) (children : list element) :
  node_type a <> "GROUP" ->
  node_type a <> "ALT_COLUMN" ->
  exists st, walk walker_init (iterparse (Element a children)) = Returns st.
Proof.
  intros Hg Ha.
  change (iterparse (Element a children))
    with ((EvStart, a) :: flat_map iterparse children ++ [(EvEnd, a)]).
  cbn [walk].
  assert (Hstep : exists st1, step walker_init (EvStart, a) = Returns st1 /\ ready st1).
  { unfold step, alt_column_rule, group_step. cbn [fst snd is_start].
    apply String.eqb_neq in Hg, Ha. rewrite Hg, Ha.
    cbn -[question_step page_break_start].
    destruct (question_step (EvStart, a) (Some "NA")) eqn:E.
    - cbn -[page_break_start]. eexists. split; [reflexivity |].
      unfold ready. cbn -[page_break_start]. repeat split; discriminate.
    - exfalso. revert E. apply question_step_bound. discriminate. }
  destruct Hstep as (st1 & -> & H1). cbn [bind Monad_outcome].
  now apply walk_ready.
Qed.

(** With a GROUP at the root the question text is read before it is
    bound, with an ALT_COLUMN at the root the empty output is indexed:
    both end the traversal with an exception. *)
Example walk_group_root :
  walk walker_init (iterparse (typed "GROUP" [] [])) = Raises UnboundLocalError.
Proof. reflexivity. Qed.

Example walk_alt_column_root :
  walk walker_init (iterparse (typed "ALT_COLUMN" [] [])) = Raises IndexError.
Proof. reflexivity. Qed.

(** *** The ALT_COLUMN rule *)

(** The test of the rule does not look at the event: it gives the same on
    the start and on the end of a node. *)
Lemma alt_column_rule_any_event (st : walker) (node : attributes) (e1 e2 : event) :
  alt_column_rule st (e1, node) = alt_column_rule st (e2, node).
Proof. reflexivity. Qed.

(** When the rule fires, the question text becomes the derived label,
    whatever the event. *)
Lemma alt_column_rule_sets_text (st st' : walker) (ev : event * attributes) :
  alt_column_rule st ev = Returns true ->
  step st ev = Returns st' ->
  exists f, py_index (map o_field (output st)) (xml_node_num st - 1) = Returns f /\
            question_text st' = Some ("q-field text - " ++ f)%string.
Proof.
  intros Hrule. unfold step. rewrite Hrule. cbn [bind Monad_outcome].
  destruct (py_index (map o_field (output st)) (xml_node_num st - 1)) as [f | e];
    [| discriminate].
  cbn [bind Monad_outcome ret].
  destruct (is_start (fst ev)).
  - repeat match goal with
           | |- context [read_local ?x] => destruct (read_local x); [| discriminate]
           end.
    cbn. intros [= <-]. cbn. eauto.
  - cbn. intros [= <-]. cbn. eauto.
Qed.

(** C4, on the code: in [sample_survey] the tenth event is the end of the
    ALT_COLUMN node, whose last record emitted is the SIMPLE_QUESTION
    inside it.  The rule fires on that end event, sets the question text
    to the label derived from [q_2], and the record of the drop-down
    that follows carries it. *)
Theorem alt_column_rule_fires_on_end_event :
  exists node st st' final,
    nth_error (iterparse sample_survey) 9 = Some (EvEnd, node) /\
    node_type node = "ALT_COLUMN" /\
    walk walker_init (firstn 9 (iterparse sample_survey)) = Returns st /\
    alt_column_rule st (EvEnd, node) = Returns true /\
    step st (EvEnd, node) = Returns st' /\
    question_text st' = Some "q-field text - q_2" /\
    walk walker_init (iterparse sample_survey) = Returns final /\
    map (fun n => (o_type n, o_question_text n)) (output final)
    = [("NA", "NA"); ("SIMPLE_QUESTION", "NA"); ("PAGE_BREAK", "NA");
       ("GROUP", "NA"); ("ALT_COLUMN", "NA"); ("SIMPLE_QUESTION", "NA");
       ("DROP_DOWN", "q-field text - q_2"); ("PAGE_BREAK", "NA");
       ("EXPLANATION", "Thank you")].
Proof.
  do 4 eexists. vm_compute. repeat split; reflexivity.
Qed.

(** *** The final question text *)

Example create_survey_spec_sample :
  option_map (fun df => (columns df, map (fun r => (nth 6 r NaN, nth 8 r NaN, nth 10 r NaN)) (rows df)))
    match result (create_survey_spec survey_world "survey.xml" "q.txt" PyStr.tab) with
    | Returns v => v
    | Raises _ => None
    end
  = Some (survey_spec_columns,
          [(Str "NA", Str "NA", Str "NA");
           (Str "SIMPLE_QUESTION", Str "q_1", Str "How was your visit?");
           (Str "PAGE_BREAK", Str "NA", Str "NA");
           (Str "GROUP", Str "NA", Str "NA");
           (Str "ALT_COLUMN", Str "NA", Str "NA");
           (Str "SIMPLE_QUESTION", Str "q_2", Str "NA");
           (Str "DROP_DOWN", Str "q_3", Str "q-field text - q_2");
           (Str "PAGE_BREAK", Str "NA", Str "NA");
           (Str "EXPLANATION", Str "NA", Str "Thank you")]).
Proof. vm_compute. reflexivity. Qed.

Lemma combine_map {A B C} (f : A -> B) (g : A -> C) (l : list A) :
  combine (map f l) (map g l) = map (fun x => (f x, g x)) l.
Proof.
  induction l as [| x l IH]; cbn; [reflexivity | now rewrite IH].
Qed.

Lemma select_output_frame (out : list survey_node) :
  Pd.select (output_frame out) output_columns = Returns (output_frame out).
Proof.
  unfold Pd.select, output_frame. cbn [columns rows].
  change (Pd.indices_of output_columns output_columns)
    with (Returns [0; 1; 2; 3; 4; 5; 6; 7; 8; 9; 10]%nat).
  cbn [bind Monad_outcome ret]. do 2 f_equal.
  rewrite map_map. apply map_ext. intros n. reflexivity.
Qed.

Lemma select_columns (df sel : DataFrame) (names : list string) :
  Pd.select df names = Returns sel -> columns sel = names.
Proof.
  unfold Pd.select. destruct (Pd.indices_of names (columns df)); [| discriminate].
  cbn. now intros [= <-].
Qed.

(** The left join of the records with the labels: every record once for
    each label looked up for its field. *)
Lemma merge_output_frame (out : list survey_node) (q : list (list cell)) :
  Pd.merge_left (output_frame out) (mkDataFrame ["field"; "In survey"] q)
    "field" "field" ("xml", "q_field")
  = Returns
      (mkDataFrame (output_columns ++ ["In survey"])
         (map (fun nl => node_row (fst nl) ++ [snd nl])
              (flat_map (fun n => map (pair n)
                                      (looked_up (mkDataFrame ["field"; "In survey"] q)
                                                 (o_field n)))
                        out))).
Proof.
  unfold Pd.merge_left, output_frame. cbn [columns rows].
  change (Pd.index_of "field" output_columns) with (Some 8%nat).
  change (Pd.index_of "field" ["field"; "In survey"]) with (Some 0%nat).
  cbv beta iota zeta.
  change ("field" =? "field") with true. cbv iota.
  change (filter (fun c => negb (c =? "field")) ["field"; "In survey"])
    with ["In survey"].
  change (Pd.indices_of ["In survey"] ["field"; "In survey"])
    with (Returns [1%nat]).
  cbn [bind Monad_outcome ret]. f_equal. f_equal.
  match goal with
  | |- flat_map ?j _ = _ => set (joined := j)
  end.
  induction out as [| n out IH]; [reflexivity |].
  cbn [map flat_map]. rewrite map_app, IH. f_equal.
  subst joined. cbv beta. unfold looked_up. cbn [rows].
  change (nth 8 (node_row n) NaN) with (Str (o_field n)).
  destruct (filter _ q) as [| m ms]; [reflexivity |].
  cbn [map]. rewrite !map_map. reflexivity.
Qed.

Lemma apply_select_rows (pairs : list (survey_node * cell)) :
  apply_select (output_columns ++ ["In survey"])
    (map (fun nl => node_row (fst nl) ++ [snd nl]) pairs)
  = Returns (map (fun nl => select_question_text (Str (o_question_text (fst nl)))
                                                 (snd nl)) pairs).
Proof.
  induction pairs as [| [n l] pairs IH]; [reflexivity |].
  cbn [map apply_select]. rewrite IH. reflexivity.
Qed.

(** The choice the code makes is the choice of the specification: a
    label that reads ['NA'] is chosen only where the text it replaces reads
    ['NA'] as well. *)
Lemma select_question_text_spec (n : survey_node) (label : cell) :
  select_question_text (Str (o_question_text n))
    (if isnull label then Str "NA" else label)
  = spec_question_text n label.
Proof.
  unfold select_question_text, spec_question_text. cbn [cell_eqb].
  destruct (String.eqb_spec (o_question_text n) "NA") as [E | E]; cbn [andb].
  - destruct label as [| s | z]; cbn; try reflexivity.
    destruct (String.eqb_spec s "NA") as [-> | _]; cbn; [now rewrite E | reflexivity].
  - now destruct (isnull label).
Qed.

Lemma map_flat_map_pair {A B C} (h : A * B -> C) (f : A -> list B) (l : list A) :
  map h (flat_map (fun a => map (pair a) (f a)) l)
  = flat_map (fun a => map (fun b => h (a, b)) (f a)) l.
Proof.
  induction l as [| a l IH]; cbn; [reflexivity |].
  now rewrite map_app, map_map, IH.
Qed.

(** The table built from the records of a traversal: one row for every
    record and every label looked up for its field, with the question
    text chosen as the specification words it. *)
Lemma survey_spec_table_rows (w : World) (q_field_path : string)
    (out : list survey_node) (log : list string) (qdf qsel : DataFrame) :
  read_q_fields w q_field_path PyStr.tab = (log, Returns (Some qdf)) ->
  Pd.select qdf ["# Key"; "In survey"] = Returns qsel ->
  survey_spec_table w q_field_path out
  = (log,
     Returns
       (mkDataFrame survey_spec_columns
          (flat_map
             (fun n =>
                map (fun label => survey_spec_row n (spec_question_text n label))
                    (looked_up qsel (o_field n)))
             out))).
Proof.
  intros Hread Hsel. unfold survey_spec_table.
  rewrite select_output_frame, Hread.
  cbn [lift bind Monad_Py subscript]. rewrite Hsel.
  pose proof (select_columns _ _ _ Hsel) as Hcols.
  unfold Pd.set_columns. rewrite Hcols. cbn [List.length Nat.eqb].
  rewrite merge_output_frame.
  set (pairs := flat_map _ out).
  unfold Pd.fillna. cbn [columns rows].
  rewrite map_map.
  rewrite (map_ext _ (fun nl : survey_node * cell =>
             node_row (fst nl)
             ++ [snd (fst nl, if isnull (snd nl) then Str "NA" else snd nl)]))
    by (intros [n l]; reflexivity).
  rewrite <- (map_map (fun nl : survey_node * cell =>
                         (fst nl, if isnull (snd nl) then Str "NA" else snd nl))
                      (fun nl => node_row (fst nl) ++ [snd nl])).
  set (filled := map _ pairs).
  rewrite apply_select_rows.
  cbn [lift bind Monad_Py].
  unfold Pd.set_series. cbn [columns rows].
  change (Pd.index_of "survey_question_text" (output_columns ++ ["In survey"]))
    with (@None nat).
  cbv iota. rewrite combine_map, map_map. cbn [fst snd].
  unfold Pd.drop. cbn [columns rows].
  change (Pd.indices_of ["question_text"; "In survey"]
            ((output_columns ++ ["In survey"]) ++ ["survey_question_text"]))
    with (Returns [9; 11]%nat).
  cbn [bind Monad_outcome].
  change (filter _ ((output_columns ++ ["In survey"]) ++ ["survey_question_text"]))
    with survey_spec_columns.
  unfold Pd.select. cbn [columns rows].
  change (Pd.indices_of survey_spec_columns
            ((output_columns ++ ["In survey"]) ++ ["survey_question_text"]))
    with (Returns [0; 1; 2; 3; 4; 5; 6; 7; 8; 10; 12]%nat).
  cbn [bind Monad_outcome ret app]. rewrite app_nil_r. do 3 f_equal.
  rewrite map_map. subst filled. rewrite map_map. subst pairs.
  rewrite map_flat_map_pair. apply flat_map_ext. intros n.
  apply map_ext. intros l. cbn [fst snd].
  rewrite select_question_text_spec. reflexivity.
Qed.

(** C5: when the survey document is traversed to its end and the
    q-field file is read and has a key and an "In survey" column,
    [create_survey_spec] returns a table that has, for every record
    emitted and every label looked up for its field (a null when the
    q-field table has no row for the field), one row whose
    [survey_question_text] is that label when the text of the traversal
    is the sentinel ['NA'] and the label is not null, and the text of the
    traversal in every other case. *)
Theorem survey_question_text_choice (w : World)
    (survey_xml_path q_field_path delim : string) (doc : element) (st : walker)
    (log : list string) (qdf qsel : DataFrame) :
  imports w ["pandas"; "os.path"; "xml.etree.ElementTree"] = true ->
  isfile w survey_xml_path = true ->
  parse_xml w survey_xml_path = Returns doc ->
  walk walker_init (iterparse doc) = Returns st ->
  read_q_fields w q_field_path PyStr.tab = (log, Returns (Some qdf)) ->
  Pd.select qdf ["# Key"; "In survey"] = Returns qsel ->
  create_survey_spec w survey_xml_path q_field_path delim
  = (log,
     Returns
       (Some
          (mkDataFrame survey_spec_columns
             (flat_map
                (fun n =>
                   map (fun label => survey_spec_row n (spec_question_text n label))
                       (looked_up qsel (o_field n)))
                (output st))))) /\
  forall n label,
    spec_question_text n label
    = if (o_question_text n =? "NA") && negb (isnull label) then label
      else Str (o_question_text n).
Proof.
  intros Himp Hfile Hdoc Hwalk Hread Hsel. split; [| reflexivity].
  unfold create_survey_spec. rewrite Himp, Hfile, Hdoc.
  cbn [negb lift bind Monad_Py app]. rewrite Hwalk.
  rewrite (survey_spec_table_rows w q_field_path (output st) log qdf qsel Hread Hsel).
  cbn. now rewrite app_nil_r.
Qed.

Lemma survey_question_text_choice_witness :
  exists st log qsel,
    create_survey_spec survey_world "survey.xml" "q.txt" PyStr.tab
    = (log,
       Returns
         (Some
            (mkDataFrame survey_spec_columns
               (flat_map
                  (fun n =>
                     map (fun label => survey_spec_row n (spec_question_text n label))
                         (looked_up qsel (o_field n)))
                  (output st))))) /\
    forall n label,
      spec_question_text n label
      = if (o_question_text n =? "NA") && negb (isnull label) then label
        else Str (o_question_text n).
Proof.
  do 3 eexists.
  eapply (survey_question_text_choice survey_world "survey.xml" "q.txt" PyStr.tab);
    vm_compute; reflexivity.
Defined.

(** ** K-field parser *)

(** [parse_k_fields] without its printing: the table of edges, or the
    exception its [try] catches. *)
Lemma parse_k_fields_cases (w : World) (k q e a : option DataFrame) :
  parse_k_fields w k q e a =
  if negb (imports w ["pandas"; "re"]) then
    (["python package 'pandas' and 're' must be installed before using 'parse_k_fields' function"],
     Returns None)
  else
    match
      (kf <- attribute_of k ;;
       d <- k_field_dict (columns kf) (rows kf) [] ;;
       q_field_list <- field_list q ;;
       e_field_list <- field_list e ;;
       a_field_list <- field_list a ;;
       k_field_list <- field_list k ;;
       ret (mkDataFrame ["k-field"; "components"]
              (map (fun e => [Str (fst e); Str (snd e)])
                   (k_field_edges d (e_field_list ++ q_field_list
                                     ++ a_field_list ++ k_field_list)))))%py
    with
    | Returns df => ([], Returns (Some df))
    | Raises _ =>
        (["error occurred while parsing k-fields, please verify the integrity of the inputs to 'parse_k_fields' function"],
         Returns None)
    end.
Proof.
  unfold parse_k_fields. destruct (imports w _); [| reflexivity].
  cbn [negb].
  destruct (attribute_of k) as [kf |]; [| reflexivity]. py_simpl.
  destruct (k_field_dict _ _ _); [| reflexivity]. py_simpl.
  destruct (field_list q); [| reflexivity]. py_simpl.
  destruct (field_list e); [| reflexivity]. py_simpl.
  destruct (field_list a); [| reflexivity]. py_simpl.
  destruct (field_list k); reflexivity.
Qed.

(** C8: the k-field [k_1] with the calculation [q_5 + q_6 * 2], over the
    q-fields [q_5], [q_6] and [q_7] and no other field, gives the two
    edges from [k_1] to [q_5] and to [q_6], and none to [q_7]. *)
Theorem parse_k_fields_scenario (w : World) :
  imports w ["pandas"; "re"] = true ->
  parse_k_fields w (Some sample_k_fields) (Some sample_q_keys)
                 (Some (key_table [])) (Some (key_table []))
  = ([], Returns (Some (mkDataFrame ["k-field"; "components"]
                          [[Str "k_1"; Str "q_5"]; [Str "k_1"; Str "q_6"]]))).
Proof.
  intros H. rewrite parse_k_fields_cases, H. reflexivity.
Qed.

Lemma parse_k_fields_scenario_witness :
  parse_k_fields no_files (Some sample_k_fields) (Some sample_q_keys)
                 (Some (key_table [])) (Some (key_table []))
  = ([], Returns (Some (mkDataFrame ["k-field"; "components"]
                          [[Str "k_1"; Str "q_5"]; [Str "k_1"; Str "q_6"]]))).
Proof.
  apply (parse_k_fields_scenario no_files). reflexivity.
Defined.

(** C7 as it is worded fails: of two rows of the k-field table with the
    same key the later one overwrites the earlier one in the dictionary,
    so the edges depend on which comes last. *)
Lemma parse_k_fields_row_order_counterexample :
  reordered twice_k_1 twice_k_1_reversed /\
  exists df df',
    parse_k_fields no_files (Some twice_k_1) (Some sample_q_keys)
                   (Some (key_table [])) (Some (key_table []))
    = ([], Returns (Some df)) /\
    parse_k_fields no_files (Some twice_k_1_reversed) (Some sample_q_keys)
                   (Some (key_table [])) (Some (key_table []))
    = ([], Returns (Some df')) /\
    In (Str "k_1", Str "q_6") (edges_of df) /\
    ~ In (Str "k_1", Str "q_6") (edges_of df').
Proof.
  split.
  - split; [reflexivity |]. apply perm_swap.
  - do 2 eexists. split; [vm_compute; reflexivity |].
    split; [vm_compute; reflexivity |].
    split.
    + vm_compute. auto.
    + vm_compute. intros [H | []]. discriminate.
Qed.

(** *** Row order *)

Lemma agree_bind {A B} (R : A -> A -> Prop) (S : B -> B -> Prop)
    (x y : outcome A) (f g : A -> outcome B) :
  agree R x y ->
  (forall a b, R a b -> agree S (f a) (g b)) ->
  agree S (bind x f) (bind y g).
Proof.
  destruct x, y; cbn; intros Hxy Hfg; auto; contradiction.
Qed.

Lemma same_elements_app {A} (l1 l1' l2 l2' : list A) :
  same_elements l1 l1' -> same_elements l2 l2' ->
  same_elements (l1 ++ l2) (l1' ++ l2').
Proof.
  intros H1 H2 x. rewrite !in_app_iff, (H1 x), (H2 x). reflexivity.
Qed.

Lemma same_elements_map {A B} (f : A -> B) (l l' : list A) :
  same_elements l l' -> same_elements (map f l) (map f l').
Proof.
  intros H y. rewrite !in_map_iff.
  split; intros (x & Hx & Hin); exists x; (split; [exact Hx | now apply H]).
Qed.

Lemma Permutation_same_elements {A} (l l' : list A) :
  Permutation l l' -> same_elements l l'.
Proof.
  intros H x. split; apply Permutation_in; [assumption | now symmetry].
Qed.

(** The dictionary *)

Lemma dict_set_fresh {V} (d : list (string * V)) (k : string) (v : V) :
  ~ In k (map fst d) -> dict_set d k v = d ++ [(k, v)].
Proof.
  induction d as [| [k' v'] d IH]; cbn; intros H; [reflexivity |].
  destruct (String.eqb_spec k' k) as [-> | Hne].
  - exfalso. apply H. now left.
  - f_equal. apply IH. intros Hin. apply H. now right.
Qed.

Lemma k_field_dict_fresh (cols : list string) (i j : nat) (rs : list (list cell))
    (d : list (string * list string)) :
  Pd.index_of "# Key" cols = Some i ->
  Pd.index_of "Calculation" cols = Some j ->
  NoDup (map fst d ++ map (fun r => fst (k_entry i j r)) rs) ->
  k_field_dict cols rs d = Returns (d ++ map (k_entry i j) rs).
Proof.
  intros Hi Hj. revert d. induction rs as [| r rs IH]; intros d Hnd; cbn.
  - now rewrite app_nil_r.
  - unfold Pd.row_get. rewrite Hi, Hj. cbn [bind Monad_outcome].
    apply NoDup_remove in Hnd. destruct Hnd as [Hnd Hfresh].
    rewrite dict_set_fresh
      by (intros Hin; apply Hfresh; apply in_or_app; now left).
    rewrite IH.
    + now rewrite <- app_assoc.
    + rewrite map_app, <- app_assoc. cbn [map app fst].
      apply NoDup_Add with (a := fst (k_entry i j r))
                           (l := map fst d ++ map (fun r0 => fst (k_entry i j r0)) rs).
      * apply Add_app.
      * split; assumption.
Qed.

Lemma k_field_dict_missing (cols : list string) (r : list cell)
    (rs : list (list cell)) (d : list (string * list string)) :
  Pd.index_of "# Key" cols = None \/ Pd.index_of "Calculation" cols = None ->
  exists e, k_field_dict cols (r :: rs) d = Raises e.
Proof.
  intros H. cbn. unfold Pd.row_get.
  destruct (Pd.index_of "# Key" cols); [| cbn; eauto].
  destruct H as [H | H]; [discriminate |]. rewrite H. cbn. eauto.
Qed.

Lemma k_field_names_rows (k : DataFrame) (i : nat) :
  Pd.index_of "# Key" (columns k) = Some i ->
  k_field_names k
  = map (fun r => PyStr.strip_char PyStr.SPACE (cell_str (nth i r NaN))) (rows k).
Proof.
  intros Hi. unfold k_field_names, Pd.series. rewrite Hi. now rewrite map_map.
Qed.

Lemma agree_same_elements_refl {A} (x : outcome (list A)) :
  agree same_elements x x.
Proof.
  destruct x; cbn; [| exact I]. intros y. reflexivity.
Qed.

Lemma k_field_dict_agree (k k' : DataFrame) :
  reordered k k' ->
  rows k = rows k' \/ NoDup (k_field_names k) ->
  agree same_elements (k_field_dict (columns k) (rows k) [])
                      (k_field_dict (columns k') (rows k') []).
Proof.
  intros [Hcols Hperm] [Hsame | Hnd]; rewrite <- Hcols.
  { rewrite <- Hsame. apply agree_same_elements_refl. }
  destruct (Pd.index_of "# Key" (columns k)) as [i |] eqn:Hi;
    [destruct (Pd.index_of "Calculation" (columns k)) as [j |] eqn:Hj |].
  - rewrite (k_field_names_rows k i Hi) in Hnd.
    rewrite (k_field_dict_fresh _ i j (rows k) [] Hi Hj) by exact Hnd.
    rewrite (k_field_dict_fresh _ i j (rows k') [] Hi Hj).
    + cbn. apply Permutation_same_elements. now apply Permutation_map.
    + cbn [map app]. eapply Permutation_NoDup; [| exact Hnd].
      apply Permutation_map with (f := fun r => fst (k_entry i j r)). exact Hperm.
  - destruct (rows k) as [| r rs].
    + apply Permutation_nil in Hperm. rewrite Hperm. cbn. intros x. reflexivity.
    + destruct (rows k') as [| r' rs'].
      * symmetry in Hperm. apply Permutation_nil in Hperm. discriminate.
      * destruct (k_field_dict_missing (columns k) r rs [] (or_intror Hj)) as [e ->].
        destruct (k_field_dict_missing (columns k) r' rs' [] (or_intror Hj)) as [e' ->].
        exact I.
  - destruct (rows k) as [| r rs].
    + apply Permutation_nil in Hperm. rewrite Hperm. cbn. intros x. reflexivity.
    + destruct (rows k') as [| r' rs'].
      * symmetry in Hperm. apply Permutation_nil in Hperm. discriminate.
      * destruct (k_field_dict_missing (columns k) r rs [] (or_introl Hi)) as [e ->].
        destruct (k_field_dict_missing (columns k) r' rs' [] (or_introl Hi)) as [e' ->].
        exact I.
Qed.

(** The lists of field names *)

Lemma cell_same_true (a b : cell) : cell_same a b = true <-> a = b.
Proof.
  unfold cell_same. destruct (cell_eq_dec a b); split; congruence.
Qed.

Lemma existsb_cell_same (c : cell) (seen : list cell) :
  existsb (cell_same c) seen = true <-> In c seen.
Proof.
  rewrite existsb_exists. split.
  - intros (x & Hx & Hc). apply cell_same_true in Hc. now subst.
  - intros H. exists c. split; [exact H | now apply cell_same_true].
Qed.

Lemma unique_go_In (l seen : list cell) (c : cell) :
  In c (Pd.unique_go seen l) <-> In c l /\ ~ In c seen.
Proof.
  revert seen. induction l as [| x l IH]; intros seen; cbn.
  - tauto.
  - destruct (existsb (cell_same x) seen) eqn:E.
    + apply existsb_cell_same in E. rewrite IH. split.
      * tauto.
      * intros [[-> | H] Hn]; [contradiction | tauto].
    + assert (Hx : ~ In x seen).
      { intros H. apply existsb_cell_same in H. congruence. }
      cbn. rewrite IH. cbn. split.
      * intros [-> | [H Hn]]; [tauto |]. split; [tauto |]. tauto.
      * intros [[-> | H] Hn]; [tauto |].
        destruct (cell_eq_dec x c) as [-> | Hne]; [tauto |]. right. tauto.
Qed.

Lemma unique_same_elements (l : list cell) : same_elements (Pd.unique l) l.
Proof.
  intros c. unfold Pd.unique. rewrite unique_go_In. cbn. tauto.
Qed.

Lemma strip_each_returns (l : list cell) (ss : list string) :
  strip_each l = Returns ss ->
  forall s, In s ss <-> exists t, In (Str t) l /\ s = PyStr.strip_char PyStr.SPACE t.
Proof.
  revert ss. induction l as [| c l IH]; intros ss H; cbn in H.
  - injection H as <-. cbn. intros s. split; [tauto | intros (t & [] & _)].
  - destruct c as [| t | z]; try discriminate.
    destruct (strip_each l) as [ss' |]; [| discriminate].
    cbn in H. injection H as <-. intros s. cbn. rewrite (IH ss' eq_refl s).
    split.
    + intros [<- | (u & Hu & ->)]; eauto.
    + intros (u & [[= ->] | Hu] & ->); eauto.
Qed.

Lemma strip_each_text (l : list cell) :
  (exists ss, strip_each l = Returns ss) <->
  Forall (fun c => exists s, c = Str s) l.
Proof.
  induction l as [| c l IH]; cbn.
  - split; [constructor | eauto].
  - destruct c as [| t | z].
    + split; [intros [ss H]; discriminate |].
      intros H. inversion H as [| ? ? [s Hs] _]. discriminate.
    + destruct (strip_each l) as [ss' |]; cbn.
      * split; [| eauto]. intros _. constructor; [eauto |]. apply IH. eauto.
      * split; [intros [ss H]; discriminate |].
        intros H. inversion H as [| ? ? _ Hl]. apply IH in Hl.
        destruct Hl as [ss Hss]. discriminate.
    + split; [intros [ss H]; discriminate |].
      intros H. inversion H as [| ? ? [s Hs] _]. discriminate.
Qed.

Lemma strip_each_agree (l l' : list cell) :
  same_elements l l' ->
  agree same_elements (strip_each l) (strip_each l').
Proof.
  intros H.
  assert (Hall : Forall (fun c => exists s, c = Str s) l <->
                 Forall (fun c => exists s, c = Str s) l').
  { rewrite !Forall_forall. split; intros Hf c Hc; apply Hf; now apply H. }
  rewrite <- !strip_each_text in Hall.
  destruct (strip_each l) as [ss | e] eqn:E, (strip_each l') as [ss' | e'] eqn:E';
    cbn.
  - intros s. rewrite (strip_each_returns l ss E s), (strip_each_returns l' ss' E' s).
    split; intros (t & Ht & ->); exists t; (split; [now apply H | reflexivity]).
  - destruct Hall as [Hall _]. destruct (Hall (ex_intro _ ss eq_refl)). discriminate.
  - destruct Hall as [_ Hall]. destruct (Hall (ex_intro _ ss' eq_refl)). discriminate.
  - exact I.
Qed.

Lemma field_list_agree (df df' : DataFrame) :
  reordered df df' ->
  agree same_elements (field_list (Some df)) (field_list (Some df')).
Proof.
  intros [Hcols Hperm]. unfold field_list, Pd.series. cbn [attribute_of].
  cbn [bind Monad_outcome]. rewrite <- Hcols.
  destruct (Pd.index_of "# Key" (columns df)) as [i |]; [| exact I].
  cbn [bind Monad_outcome]. apply strip_each_agree.
  intros c. rewrite !(unique_same_elements _ c).
  apply Permutation_same_elements. now apply Permutation_map.
Qed.

(** The edges *)

Lemma k_field_edges_In (d : list (string * list string)) (all_list : list string)
    (k f : string) :
  In (k, f) (k_field_edges d all_list) <->
  exists ms, In (k, ms) d /\ In f all_list /\ In f ms.
Proof.
  unfold k_field_edges. rewrite in_flat_map. split.
  - intros ([k' ms] & Hd & Hin). cbn [fst snd] in Hin.
    apply in_map_iff in Hin. destruct Hin as (f' & [= -> ->] & Hf).
    apply filter_In in Hf. destruct Hf as [Hall Hms].
    apply existsb_exists in Hms. destruct Hms as (m & Hm & Heq).
    apply String.eqb_eq in Heq. subst m. eauto.
  - intros (ms & Hd & Hall & Hms). exists (k, ms). split; [exact Hd |].
    cbn [fst snd]. apply in_map_iff. exists f. split; [reflexivity |].
    apply filter_In. split; [exact Hall |].
    apply existsb_exists. exists f. split; [exact Hms | apply String.eqb_refl].
Qed.

Lemma k_field_edges_same (d d' : list (string * list string))
    (all_list all_list' : list string) :
  same_elements d d' -> same_elements all_list all_list' ->
  same_elements (k_field_edges d all_list) (k_field_edges d' all_list').
Proof.
  intros Hd Ha [k f]. rewrite !k_field_edges_In.
  split; intros (ms & H1 & H2 & H3); exists ms;
    (split; [now apply Hd | split; [now apply Ha | exact H3]]).
Qed.

Lemma edges_of_table (es : list (string * string)) :
  edges_of (mkDataFrame ["k-field"; "components"]
              (map (fun e => [Str (fst e); Str (snd e)]) es))
  = map (fun e => (Str (fst e), Str (snd e))) es.
Proof.
  unfold edges_of. cbn [rows]. rewrite map_map. reflexivity.
Qed.

(** C7, amended: [parse_k_fields] is a function of its tables (and of
    whether its imports succeed) and always returns; putting the rows of
    the q-, e- and a-field tables in another order changes neither what
    is printed nor the set of edges returned, and the same holds for the
    rows of the k-field table when no two of them have the same key,
    blanks stripped. *)
Theorem parse_k_fields_row_order (w w' : World)
    (k k' q q' e e' a a' : DataFrame) :
  imports w ["pandas"; "re"] = imports w' ["pandas"; "re"] ->
  reordered k k' -> reordered q q' -> reordered e e' -> reordered a a' ->
  rows k = rows k' \/ NoDup (k_field_names k) ->
  exists out r r',
    parse_k_fields w (Some k) (Some q) (Some e) (Some a) = (out, Returns r) /\
    parse_k_fields w' (Some k') (Some q') (Some e') (Some a') = (out, Returns r') /\
    same_edges r r'.
Proof.
  intros Himp Hk Hq He Ha Hnd.
  rewrite !parse_k_fields_cases, Himp.
  destruct (imports w' _); cbn [negb]; [| do 3 eexists; repeat split].
  cbn [attribute_of]. cbn [bind Monad_outcome].
  match goal with
  | |- exists out r r', match ?x with _ => _ end = _ /\
                        match ?y with _ => _ end = _ /\ _ =>
      assert (Hagree : agree (fun df df' => same_elements (edges_of df) (edges_of df'))
                             x y)
  end.
  { eapply agree_bind; [apply k_field_dict_agree; assumption |].
    intros d d' Hd.
    eapply agree_bind; [apply field_list_agree; exact Hq |]. intros ql ql' Hql.
    eapply agree_bind; [apply field_list_agree; exact He |]. intros el el' Hel.
    eapply agree_bind; [apply field_list_agree; exact Ha |]. intros al al' Hal.
    eapply agree_bind; [apply field_list_agree; exact Hk |]. intros kl kl' Hkl.
    cbn [ret Monad_outcome agree]. rewrite !edges_of_table.
    apply same_elements_map. apply k_field_edges_same; [exact Hd |].
    repeat apply same_elements_app; assumption. }
  match type of Hagree with
  | agree _ ?x ?y => destruct x as [df | ex], y as [df' | ex']
  end; cbn in Hagree; try contradiction.
  - exists [], (Some df), (Some df'). repeat split; apply Hagree.
  - do 3 eexists. repeat split.
Qed.

Lemma parse_k_fields_row_order_witness :
  exists out r r',
    parse_k_fields no_files (Some two_k_fields) (Some sample_q_keys)
                   (Some (key_table [])) (Some (key_table [])) = (out, Returns r) /\
    parse_k_fields no_files (Some two_k_fields_swapped)
                   (Some (key_table ["q_7"; "q_6"; "q_5"]))
                   (Some (key_table [])) (Some (key_table [])) = (out, Returns r') /\
    same_edges r r'.
Proof.
  apply (parse_k_fields_row_order no_files no_files).
  - reflexivity.
  - split; [reflexivity | apply perm_swap].
  - split; [reflexivity |]. cbn.
    apply Permutation_trans with (l' := [[Str "q_6"]; [Str "q_5"]; [Str "q_7"]]);
      [apply perm_swap |].
    apply Permutation_trans with (l' := [[Str "q_6"]; [Str "q_7"]; [Str "q_5"]]);
      [apply perm_skip, perm_swap | apply perm_swap].
  - split; [reflexivity | apply Permutation_refl].
  - split; [reflexivity | apply Permutation_refl].
  - right. vm_compute. repeat constructor; cbn; intuition discriminate.
Defined.

Example parse_k_fields_two :
  option_map edges_of
    match result (parse_k_fields no_files (Some two_k_fields) (Some sample_q_keys)
                    (Some (key_table [])) (Some (key_table []))) with
    | Returns r => r
    | Raises _ => None
    end
  = Some [(Str "k_1", Str "q_5"); (Str "k_1", Str "q_6");
          (Str "k_2", Str "q_7"); (Str "k_2", Str "k_1")].
Proof. vm_compute. reflexivity. Qed.

(** ** Alt-set organizer *)

(** The scenario of the specification. *)
Example organize_alt_sets_yes_no :
  organize_alt_sets no_files (Some yes_no) "Name" "AltSetNumber" "InSurvey" "ExportValue"
  = ([], Returns (Some (mkDataFrame alt_set_columns
                          [[Str "YesNo"; Str "1"; Str "Y; N"; Str "1; 2"]]))).
Proof. vm_compute. reflexivity. Qed.

(** C2, on the code: a null cell is skipped only while the string built
    so far is empty.  In [yes_no_gap] the alt set has two rows with a
    label and two with an export value, so one separator is expected in
    each string, but the null cells of the row in between are added as
    [nan] and each string holds two. *)
Theorem organize_alt_sets_null_cell_added (w : World) :
  imports w ["pandas"] = true ->
  organize_alt_sets w (Some yes_no_gap) "Name" "AltSetNumber" "InSurvey" "ExportValue"
  = ([], Returns (Some (mkDataFrame alt_set_columns
                          [[Str "YesNo"; Str "1"; Str "Y; nan; N"; Str "1; nan; 2"]])))
  /\ PyStr.count "; " "Y; nan; N" = 2
  /\ PyStr.count "; " "1; nan; 2" = 2
  /\ non_null_cells yes_no_gap (Str "YesNo") "InSurvey" - 1 = 1
  /\ non_null_cells yes_no_gap (Str "YesNo") "ExportValue" - 1 = 1.
Proof.
  intros H. unfold organize_alt_sets. rewrite H.
  repeat split; vm_compute; reflexivity.
Qed.

Lemma organize_alt_sets_null_cell_added_witness :
  organize_alt_sets no_files (Some yes_no_gap) "Name" "AltSetNumber" "InSurvey" "ExportValue"
  = ([], Returns (Some (mkDataFrame alt_set_columns
                          [[Str "YesNo"; Str "1"; Str "Y; nan; N"; Str "1; nan; 2"]])))
  /\ PyStr.count "; " "Y; nan; N" = 2
  /\ PyStr.count "; " "1; nan; 2" = 2
  /\ non_null_cells yes_no_gap (Str "YesNo") "InSurvey" - 1 = 1
  /\ non_null_cells yes_no_gap (Str "YesNo") "ExportValue" - 1 = 1.
Proof.
  apply (organize_alt_sets_null_cell_added no_files). reflexivity.
Defined.

(** The variable [value] outlives the alt set it was computed for: an
    alt set whose only export value is null gets the last value of the
    alt set before it. *)
Example organize_alt_sets_stale_value :
  organize_alt_sets no_files (Some second_without_value)
    "Name" "AltSetNumber" "InSurvey" "ExportValue"
  = ([], Returns (Some (mkDataFrame alt_set_columns
                          [[Str "YesNo"; Str "1"; Str "Y"; Str "1"];
                           [Str "Other"; Str "2"; Str "Other"; Str "1"]]))).
Proof. vm_compute. reflexivity. Qed.

(** With a null export value in the very first row [value] is read
    before it is bound, and the function prints and returns [None]. *)
Example organize_alt_sets_unbound_value :
  organize_alt_sets no_files (Some first_without_value)
    "Name" "AltSetNumber" "InSurvey" "ExportValue"
  = (["and error occured while organizing the alt-set data, please check the integrity of the dataframe being passed in and that column names have been specified as parameters if different than Medallia's system defaults"],
     Returns None).
Proof. vm_compute. reflexivity. Qed.

(** *** The labels string *)

Lemma string_app_assoc (a b c : string) :
  ((a ++ b) ++ c)%string = (a ++ b ++ c)%string.
Proof.
  induction a as [| x a IH]; cbn; [reflexivity | now rewrite IH].
Qed.

Lemma concat_snoc_head (a b : string) (xs : list string) :
  String.concat "; " ((a ++ "; " ++ b)%string :: xs)
  = (a ++ "; " ++ String.concat "; " (b :: xs))%string.
Proof.
  destruct xs as [| x xs]; cbn [String.concat]; [reflexivity |].
  now rewrite !string_app_assoc.
Qed.

Lemma append_not_empty (a b : string) : a <> "" -> (a ++ b)%string <> "".
Proof. destruct a; [congruence | discriminate]. Qed.

(** The labels of the rows of one alt set, as the loop leaves them: once
    a first label has been taken, the text of every later cell is added
    after a separator, [nan] for a null cell. *)
Lemma alt_rows_label (cols : list string) (alt_number alt_label alt_value : string)
    (i : nat) (rs : list (list cell)) (acc acc' : alt_acc) :
  Pd.index_of alt_label cols = Some i ->
  alt_rows cols alt_number alt_label alt_value acc rs = Returns acc' ->
  alt_set_label acc' =
  if alt_set_label acc =? ""
  then String.concat "; " (map cell_str (skip_leading (map (fun r => nth i r NaN) rs)))
  else String.concat "; " (alt_set_label acc :: map (fun r => cell_str (nth i r NaN)) rs).
Proof.
  intros Hi. revert acc. induction rs as [| r rs IH]; intros acc H; cbn [alt_rows] in H.
  - injection H as <-. cbn. now destruct (String.eqb_spec (alt_set_label acc) "").
  - destruct (alt_row cols alt_number alt_label alt_value acc r) as [acc1 |] eqn:E;
      [| discriminate].
    cbn [bind Monad_outcome] in H. rewrite (IH acc1 H). clear IH H.
    unfold alt_row in E.
    destruct (if cell_eqb (alt_set_number acc) (Str "") then _ else _);
      [| discriminate].
    cbn [bind Monad_outcome] in E.
    destruct (if alt_set_value acc =? "" then _ else _); [| discriminate].
    cbn [bind Monad_outcome] in E.
    unfold Pd.row_get in E. rewrite Hi in E.
    cbn [map skip_leading].
    destruct (String.eqb_spec (alt_set_label acc) "") as [Hl | Hl];
      cbn [bind Monad_outcome ret] in E; injection E as <-; cbn [alt_set_label].
    + destruct (isnull (nth i r NaN)) eqn:En; cbn [orb].
      * rewrite Hl. reflexivity.
      * destruct (String.eqb_spec (cell_str (nth i r NaN)) "") as [Hs | Hs].
        -- reflexivity.
        -- cbn [map]. rewrite map_map. reflexivity.
    + assert (Hne : (alt_set_label acc ++ "; " ++ cell_str (nth i r NaN))%string <> "")
        by now apply append_not_empty.
      apply String.eqb_neq in Hne.
      change ("; " ++ cell_str (nth i r NaN))%string
        with (String ";" (String " " (cell_str (nth i r NaN)))) in Hne.
      rewrite Hne.
      exact (concat_snoc_head (alt_set_label acc) (cell_str (nth i r NaN)) _).
Qed.

(** ** Export-spec assembler *)

Lemma organize_alt_sets_none (w : World) (n u l v : string) :
  result (organize_alt_sets w None n u l v) = Returns None.
Proof.
  unfold organize_alt_sets. destruct (imports w _); reflexivity.
Qed.

(** C1, on the code: when pandas can be imported and one of the five
    readers returns [None], [create_export_spec] does not return: the
    first use of the missing table raises, outside any [try], and the
    exception reaches the caller. *)
Theorem create_export_spec_absent_reader (w : World)
    (q_path e_path k_path alt_set_path export_path export_name survey_xml_path delim : string) :
  imports w ["pandas"] = true ->
  In (Returns None)
     [result (read_q_fields w fixed_q_path PyStr.tab);
      result (read_e_fields w fixed_e_path PyStr.tab);
      result (read_k_fields w fixed_k_path PyStr.tab);
      result (read_alt_sets w fixed_alt_set_path PyStr.tab);
      result (read_exports w fixed_export_path fixed_export_name PyStr.tab)] ->
  exists e,
    result (create_export_spec w q_path e_path k_path alt_set_path export_path
                               export_name survey_xml_path delim)
    = Raises e.
Proof.
  intros Himp Hnone. unfold create_export_spec. rewrite Himp. cbn [negb].
  cbv zeta.
  destruct (read_plain_fields_returns
              "python package 'pandas' and 'os' must be installed before using 'read_q_fields' function"
              "error occurred while reading in the q-field text file, check the file path and integrity of data"
              "please check the q-field text file path, it appears to be invalid"
              w fixed_q_path PyStr.tab) as (o1 & v1 & E1).
  destruct (read_plain_fields_returns
              "python package 'pandas' and 'os' must be installed before using 'read_e_fields' function"
              "error occurred while reading in the e-field text file, check the file path and integrity of data"
              "please check the e-field file path, it appears to be invalid"
              w fixed_e_path PyStr.tab) as (o2 & v2 & E2).
  destruct (read_k_fields_returns w fixed_k_path PyStr.tab) as (o3 & v3 & E3).
  destruct (read_alt_sets_returns w fixed_alt_set_path PyStr.tab) as (o4 & v4 & E4).
  destruct (read_exports_returns w fixed_export_path fixed_export_name PyStr.tab)
    as (o5 & v5 & E5).
  fold read_q_fields in E1. fold read_e_fields in E2.
  rewrite E1, E2, E3, E4, E5 in Hnone |- *.
  cbn [result snd] in Hnone. cbn [assign_each].
  assert (Hcases : v1 = None \/ v2 = None \/ v3 = None \/ v4 = None \/ v5 = None).
  { cbn in Hnone. intuition congruence. }
  clear Hnone E1 E2 E3 E4 E5.
  do 2 next.
  (* df_q, df_e, df_k *)
  next. next. destruct v1 as [df_q |]; [| cbn; eauto].
  cbn [subscript]. destruct (Pd.select df_q field_columns); [| eauto].
  next. next. destruct v2 as [df_e |]; [| cbn; eauto].
  cbn [subscript]. destruct (Pd.select df_e field_columns); [| eauto].
  next. next. destruct v3 as [df_k |]; [| cbn; eauto].
  cbn [subscript]. destruct (Pd.select df_k field_columns); [| eauto].
  (* df_export *)
  next. cbn [strip_cols attribute_of bind ret Monad_outcome].
  next. next. destruct v5 as [df_export |]; [| cbn; eauto].
  cbn [strip_cols attribute_of bind ret Monad_outcome].
  next. cbn [frame_of]. next. next.
  destruct (Pd.merge_left _ _ _ _ _); [| eauto].
  (* df_alt *)
  next. destruct v4 as [df_alt |].
  { exfalso. intuition discriminate. }
  rewrite result_bind, organize_alt_sets_none. next. cbn. eauto.
Qed.

Lemma create_export_spec_absent_reader_witness :
  exists e,
    result (create_export_spec no_files "q_field.txt" "e_field.txt" "k_field.txt"
              "alt_set.txt" "exports.txt" "Weekly file" "survey.xml" PyStr.tab)
    = Raises e.
Proof.
  apply (create_export_spec_absent_reader no_files).
  - reflexivity.
  - left. reflexivity.
Defined.

(** Where no file is found every reader prints its diagnostic and
    returns [None]; [create_export_spec] prints nothing of its own and the
    subscript of the missing q-field table raises [TypeError]. *)
Example create_export_spec_no_files :
  create_export_spec no_files "q_field.txt" "e_field.txt" "k_field.txt"
    "alt_set.txt" "exports.txt" "Weekly file" "survey.xml" PyStr.tab
  = (["please check the q-field text file path, it appears to be invalid";
      "please check the e-field file path, it appears to be invalid";
      "please check the k-fields file path, it appears to be invalid";
      "please check the alt-sets file path, it appears to be invalid";
      "please check the exports text file path, it appears to be invalid"],
     Raises TypeError).
Proof. vm_compute. reflexivity. Qed.

(** * Further properties of the code *)

(** ** The records of a traversal *)

(** Everything one turn of the loop does, read off a turn that did not
    raise. *)
Lemma step_spec (st st' : walker) (ev : event * attributes) :
  step st ev = Returns st' ->
  let depth := if is_start (fst ev) then (xml_nestingroup_depth st + 1)%Z
               else (xml_nestingroup_depth st - 1)%Z in
  let gfq := group_step st ev depth in
  xml_nestingroup_depth st' = depth /\
  group st' = fst (fst gfq) /\
  xml_group_flag st' = snd (fst gfq) /\
  (exists fires,
     alt_column_rule st ev = Returns fires /\
     if fires
     then exists f, py_index (map o_field (output st)) (xml_node_num st - 1)
                    = Returns f /\
                    question_text st' = Some ("q-field text - " ++ f)%string
     else question_text st' = question_step ev (snd gfq)) /\
  if is_start (fst ev) then
    exists n,
      output st' = output st ++ [n] /\
      xml_node_num st' = (xml_node_num st + 1)%Z /\
      o_xml_node_number n = xml_node_num st /\
      o_xml_node_depth n = depth /\
      record_facts n = node_facts (snd ev) /\
      group_name (group st') = Some (o_group_name n) /\
      group_text (group st') = Some (o_group_text n) /\
      group_condition (group st') = Some (o_group_condition n) /\
      question_text st' = Some (o_question_text n)
  else output st' = output st /\ xml_node_num st' = xml_node_num st.
Proof.
  unfold step. cbv zeta.
  destruct (group_step st ev _) as [[grp flag] qt].
  destruct (alt_column_rule st ev) as [fires | e]; [| discriminate].
  cbn [bind Monad_outcome fst snd].
  destruct fires.
  - destruct (py_index (map o_field (output st)) (xml_node_num st - 1)) as [f | e];
      [| discriminate].
    cbn [bind Monad_outcome ret].
    destruct (is_start (fst ev)).
    + destruct (group_name grp) as [gn |] eqn:En; [| discriminate].
      destruct (group_text grp) as [gt |] eqn:Et; [| discriminate].
      destruct (group_condition grp) as [gc |] eqn:Ec; [| discriminate].
      cbn. intros [= <-]. cbn. rewrite En, Et, Ec.
      repeat split. 
      * exists true. split; [reflexivity |]. eauto.
      * eexists. repeat split.
    + cbn. intros [= <-]. cbn. repeat split.
      exists true. split; [reflexivity |]. eauto.
  - cbn [bind Monad_outcome ret].
    destruct (is_start (fst ev)).
    + destruct (group_name grp) as [gn |] eqn:En; [| discriminate].
      destruct (group_text grp) as [gt |] eqn:Et; [| discriminate].
      destruct (group_condition grp) as [gc |] eqn:Ec; [| discriminate].
      destruct (question_step ev qt) as [q |] eqn:Eq; [| discriminate].
      cbn. intros [= <-]. cbn. rewrite En, Et, Ec.
      repeat split.
      * exists false. split; reflexivity.
      * eexists. repeat split.
    + cbn. intros [= <-]. cbn. repeat split.
      exists false. split; reflexivity.
Qed.

Lemma walk_app (l1 l2 : list (event * attributes)) (st : walker) :
  walk st (l1 ++ l2) = bind (walk st l1) (fun s => walk s l2).
Proof.
  revert st. induction l1 as [| ev l1 IH]; intros st; cbn [app walk].
  - reflexivity.
  - destruct (step st ev) as [st1 |]; cbn [bind Monad_outcome]; [apply IH | reflexivity].
Qed.

(** The records a traversal adds, from any state on. *)
Lemma walk_records (evs : list (event * attributes)) (st st' : walker) :
  walk st evs = Returns st' ->
  exists ns,
    output st' = output st ++ ns /\
    map record_facts ns = map node_facts (start_nodes evs) /\
    map o_xml_node_number ns
    = map (fun i => (xml_node_num st + Z.of_nat i)%Z) (seq 0 (List.length ns)) /\
    xml_node_num st' = (xml_node_num st + Z.of_nat (List.length ns))%Z /\
    map o_xml_node_depth ns = spec_depths (xml_nestingroup_depth st) evs /\
    xml_nestingroup_depth st' = depth_after (xml_nestingroup_depth st) evs.
Proof.
  revert st. induction evs as [| ev rest IH]; intros st H; cbn [walk] in H.
  - injection H as <-. exists []. rewrite app_nil_r. cbn.
    repeat split. lia.
  - destruct (step st ev) as [st1 |] eqn:Hstep; [| discriminate].
    cbn [bind Monad_outcome] in H.
    apply step_spec in Hstep. cbv zeta in Hstep.
    destruct Hstep as (Hd & _ & _ & _ & Hout).
    destruct (IH _ H) as (ns & Hns & Hfacts & Hnum & Hcount & Hdepth & Hfinal).
    clear IH. unfold start_nodes in *. cbn [spec_depths depth_after filter].
    rewrite <- Hd.
    destruct (is_start (fst ev)).
    + destruct Hout as (n & Hn & Hn1 & Hnn & Hnd & Hnf & _).
      exists (n :: ns). rewrite Hns, Hn, <- app_assoc.
      cbn [app map List.length seq].
      rewrite Hnf, Hfacts, Hnn, Hnd, Hdepth, Hfinal, Hcount, Hnum, Hn1.
      repeat split.
      * f_equal; [lia |].
        rewrite <- seq_shift, map_map. apply map_ext. intros i. lia.
      * lia.
      * now rewrite Hd.
    + destruct Hout as [Hout Hn1]. exists ns.
      rewrite Hns, Hout, Hfacts, Hnum, Hcount, Hdepth, Hfinal, Hn1.
      cbn [app]. repeat split.
Qed.

(** X1: the records of a traversal that came to its end are the start
    events, one record each and in their order: every record holds the
    type, name, field and condition of its node (['NA'] for a missing
    attribute), and the records are numbered from 0 without gaps. *)
Theorem walk_record_per_start_event (evs : list (event * attributes)) (st : walker) :
  walk walker_init evs = Returns st ->
  List.length (output st) = List.length (start_nodes evs) /\
  map record_facts (output st) = map node_facts (start_nodes evs) /\
  map o_xml_node_number (output st)
  = map Z.of_nat (seq 0 (List.length (output st))).
Proof.
  intros H. destruct (walk_records _ _ _ H) as (ns & Hns & Hfacts & Hnum & _).
  cbn in Hns. subst ns. split; [| split].
  - rewrite <- (length_map record_facts), Hfacts. apply length_map.
  - exact Hfacts.
  - rewrite Hnum. apply map_ext. intros i. cbn. lia.
Qed.

Lemma walk_record_per_start_event_witness :
  exists st,
    walk walker_init (iterparse sample_survey) = Returns st /\
    List.length (output st) = List.length (start_nodes (iterparse sample_survey)) /\
    map record_facts (output st)
    = map node_facts (start_nodes (iterparse sample_survey)) /\
    map o_xml_node_number (output st)
    = map Z.of_nat (seq 0 (List.length (output st))).
Proof.
  destruct (walk walker_init (iterparse sample_survey)) as [st |] eqn:E;
    [| vm_compute in E; discriminate].
  exists st. split; [reflexivity |].
  exact (walk_record_per_start_event (iterparse sample_survey) st E).
Defined.

(** Induction on a document: a property holds of every node when it
    holds of a node whose children all have it. *)
Lemma element_induction (P : element -> Prop) :
  (forall a children, Forall P children -> P (Element a children)) ->
  forall e, P e.
Proof.
  intros H. fix IH 1. intros [a children]. apply H.
  induction children as [| c cs IHcs]; constructor; [apply IH | exact IHcs].
Qed.

Lemma iterparse_shape (e : element) :
  forall (d : Z) (rest : list (event * attributes)),
    spec_depths d (iterparse e ++ rest) = tree_depths d e ++ spec_depths d rest /\
    depth_after d (iterparse e ++ rest) = depth_after d rest /\
    start_nodes (iterparse e ++ rest) = tree_nodes e ++ start_nodes rest.
Proof.
  induction e as [a children IH] using element_induction. intros d rest.
  change (iterparse (Element a children))
    with ((EvStart, a) :: flat_map iterparse children ++ [(EvEnd, a)]).
  cbn [app spec_depths depth_after tree_depths tree_nodes fst is_start].
  unfold start_nodes. cbn [filter fst is_start map snd].
  fold (start_nodes ((flat_map iterparse children ++ [(EvEnd, a)]) ++ rest)).
  rewrite <- app_assoc.
  assert (Hkids : forall tail,
            spec_depths (d + 1) (flat_map iterparse children ++ tail)
            = flat_map (tree_depths (d + 1)) children ++ spec_depths (d + 1) tail /\
            depth_after (d + 1) (flat_map iterparse children ++ tail)
            = depth_after (d + 1) tail /\
            start_nodes (flat_map iterparse children ++ tail)
            = flat_map tree_nodes children ++ start_nodes tail).
  { induction IH as [| c cs Hc _ IHcs]; intros tail; cbn [flat_map app].
    - repeat split.
    - rewrite <- !app_assoc.
      destruct (Hc (d + 1)%Z (flat_map iterparse cs ++ tail)) as (H1 & H2 & H3).
      destruct (IHcs tail) as (K1 & K2 & K3).
      rewrite H1, H2, H3, K1, K2, K3. repeat split. }
  destruct (Hkids ((EvEnd, a) :: rest)) as (H1 & H2 & H3).
  cbn [app]. unfold attributes in *. rewrite H1, H2, H3.
  cbn [spec_depths depth_after fst is_start app].
  unfold start_nodes. cbn [filter fst is_start].
  replace (d + 1 - 1)%Z with d by lia.
  repeat split.
Qed.

(** X2: in the records of a document traversed to its end the nesting
    depth of a record is the depth of its node in the document, 1 for the
    root and one more for every level below it; there is one record for
    every node, in document order; and the depth counter is back at 0 at
    the end. *)
Theorem walk_document_depths (doc : element) (st : walker) :
  walk walker_init (iterparse doc) = Returns st ->
  map o_xml_node_depth (output st) = tree_depths 0 doc /\
  map record_facts (output st) = map node_facts (tree_nodes doc) /\
  xml_nestingroup_depth st = 0%Z.
Proof.
  intros H.
  destruct (walk_records _ _ _ H) as (ns & Hns & Hfacts & _ & _ & Hdepth & Hfinal).
  cbn in Hns. subst ns.
  destruct (iterparse_shape doc 0%Z []) as (H1 & H2 & H3).
  rewrite app_nil_r in H1, H2, H3. cbn [spec_depths depth_after] in H1, H2.
  unfold start_nodes at 2 in H3. cbn in H3.
  rewrite !app_nil_r in *. cbn [walker_init xml_nestingroup_depth] in Hdepth, Hfinal.
  rewrite Hdepth, Hfinal, Hfacts, H1, H2, H3. repeat split.
Qed.

Lemma walk_document_depths_witness :
  exists st,
    walk walker_init (iterparse sample_survey) = Returns st /\
    map o_xml_node_depth (output st) = tree_depths 0 sample_survey /\
    map record_facts (output st) = map node_facts (tree_nodes sample_survey) /\
    xml_nestingroup_depth st = 0%Z.
Proof.
  destruct (walk walker_init (iterparse sample_survey)) as [st |] eqn:E;
    [| vm_compute in E; discriminate].
  exists st. split; [reflexivity |].
  exact (walk_document_depths sample_survey st E).
Defined.

(** ** Group context *)

Lemma group_step_inside (st : walker) (ev : event * attributes) (d : Z) :
  node_type (snd ev) <> "GROUP" ->
  xml_group_flag st = true ->
  group_step st ev d = (group st, true, question_text st).
Proof.
  intros Hty Hflag. destruct ev as [event node]. cbn [snd] in Hty.
  apply String.eqb_neq in Hty. unfold group_step. rewrite Hty, Hflag. reflexivity.
Qed.

Lemma group_step_outside (st : walker) (ev : event * attributes) (d : Z) :
  group_start ev = false ->
  xml_group_flag st = false ->
  group_step st ev d
  = (mkGroup (Some "NA") (Some "NA") (Str "NA") (Some "NA") (Some "NA")
             (group_depth (group st)), false, Some "NA").
Proof.
  intros Hgs Hflag. destruct ev as [event node]. unfold group_start in Hgs.
  cbn [fst snd] in Hgs. unfold group_step. rewrite Hgs, Hflag. reflexivity.
Qed.

(** From a state in which a group is open, the events of nodes that are
    not groups leave the group open and file their records under it. *)
Lemma walk_inside_group (mid : list (event * attributes)) (st st' : walker)
    (g : string * string * string) :
  walk st mid = Returns st' ->
  Forall (fun ev => node_type (snd ev) <> "GROUP") mid ->
  xml_group_flag st = true ->
  (group_name (group st), group_text (group st), group_condition (group st))
  = (Some (fst (fst g)), Some (snd (fst g)), Some (snd g)) ->
  exists ns,
    output st' = output st ++ ns /\
    Forall (fun n => record_group n = g) ns /\
    xml_group_flag st' = true.
Proof.
  revert st. induction mid as [| ev rest IH]; intros st H Hall Hflag Hgrp;
    cbn [walk] in H.
  - injection H as <-. exists []. rewrite app_nil_r. auto.
  - destruct (step st ev) as [st1 |] eqn:Hstep; [| discriminate].
    cbn [bind Monad_outcome] in H.
    inversion Hall as [| ? ? Hev Hrest]; subst.
    apply step_spec in Hstep. cbv zeta in Hstep.
    rewrite (group_step_inside st ev _ Hev Hflag) in Hstep.
    cbn [fst snd] in Hstep.
    destruct Hstep as (_ & Hg1 & Hf1 & _ & Hout).
    rewrite <- Hg1 in Hgrp.
    destruct (IH st1 H Hrest Hf1 Hgrp) as (ns & Hns & Hfor & Hflag').
    destruct (is_start (fst ev)).
    + destruct Hout as (n & Hn & _ & _ & _ & _ & Hgn & Hgt & Hgc & _).
      exists (n :: ns). rewrite Hns, Hn, <- app_assoc. cbn [app].
      split; [reflexivity |]. split; [| exact Hflag'].
      constructor; [| exact Hfor].
      rewrite Hgn, Hgt, Hgc in Hgrp. unfold record_group.
      destruct g as [[gn gt] gc]. cbn [fst snd] in Hgrp. congruence.
    + destruct Hout as [Hout _]. exists ns. rewrite Hns, Hout. auto.
Qed.

(** X3: from the start of a GROUP node on, as long as no other event of a
    GROUP node comes, every record, the one of the GROUP node included,
    carries the name, text and condition of that GROUP node (['NA'] for a
    missing attribute). *)
Theorem group_context_kept (pre mid : list (event * attributes)) (g : attributes)
    (st : walker) :
  walk walker_init (pre ++ (EvStart, g) :: mid) = Returns st ->
  node_type g = "GROUP" ->
  Forall (fun ev => node_type (snd ev) <> "GROUP") mid ->
  exists st0 ns,
    walk walker_init pre = Returns st0 /\
    output st = output st0 ++ ns /\
    List.length ns = S (List.length (start_nodes mid)) /\
    Forall (fun n => record_group n = group_of g) ns.
Proof.
  intros H Hg Hmid. rewrite walk_app in H.
  destruct (walk walker_init pre) as [st0 |] eqn:Hpre; [| discriminate].
  cbn [bind Monad_outcome walk] in H.
  destruct (step st0 (EvStart, g)) as [st1 |] eqn:Hstep; [| discriminate].
  cbn [bind Monad_outcome] in H.
  pose proof (walk_records _ _ _ H) as (ns' & Hns' & Hfacts & _).
  apply step_spec in Hstep. cbv zeta in Hstep.
  unfold group_step in Hstep. cbn [fst snd is_start] in Hstep.
  apply String.eqb_eq in Hg. rewrite Hg in Hstep. cbn [andb fst snd] in Hstep.
  destruct Hstep as (_ & Hg1 & Hf1 & _ & n & Hn & _ & _ & _ & _ & Hgn & Hgt & Hgc & _).
  assert (Hgrp : (group_name (group st1), group_text (group st1),
                  group_condition (group st1))
                 = (Some (fst (fst (group_of g))), Some (snd (fst (group_of g))),
                    Some (snd (group_of g)))).
  { rewrite Hg1. reflexivity. }
  destruct (walk_inside_group mid st1 st (group_of g) H Hmid Hf1 Hgrp)
    as (ns & Hns & Hfor & _).
  exists st0, (n :: ns). split; [reflexivity |].
  rewrite Hns, Hn, <- app_assoc. cbn [app]. split; [reflexivity |].
  split.
  - cbn [List.length]. f_equal.
    rewrite Hns in Hns'. apply app_inv_head in Hns'. subst ns'.
    rewrite <- (length_map record_facts), Hfacts. apply length_map.
  - constructor; [| exact Hfor].
    rewrite Hg1 in Hgn, Hgt, Hgc. cbn in Hgn, Hgt, Hgc.
    unfold record_group, group_of. congruence.
Qed.

Lemma group_context_kept_witness :
  exists st st0 ns,
    walk walker_init (firstn 11 (iterparse sample_survey)) = Returns st /\
    walk walker_init (firstn 5 (iterparse sample_survey)) = Returns st0 /\
    output st = output st0 ++ ns /\
    List.length ns = 4 /\
    Forall (fun n => record_group n = ("visit", "Your visit", "NA")) ns.
Proof.
  destruct (walk walker_init (firstn 11 (iterparse sample_survey))) as [st |] eqn:E;
    [| vm_compute in E; discriminate].
  destruct (group_context_kept
              (firstn 5 (iterparse sample_survey))
              (firstn 5 (skipn 6 (iterparse sample_survey)))
              [("type", "GROUP"); ("name", "visit"); ("text", "Your visit")]
              st E)
    as (st0 & ns & H0 & Hout & Hlen & Hall).
  - reflexivity.
  - vm_compute. repeat constructor; discriminate.
  - exists st, st0, ns. repeat split; assumption.
Defined.

(** From a state in which no group is open, the events that are not the
    start of a GROUP node leave it so and file their records under
    ['NA']. *)
Lemma walk_outside_group (mid : list (event * attributes)) (st st' : walker) :
  walk st mid = Returns st' ->
  Forall (fun ev => group_start ev = false) mid ->
  xml_group_flag st = false ->
  exists ns,
    output st' = output st ++ ns /\
    Forall (fun n => record_group n = ("NA", "NA", "NA")) ns /\
    xml_group_flag st' = false.
Proof.
  revert st. induction mid as [| ev rest IH]; intros st H Hall Hflag;
    cbn [walk] in H.
  - injection H as <-. exists []. rewrite app_nil_r. auto.
  - destruct (step st ev) as [st1 |] eqn:Hstep; [| discriminate].
    cbn [bind Monad_outcome] in H.
    inversion Hall as [| ? ? Hev Hrest]; subst.
    apply step_spec in Hstep. cbv zeta in Hstep.
    rewrite (group_step_outside st ev _ Hev Hflag) in Hstep.
    cbn [fst snd] in Hstep.
    destruct Hstep as (_ & Hg1 & Hf1 & _ & Hout).
    destruct (IH st1 H Hrest Hf1) as (ns & Hns & Hfor & Hflag').
    destruct (is_start (fst ev)).
    + destruct Hout as (n & Hn & _ & _ & _ & _ & Hgn & Hgt & Hgc & _).
      exists (n :: ns). rewrite Hns, Hn, <- app_assoc. cbn [app].
      split; [reflexivity |]. split; [| exact Hflag'].
      constructor; [| exact Hfor].
      rewrite Hg1 in Hgn, Hgt, Hgc. cbn in Hgn, Hgt, Hgc.
      unfold record_group. congruence.
    + destruct Hout as [Hout _]. exists ns. rewrite Hns, Hout. auto.
Qed.

(** X4: the end of a GROUP node closes the group context, also when the
    node lies inside another group that is still open: every record after
    it, up to the next start of a GROUP node, carries ['NA'] as group
    name, text and condition.  The group around a nested group is not
    taken up again. *)
Theorem group_end_closes_context (pre mid : list (event * attributes))
    (g : attributes) (st : walker) :
  walk walker_init (pre ++ (EvEnd, g) :: mid) = Returns st ->
  node_type g = "GROUP" ->
  Forall (fun ev => group_start ev = false) mid ->
  exists st0 ns,
    walk walker_init pre = Returns st0 /\
    output st = output st0 ++ ns /\
    List.length ns = List.length (start_nodes mid) /\
    Forall (fun n => record_group n = ("NA", "NA", "NA")) ns.
Proof.
  intros H Hg Hmid. rewrite walk_app in H.
  destruct (walk walker_init pre) as [st0 |] eqn:Hpre; [| discriminate].
  cbn [bind Monad_outcome walk] in H.
  destruct (step st0 (EvEnd, g)) as [st1 |] eqn:Hstep; [| discriminate].
  cbn [bind Monad_outcome] in H.
  pose proof (walk_records _ _ _ H) as (ns' & Hns' & Hfacts & _).
  apply step_spec in Hstep. cbv zeta in Hstep.
  unfold group_step in Hstep. cbn [fst snd is_start is_end] in Hstep.
  apply String.eqb_eq in Hg. rewrite Hg in Hstep.
  cbn [andb fst snd] in Hstep.
  destruct Hstep as (_ & _ & Hf1 & _ & Hout & _).
  assert (Hflag : xml_group_flag st1 = false).
  { rewrite Hf1. destruct (xml_group_flag st0); reflexivity. }
  destruct (walk_outside_group mid st1 st H Hmid Hflag) as (ns & Hns & Hfor & _).
  exists st0, ns. split; [reflexivity |]. rewrite Hns, Hout.
  split; [reflexivity |]. split; [| exact Hfor].
  rewrite Hns in Hns'. apply app_inv_head in Hns'. subst ns'.
  rewrite <- (length_map record_facts), Hfacts. apply length_map.
Qed.

Lemma group_end_closes_context_witness :
  exists st st0 ns,
    walk walker_init (firstn 8 (iterparse nested_groups)) = Returns st /\
    walk walker_init (firstn 5 (iterparse nested_groups)) = Returns st0 /\
    output st = output st0 ++ ns /\
    map o_field ns = ["q_2"] /\
    Forall (fun n => record_group n = ("NA", "NA", "NA")) ns.
Proof.
  destruct (walk walker_init (firstn 8 (iterparse nested_groups))) as [st |] eqn:E;
    [| vm_compute in E; discriminate].
  destruct (group_end_closes_context
              (firstn 5 (iterparse nested_groups))
              (firstn 2 (skipn 6 (iterparse nested_groups)))
              [("type", "GROUP"); ("name", "inner")]
              st E)
    as (st0 & ns & H0 & Hout & Hlen & Hall).
  - reflexivity.
  - vm_compute. repeat constructor.
  - exists st, st0, ns. repeat split; try assumption.
    vm_compute in E. injection E as <-.
    vm_compute in H0. injection H0 as <-.
    vm_compute in Hout. now injection Hout as <-.
Defined.

(** ** The question text outside groups *)

Lemma py_index_last_map {A B} (f : A -> B) (l : list A) (y : B) :
  py_index (map f l) (Z.of_nat (List.length l) - 1) = Returns y ->
  exists p, last (map Some l) None = Some p /\ f p = y.
Proof.
  destruct l as [| x l] using rev_ind.
  - cbn. discriminate.
  - clear IHl. rewrite length_app. cbn [List.length].
    replace (Z.of_nat (List.length l + 1) - 1)%Z with (Z.of_nat (List.length l))
      by lia.
    rewrite py_index_nat, nth_error_map, nth_error_app2 by lia.
    rewrite Nat.sub_diag. cbn. intros [= <-].
    exists x. split; [| reflexivity].
    rewrite map_app. cbn. apply last_last.
Qed.

Lemma question_step_start (node : attributes) :
  question_step (EvStart, node) (Some "NA")
  = Some (if node_type node =? "ALT_ENTRY" then attrib_get node "name" "NA"
          else if existsb (String.eqb (node_type node)) types
               then attrib_get node "text" "NA"
               else "NA").
Proof.
  unfold question_step. cbn [is_start is_end].
  rewrite andb_true_r, andb_false_r, andb_true_r.
  destruct (node_type node =? "ALT_ENTRY"); [reflexivity |].
  destruct (existsb _ types); reflexivity.
Qed.

(** X5: the question text of a record emitted outside any group depends
    on its own node and on the record before it only, never on an earlier
    node: it is the label derived from the record before for an ALT_COLUMN
    that follows a SIMPLE_QUESTION, the name for an ALT_ENTRY, the text for
    a CHOOSE_MANY, GRID or EXPLANATION, and ['NA'] for every other node.
    The text of an EXPLANATION is kept for later records inside a group
    only. *)
Theorem question_text_outside_group (pre : list (event * attributes))
    (node : attributes) (st0 st : walker) :
  walk walker_init pre = Returns st0 ->
  step st0 (EvStart, node) = Returns st ->
  xml_group_flag st0 = false ->
  node_type node <> "GROUP" ->
  exists n,
    output st = output st0 ++ [n] /\
    o_question_text n = text_outside_group (output st0) node.
Proof.
  intros Hpre Hstep Hflag Hty.
  pose proof (walk_records _ _ _ Hpre) as (ns & Hns & _ & _ & Hnum & _).
  cbn in Hns, Hnum. subst ns.
  apply step_spec in Hstep. cbv zeta in Hstep.
  assert (Hgs : group_start (EvStart, node) = false).
  { unfold group_start. cbn [fst snd]. apply String.eqb_neq in Hty.
    now rewrite Hty. }
  rewrite (group_step_outside st0 _ _ Hgs Hflag) in Hstep. cbn [fst snd] in Hstep.
  destruct Hstep as (_ & _ & _ & (fires & Hrule & Hq) & n & Hn & _ & _ & _ & _ & _ & _ & _ & Hqn).
  exists n. split; [exact Hn |].
  unfold alt_column_rule in Hrule. cbn [snd] in Hrule.
  unfold text_outside_group. rewrite Hnum in Hrule, Hq.
  destruct (node_type node =? "ALT_COLUMN") eqn:Hac.
  - destruct (py_index (map o_type (output st0)) _) as [t |] eqn:Ht; [| discriminate].
    cbn in Hrule. injection Hrule as <-.
    apply py_index_last_map in Ht. destruct Ht as (p & Hp & <-).
    rewrite Hp. cbn [andb].
    destruct (o_type p =? "SIMPLE_QUESTION").
    + destruct Hq as (f & Hf & Hq). apply py_index_last_map in Hf.
      destruct Hf as (p' & Hp' & <-). rewrite Hp in Hp'. injection Hp' as <-.
      congruence.
    + rewrite question_step_start in Hq.
      apply String.eqb_eq in Hac. rewrite Hac in Hq |- *. cbn in Hq |- *.
      congruence.
  - cbn in Hrule. injection Hrule as <-. cbn [andb].
    rewrite question_step_start in Hq. congruence.
Qed.

Lemma question_text_outside_group_witness :
  exists st0 st n,
    walk walker_init (firstn 15 (iterparse sample_survey)) = Returns st0 /\
    step st0 (EvStart, [("type", "EXPLANATION"); ("text", "Thank you")]) = Returns st /\
    output st = output st0 ++ [n] /\
    o_question_text n
    = text_outside_group (output st0) [("type", "EXPLANATION"); ("text", "Thank you")].
Proof.
  destruct (walk walker_init (firstn 15 (iterparse sample_survey))) as [st0 |] eqn:E0;
    [| vm_compute in E0; discriminate].
  destruct (step st0 (EvStart, [("type", "EXPLANATION"); ("text", "Thank you")]))
    as [st |] eqn:E1;
    [| vm_compute in E0; injection E0 as <-; vm_compute in E1; discriminate].
  destruct (question_text_outside_group _ _ st0 st E0 E1) as (n & Hn & Hq).
  - vm_compute in E0. now injection E0 as <-.
  - discriminate.
  - exists st0, st, n. repeat split; assumption.
Defined.

(** ** Guarded functions *)

Lemma try_except_handler_returns {A} (body : Py (option A)) (msg : string) :
  exists out v, try_except body (bind (print msg) (fun _ => ret None)) = (out, Returns v).
Proof.
  destruct body as [out [v | e]]; cbn; eauto.
Qed.

(** X6: the six readers, [organize_alt_sets], [parse_k_fields] and
    [create_survey_spec] never raise: whatever the files hold and whatever
    tables (or [None]) they are handed, each returns a table or [None]. *)
Theorem guarded_functions_return (w : World) (path delim export_name : string)
    (dataframe df_k df_q df_e df_a : option DataFrame)
    (alt_name alt_number alt_label alt_value survey_xml_path q_field_path : string) :
  Forall (fun r : Py (option DataFrame) => exists out v, r = (out, Returns v))
    [read_q_fields w path delim; read_e_fields w path delim;
     read_a_fields w path delim; read_k_fields w path delim;
     read_alt_sets w path delim; read_exports w path export_name delim;
     organize_alt_sets w dataframe alt_name alt_number alt_label alt_value;
     parse_k_fields w df_k df_q df_e df_a;
     create_survey_spec w survey_xml_path q_field_path delim].
Proof.
  repeat apply Forall_cons; try apply Forall_nil.
  - apply read_plain_fields_returns.
  - apply read_plain_fields_returns.
  - apply read_plain_fields_returns.
  - apply read_k_fields_returns.
  - apply read_alt_sets_returns.
  - apply read_exports_returns.
  - unfold organize_alt_sets. destruct (imports w _); cbn [negb]; [| cbn; eauto].
    apply try_except_handler_returns.
  - unfold parse_k_fields. destruct (imports w _); cbn [negb]; [| cbn; eauto].
    apply try_except_handler_returns.
  - unfold create_survey_spec. destruct (imports w _); cbn [negb]; [| cbn; eauto].
    destruct (isfile w survey_xml_path); [| cbn; eauto].
    apply try_except_handler_returns.
Qed.

(** X7: when the survey document is there and is traversed to its end
    but there is no file at the q-field path, [create_survey_spec] prints
    the diagnostic of [read_q_fields] and then its own, the one about
    invalid XML, and returns [None]. *)
Theorem create_survey_spec_without_q_fields (w : World)
    (survey_xml_path q_field_path delim : string) (doc : element) (st : walker) :
  imports w ["pandas"; "os.path"; "xml.etree.ElementTree"] = true ->
  isfile w survey_xml_path = true ->
  parse_xml w survey_xml_path = Returns doc ->
  walk walker_init (iterparse doc) = Returns st ->
  isfile w q_field_path = false ->
  create_survey_spec w survey_xml_path q_field_path delim
  = (["please check the q-field text file path, it appears to be invalid";
      "error occurred while parsing XML, please verify the file contains a valid xml structure and/or contact your local friendly python enthusiast"],
     Returns None).
Proof.
  intros Himp Hxml Hdoc Hwalk Hq.
  assert (Himp2 : imports w ["pandas"; "os.path"] = true).
  { unfold imports in *. cbn [forallb] in *.
    apply andb_true_iff in Himp. destruct Himp as [H1 H2].
    apply andb_true_iff in H2. destruct H2 as [H2 _].
    now rewrite H1, H2. }
  unfold create_survey_spec. rewrite Himp, Hxml, Hdoc. cbn [negb].
  cbn [lift bind Monad_Py app]. rewrite Hwalk.
  unfold survey_spec_table. rewrite select_output_frame.
  unfold read_q_fields, read_plain_fields. rewrite Himp2, Hq. reflexivity.
Qed.

Lemma create_survey_spec_without_q_fields_witness :
  create_survey_spec survey_only "survey.xml" "q.txt" PyStr.tab
  = (["please check the q-field text file path, it appears to be invalid";
      "error occurred while parsing XML, please verify the file contains a valid xml structure and/or contact your local friendly python enthusiast"],
     Returns None).
Proof.
  destruct (walk walker_init (iterparse sample_survey)) as [st |] eqn:E;
    [| vm_compute in E; discriminate].
  apply (create_survey_spec_without_q_fields survey_only "survey.xml" "q.txt"
           PyStr.tab sample_survey st); try reflexivity.
  exact E.
Defined.

(** ** The alt-set reader *)

Lemma split_go_not_nil (sep s : string) (skip : nat) :
  PyStr.split_go sep skip s <> [].
Proof.
  revert skip. induction s as [| a s IH]; intros skip; cbn [PyStr.split_go];
    [discriminate |].
  destruct skip as [| k]; [| apply IH].
  destruct (prefix sep (String a s)); [discriminate |].
  destruct (PyStr.split_go sep 0 s); discriminate.
Qed.

Lemma trimmed_values_not_nil (line : string) : trimmed_values line <> [].
Proof.
  unfold trimmed_values, PyStr.split.
  pose proof (split_go_not_nil PyStr.tab line 0) as H.
  destruct (PyStr.split_go PyStr.tab 0 line); [congruence | discriminate].
Qed.

(** A row built from a line: nineteen cells of text, the first the part
    of the second before its first underscore. *)
Lemma alt_set_row_shape (line : string) (r : list cell) :
  alt_set_row line = Returns r ->
  List.length r = List.length alt_set_headers /\
  Forall (fun c => exists s, c = Str s) r /\
  exists first, nth 1 r NaN = Str first /\
                nth 0 r NaN = Str (hd "" (PyStr.split "_" first)).
Proof.
  unfold alt_set_row.
  pose proof (trimmed_values_not_nil line) as Hne.
  destruct (trimmed_values line) as [| first rest]; [congruence |].
  change 0%Z with (Z.of_nat 0). rewrite !py_index_nat. cbn [nth_error bind Monad_outcome].
  pose proof (split_go_not_nil "_" first 0) as Hs. fold (PyStr.split "_" first) in Hs.
  destruct (PyStr.split "_" first) as [| num others] eqn:Es; [congruence |].
  rewrite py_index_nat.
  cbn [nth_error bind Monad_outcome hd]. cbv zeta.
  match goal with
  | |- (if (List.length ?p =? _)%nat then _ else _) = _ -> _ => set (padded := p)
  end.
  destruct (List.length padded =? List.length alt_set_headers)%nat eqn:Hlen;
    [| discriminate].
  intros Heq. assert (Hr : r = map Str padded) by congruence. clear Heq. subst r.
  apply Nat.eqb_eq in Hlen. rewrite length_map. split; [exact Hlen |].
  split.
  - apply Forall_forall. intros c Hc. apply in_map_iff in Hc.
    destruct Hc as (s & <- & _). eauto.
  - exists first. rewrite Es. split; reflexivity.
Qed.

Lemma alt_set_rows_shape (lines : list string) (rs : list (list cell)) :
  alt_set_rows lines = Returns rs ->
  List.length rs = List.length lines /\
  Forall (fun r =>
            List.length r = List.length alt_set_headers /\
            Forall (fun c => exists s, c = Str s) r /\
            exists first, nth 1 r NaN = Str first /\
                          nth 0 r NaN = Str (hd "" (PyStr.split "_" first))) rs.
Proof.
  revert rs. induction lines as [| line rest IH]; intros rs H; cbn [alt_set_rows] in H.
  - injection H as <-. split; [reflexivity | constructor].
  - destruct (alt_set_row line) as [r |] eqn:Er; [| discriminate].
    cbn [bind Monad_outcome] in H.
    destruct (alt_set_rows rest) as [rs' |]; [| discriminate].
    cbn in H. injection H as <-. destruct (IH rs' eq_refl) as [Hl Hf].
    split; [cbn; now rewrite Hl |].
    constructor; [now apply alt_set_row_shape with (line := line) | exact Hf].
Qed.

(** X8: a table returned by [read_alt_sets] has the nineteen fixed
    column labels; every row has nineteen cells, all of them text (a
    short line is filled up with ['NA'], never with nulls), and its
    AltSetNumber is the part of its AlternativeNumber before the first
    underscore; there is one row for every line after the marker line but
    the first. *)
Theorem read_alt_sets_shape (w : World) (path delim : string) (out : list string)
    (df : DataFrame) :
  read_alt_sets w path delim = (out, Returns (Some df)) ->
  out = [] /\
  columns df = alt_set_headers /\
  Forall (fun r =>
            List.length r = 19 /\
            Forall (fun c => exists s, c = Str s) r /\
            exists first, nth 1 r NaN = Str first /\
                          nth 0 r NaN = Str (hd "" (PyStr.split "_" first)))
         (rows df) /\
  exists f,
    open_file w path = Returns f /\
    List.length (rows df)
    = List.length (lines_after "%%AlternativeDb" false (file_lines f)) - 1.
Proof.
  unfold read_alt_sets.
  destruct (imports w _); cbn [negb]; [| cbn; discriminate].
  destruct (isfile w path); [| cbn; discriminate].
  destruct (open_file w path) as [f |]; [| cbn; discriminate].
  cbn [lift bind Monad_Py app].
  destruct (end_of_file f) as [[] |]; [| cbn; discriminate].
  cbn [lift bind Monad_Py app].
  destruct (lines_after _ false (file_lines f)) as [| header lines] eqn:El;
    [cbn; discriminate |].
  cbn [lift bind Monad_Py app].
  destruct (alt_set_rows lines) as [rs |] eqn:Ers; [| cbn; discriminate].
  cbn. intros [= <- <-]. cbn [columns rows].
  destruct (alt_set_rows_shape lines rs Ers) as [Hlen Hall].
  split; [reflexivity |]. split; [reflexivity |]. split; [exact Hall |].
  exists f. split; [reflexivity |]. rewrite Hlen, El. cbn [List.length]. lia.
Qed.

Lemma read_alt_sets_shape_witness :
  exists df,
    read_alt_sets alt_sets_only "alt_sets.txt" PyStr.tab = ([], Returns (Some df)) /\
    columns df = alt_set_headers /\
    Forall (fun r =>
              List.length r = 19 /\
              Forall (fun c => exists s, c = Str s) r /\
              exists first, nth 1 r NaN = Str first /\
                            nth 0 r NaN = Str (hd "" (PyStr.split "_" first)))
           (rows df) /\
    exists f,
      open_file alt_sets_only "alt_sets.txt" = Returns f /\
      List.length (rows df)
      = List.length (lines_after "%%AlternativeDb" false (file_lines f)) - 1.
Proof.
  eexists. split; [vm_compute; reflexivity |].
  eapply (read_alt_sets_shape alt_sets_only "alt_sets.txt" PyStr.tab).
  vm_compute. reflexivity.
Defined.

Example read_alt_sets_sample :
  option_map (fun df => map (fun r => (nth 0 r NaN, nth 1 r NaN, nth 2 r NaN,
                                       nth 3 r NaN, nth 18 r NaN)) (rows df))
    match result (read_alt_sets alt_sets_only "alt_sets.txt" PyStr.tab) with
    | Returns v => v
    | Raises _ => None
    end
  = Some [(Str "1", Str "1_1", Str "YesNo", Str "Yes", Str "");
          (Str "1", Str "1_2", Str "YesNo", Str "No", Str "NA")].
Proof. vm_compute. reflexivity. Qed.

Lemma lines_after_no_marker (marker : string) (lines : list string) :
  Forall (fun line => PyStr.contains marker line = false) lines ->
  lines_after marker false lines = [].
Proof.
  induction 1 as [| line rest Hline _ IH]; cbn [lines_after]; [reflexivity |].
  rewrite Hline. cbn. exact IH.
Qed.

(** X9: when the file is there and can be opened but none of its lines
    holds the marker [%%AlternativeDb], [read_alt_sets] prints one
    diagnostic line and returns [None]: the list of lines after the marker
    is empty and dropping its first element raises, inside the [try]. *)
Theorem read_alt_sets_without_marker (w : World) (path delim : string)
    (f : file_read) :
  isfile w path = true ->
  open_file w path = Returns f ->
  Forall (fun line => PyStr.contains "%%AlternativeDb" line = false) (file_lines f) ->
  exists msg, read_alt_sets w path delim = ([msg], Returns None).
Proof.
  intros Hfile Hopen Hlines. unfold read_alt_sets. rewrite Hfile, Hopen.
  destruct (imports w _); cbn [negb]; [| cbn; eauto].
  cbn [lift bind Monad_Py app].
  rewrite (lines_after_no_marker _ _ Hlines).
  destruct (end_of_file f) as [[] |]; cbn; eauto.
Qed.

Lemma read_alt_sets_without_marker_witness :
  exists msg, read_alt_sets no_marker_file "plain.txt" PyStr.tab = ([msg], Returns None).
Proof.
  apply (read_alt_sets_without_marker no_marker_file "plain.txt" PyStr.tab
           (mkFileRead [tab_line ["a"; "b"]; tab_line ["1"; "2"]] None)).
  - reflexivity.
  - reflexivity.
  - repeat constructor.
Defined.

(** ** The k-field reader *)

Lemma count_to_marker_found (marker : string) (pre post : list string)
    (line : string) :
  Forall (fun l => PyStr.contains marker l = false) pre ->
  PyStr.contains marker line = true ->
  count_to_marker marker (pre ++ line :: post) = (S (List.length pre), true).
Proof.
  intros Hpre Hline. induction Hpre as [| l rest Hl _ IH]; cbn [app count_to_marker].
  - now rewrite Hline.
  - rewrite Hl, IH. reflexivity.
Qed.

Lemma count_to_marker_missing (marker : string) (lines : list string) :
  Forall (fun l => PyStr.contains marker l = false) lines ->
  count_to_marker marker lines = (List.length lines, false).
Proof.
  induction 1 as [| l rest Hl _ IH]; cbn [count_to_marker]; [reflexivity |].
  rewrite Hl, IH. reflexivity.
Qed.

(** X10: [read_k_fields] hands the CSV reader the file with every line up
    to and including the first one that holds [%%CalculatedSurveyField]
    skipped, and with the tab as separator whatever [delim] is; it returns
    what the reader gives with every text column stripped, or prints its
    diagnostic and returns [None] when the reader raises. *)
Theorem read_k_fields_skips_to_marker (w : World) (path delim : string)
    (f : file_read) (pre post : list string) (line : string) :
  imports w ["pandas"; "os.path"] = true ->
  isfile w path = true ->
  open_file w path = Returns f ->
  file_lines f = pre ++ line :: post ->
  Forall (fun l => PyStr.contains "%%CalculatedSurveyField" l = false) pre ->
  PyStr.contains "%%CalculatedSurveyField" line = true ->
  read_k_fields w path delim
  = match read_csv w path PyStr.tab (S (List.length pre)) with
    | Returns df => ([], Returns (Some (strip_all_columns df)))
    | Raises _ =>
        (["error occurred while reading in the k-fields text file, check the file path and integrity of data"],
         Returns None)
    end.
Proof.
  intros Himp Hfile Hopen Hlines Hpre Hline. unfold read_k_fields.
  rewrite Himp, Hfile, Hopen. cbn [negb lift bind Monad_Py app].
  rewrite Hlines, (count_to_marker_found _ pre post line Hpre Hline).
  cbn [lift bind Monad_Py app].
  destruct (read_csv w path PyStr.tab (S (List.length pre))); reflexivity.
Qed.

Lemma read_k_fields_skips_to_marker_witness :
  read_k_fields k_fields_only "k_fields.txt" ","
  = ([], Returns (Some (mkDataFrame ["index"; "# Key"; "Calculation"]
                          [[Num 0; Str "k_1"; Str "q_5 + q_6 * 2"]]))).
Proof.
  apply (read_k_fields_skips_to_marker k_fields_only "k_fields.txt" ","
           (mkFileRead sample_k_lines None)
           [tab_line ["K-Fields"]; tab_line ["exported"]]
           [tab_line ["# Key"; "Calculation"]; tab_line ["k_1 "; "q_5 + q_6 * 2"]]
           (tab_line ["%%CalculatedSurveyField"])); try reflexivity.
  repeat constructor.
Defined.

(** Without a marker line every line of the file is skipped. *)
Lemma read_k_fields_without_marker (w : World) (path delim : string)
    (f : file_read) :
  imports w ["pandas"; "os.path"] = true ->
  isfile w path = true ->
  open_file w path = Returns f ->
  file_fault f = None ->
  Forall (fun l => PyStr.contains "%%CalculatedSurveyField" l = false) (file_lines f) ->
  read_k_fields w path delim
  = match read_csv w path PyStr.tab (List.length (file_lines f)) with
    | Returns df => ([], Returns (Some (strip_all_columns df)))
    | Raises _ =>
        (["error occurred while reading in the k-fields text file, check the file path and integrity of data"],
         Returns None)
    end.
Proof.
  intros Himp Hfile Hopen Hfault Hlines. unfold read_k_fields.
  rewrite Himp, Hfile, Hopen. cbn [negb lift bind Monad_Py app].
  rewrite (count_to_marker_missing _ _ Hlines).
  unfold end_of_file. rewrite Hfault. cbn [lift bind Monad_Py app].
  destruct (read_csv w path PyStr.tab (List.length (file_lines f))); reflexivity.
Qed.

(** ** The exports reader *)

(** The table the loop over the data rows ends with: the one it started
    with when no row has the export's name, else the table of the last
    row that has it. *)
Lemma exports_loop_result (export_name : string) (lines : list string)
    (acc : option DataFrame) (df : DataFrame) :
  exports_loop export_name acc lines = Returns (Some df) ->
  (acc = Some df /\
   Forall (fun l => nth_error (trimmed_values l) 1 <> Some export_name) lines)
  \/ exists pre line post,
       lines = pre ++ line :: post /\
       nth_error (trimmed_values line) 1 = Some export_name /\
       export_table (trimmed_values line) = Returns df /\
       Forall (fun l => nth_error (trimmed_values l) 1 <> Some export_name) post.
Proof.
  revert acc. induction lines as [| line rest IH]; intros acc H;
    cbn [exports_loop] in H.
  - injection H as ->. left. split; [reflexivity | constructor].
  - destruct (exports_line export_name acc line) as [acc1 |] eqn:El; [| discriminate].
    cbn [bind Monad_outcome] in H. unfold exports_line in El.
    change 1%Z with (Z.of_nat 1) in El. rewrite py_index_nat in El.
    destruct (nth_error (trimmed_values line) 1) as [name |] eqn:En; [| discriminate].
    cbn [bind Monad_outcome] in El.
    destruct (String.eqb_spec name export_name) as [-> | Hne].
    + destruct (export_table (trimmed_values line)) as [d |] eqn:Et; [| discriminate].
      cbn in El. injection El as <-.
      destruct (IH _ H) as [[Hacc Hrest] | (pre & l & post & -> & Hl & Htab & Hpost)].
      * injection Hacc as ->. right. exists [], line, rest. auto.
      * right. exists (line :: pre), l, post. auto.
    + cbn in El. injection El as <-.
      destruct (IH _ H) as [[Hacc Hrest] | (pre & l & post & -> & Hl & Htab & Hpost)].
      * left. split; [exact Hacc |]. constructor; [congruence | exact Hrest].
      * right. exists (line :: pre), l, post. auto.
Qed.

Lemma read_exports_inv (w : World) (path export_name delim : string)
    (out : list string) (df : DataFrame) :
  read_exports w path export_name delim = (out, Returns (Some df)) ->
  out = [] /\
  exists f,
    open_file w path = Returns f /\
    exports_loop export_name None
      (skipn 2 (fst (lines_before "%%EpisodeCondition" (file_lines f))))
    = Returns (Some df).
Proof.
  intros H. unfold read_exports in H.
  destruct (imports w _); cbn [negb] in H; [| cbn in H; discriminate].
  destruct (isfile w path); [| cbn in H; discriminate].
  destruct (open_file w path) as [f |]; [| cbn in H; discriminate].
  cbn -[skipn lines_before] in H.
  destruct (lines_before _ (file_lines f)) as [exports_lines broke] eqn:Elb.
  destruct (if broke then Returns tt else end_of_file f) as [[] |];
    [| cbn in H; discriminate].
  cbn -[skipn] in H.
  destruct (exports_loop export_name None (skipn 2 exports_lines))
    as [[d |] |] eqn:Eloop; cbn -[skipn] in H; try discriminate.
  injection H as <- <-. split; [reflexivity |].
  exists f. split; [reflexivity |]. rewrite Elb. exact Eloop.
Qed.

(** X11: a table returned by [read_exports] is built from one data row
    of the file (a line after the first two and before the marker line)
    whose second cell, stripped, is the export's name, and from the last
    such row when there are several: no later data row has that name. *)
Theorem read_exports_last_match (w : World) (path export_name delim : string)
    (out : list string) (df : DataFrame) :
  read_exports w path export_name delim = (out, Returns (Some df)) ->
  out = [] /\
  exists f pre line post,
    open_file w path = Returns f /\
    skipn 2 (fst (lines_before "%%EpisodeCondition" (file_lines f)))
    = pre ++ line :: post /\
    nth_error (trimmed_values line) 1 = Some export_name /\
    export_table (trimmed_values line) = Returns df /\
    Forall (fun l => nth_error (trimmed_values l) 1 <> Some export_name) post.
Proof.
  intros H. destruct (read_exports_inv _ _ _ _ _ _ H) as (-> & f & Hopen & Eloop).
  split; [reflexivity |].
  destruct (exports_loop_result _ _ _ _ Eloop)
    as [[Hacc _] | (pre & line & post & Hsplit & Hl & Htab & Hpost)];
    [discriminate |].
  exists f, pre, line, post. auto.
Qed.

Lemma read_exports_last_match_witness :
  exists df f pre line post,
    read_exports exports_only "exports.txt" "Weekly file" PyStr.tab
    = ([], Returns (Some df)) /\
    open_file exports_only "exports.txt" = Returns f /\
    skipn 2 (fst (lines_before "%%EpisodeCondition" (file_lines f)))
    = pre ++ line :: post /\
    nth_error (trimmed_values line) 1 = Some "Weekly file" /\
    export_table (trimmed_values line) = Returns df /\
    Forall (fun l => nth_error (trimmed_values l) 1 <> Some "Weekly file") post.
Proof.
  destruct (read_exports exports_only "exports.txt" "Weekly file" PyStr.tab)
    as [out [[df |] | e]] eqn:E; try (vm_compute in E; discriminate).
  destruct (read_exports_last_match exports_only "exports.txt" "Weekly file"
              PyStr.tab out df E) as (-> & f & pre & line & post & H).
  exists df, f, pre, line, post. split; [reflexivity | exact H].
Defined.

Lemma map_fst_combine_seq {A B} (h : nat -> B) (l : list A) (start : nat) :
  map (fun nf => h (fst nf)) (combine (seq start (List.length l)) l)
  = map h (seq start (List.length l)).
Proof.
  revert start. induction l as [| x l IH]; intros start; cbn; [reflexivity |].
  now rewrite IH.
Qed.

Lemma export_table_rows (trimmed : list string) (df : DataFrame) (name : string) :
  export_table trimmed = Returns df ->
  nth_error trimmed 1 = Some name ->
  columns df = col_headers /\
  map (fun r => nth 0 r NaN) (rows df)
  = map (fun i => Str (PyStr.of_int (Z.of_nat i))) (seq 1 (List.length (rows df))) /\
  Forall (fun r => List.length r = 4 /\
                   nth 1 r NaN = Str (nth 0 trimmed "") /\
                   nth 2 r NaN = Str name /\
                   exists field, nth 3 r NaN = Str field /\ field <> "")
         (rows df).
Proof.
  unfold export_table. intros H Hname.
  change 17%Z with (Z.of_nat 17) in H. change 18%Z with (Z.of_nat 18) in H.
  change 0%Z with (Z.of_nat 0) in H. change 1%Z with (Z.of_nat 1) in H.
  rewrite !py_index_nat in H.
  destruct (nth_error trimmed 17) as [c17 |]; [| discriminate].
  cbn [bind Monad_outcome] in H.
  destruct (nth_error trimmed 18) as [c18 |]; [| discriminate].
  cbn [bind Monad_outcome] in H.
  destruct trimmed as [| number rest]; [discriminate |].
  cbn [nth_error bind Monad_outcome] in H, Hname. rewrite Hname in H.
  cbn [bind Monad_outcome ret] in H. cbv zeta in H.
  set (fields := filter _ _) in H. injection H as <-. cbn [columns rows].
  split; [reflexivity |]. split.
  - rewrite map_map, length_map, length_combine, length_seq, Nat.min_id.
    cbn [nth].
    rewrite (map_fst_combine_seq (fun i => Str (PyStr.of_int (Z.of_nat i + 1))) fields 0).
    rewrite <- seq_shift, map_map. apply map_ext. intros i.
    do 2 f_equal. lia.
  - apply Forall_forall. intros r Hr. apply in_map_iff in Hr.
    destruct Hr as ([i field] & <- & Hin). cbn [fst snd List.length nth].
    repeat split. exists field. split; [reflexivity |].
    apply in_combine_r in Hin. subst fields. apply filter_In in Hin.
    destruct Hin as [_ Hne]. apply negb_true_iff in Hne.
    now apply String.eqb_neq in Hne.
Qed.

(** X12: in a table returned by [read_exports] the columns are the four
    fixed ones, the column numbers are the texts 1, 2, ... in row order
    without gaps, every row carries the export's name, and no row has an
    empty export field: the empty pieces left by the splitting at [' : ']
    are dropped before the rows are numbered. *)
Theorem read_exports_numbering (w : World) (path export_name delim : string)
    (out : list string) (df : DataFrame) :
  read_exports w path export_name delim = (out, Returns (Some df)) ->
  columns df = col_headers /\
  map (fun r => nth 0 r NaN) (rows df)
  = map (fun i => Str (PyStr.of_int (Z.of_nat i))) (seq 1 (List.length (rows df))) /\
  Forall (fun r => List.length r = 4 /\
                   nth 2 r NaN = Str export_name /\
                   exists field, nth 3 r NaN = Str field /\ field <> "")
         (rows df).
Proof.
  intros H. destruct (read_exports_inv _ _ _ _ _ _ H) as (-> & f & Hopen & Eloop).
  destruct (exports_loop_result _ _ _ _ Eloop)
    as [[Hacc _] | (pre & line & post & Hsplit & Hl & Htab & Hpost)];
    [discriminate |].
  destruct (export_table_rows _ _ _ Htab Hl) as (Hc & Hn & Hall).
  split; [exact Hc |]. split; [exact Hn |].
  eapply Forall_impl; [| exact Hall]. cbn. intros r (H1 & _ & H3 & H4). auto.
Qed.

Lemma read_exports_numbering_witness :
  exists df,
    read_exports exports_only "exports.txt" "Weekly file" PyStr.tab
    = ([], Returns (Some df)) /\
    columns df = col_headers /\
    map (fun r => nth 0 r NaN) (rows df)
    = map (fun i => Str (PyStr.of_int (Z.of_nat i))) (seq 1 (List.length (rows df))) /\
    Forall (fun r => List.length r = 4 /\
                     nth 2 r NaN = Str "Weekly file" /\
                     exists field, nth 3 r NaN = Str field /\ field <> "")
           (rows df).
Proof.
  eexists. split; [vm_compute; reflexivity |].
  eapply (read_exports_numbering exports_only "exports.txt" "Weekly file" PyStr.tab).
  vm_compute. reflexivity.
Defined.

(** ** The organized alt-set table *)

Lemma filter_combine_keys {P A K} (p : K -> bool) (k : A -> K)
    (rs : list A) (ps : list P) :
  List.length ps = List.length rs ->
  map (fun irk : P * (A * K) => fst (snd irk))
      (filter (fun irk => p (snd (snd irk))) (combine ps (combine rs (map k rs))))
  = filter (fun r => p (k r)) rs.
Proof.
  revert ps. induction rs as [| r rs IH]; intros [| x ps] Hlen; cbn in *;
    try reflexivity; try discriminate.
  destruct (p (k r)); cbn; [f_equal |]; apply IH; lia.
Qed.

(** The rows of one alt set: those of the table with that name, each
    behind a new first cell, under a new first label that is not a label
    of the table. *)
Lemma alt_set_group_rows (df g : DataFrame) (alt_name : string) (name : cell)
    (i : nat) :
  Pd.index_of alt_name (columns df) = Some i ->
  alt_set_group df alt_name name = Returns g ->
  exists newcol firsts,
    columns g = newcol :: columns df /\
    Pd.index_of newcol (columns df) = None /\
    rows g = map (fun xr => fst xr :: snd xr) (combine firsts (group_rows df i name)) /\
    List.length firsts = List.length (group_rows df i name).
Proof.
  intros Hi. unfold alt_set_group, Pd.series. rewrite Hi.
  cbn [bind Monad_outcome]. cbv zeta.
  set (positions := map _ (seq 0 _)).
  set (kept := filter _ _).
  assert (Hkept : map (fun irk : cell * (list cell * cell) => fst (snd irk)) kept
                  = group_rows df i name).
  { subst kept. unfold group_rows.
    apply (filter_combine_keys (fun c => cell_eqb c name) (fun r => nth i r NaN)).
    subst positions. now rewrite length_map, length_seq. }
  unfold Pd.reset_index. cbn [columns rows]. rewrite Hkept.
  intros H. exists (match Pd.index_of "index" (columns df) with
                   | Some _ => "level_0" | None => "index" end),
                   (map fst kept).
  destruct (Pd.index_of "index" (columns df)) eqn:E1.
  - destruct (Pd.index_of "level_0" (columns df)) eqn:E2; [discriminate |].
    injection H as <-. cbn [columns rows]. repeat split; try assumption.
    rewrite <- Hkept. now rewrite !length_map.
  - injection H as <-. cbn [columns rows]. repeat split; try assumption.
    rewrite <- Hkept. now rewrite !length_map.
Qed.

Lemma index_of_behind (c newcol : string) (cols : list string) (j : nat) :
  Pd.index_of newcol cols = None ->
  Pd.index_of c cols = Some j ->
  Pd.index_of c (newcol :: cols) = Some (S j).
Proof.
  intros Hnew Hc. cbn [Pd.index_of].
  destruct (String.eqb_spec newcol c) as [-> | _]; [congruence |].
  now rewrite Hc.
Qed.

Lemma map_nth_behind (j : nat) (firsts : list cell) (rs : list (list cell)) :
  List.length firsts = List.length rs ->
  map (fun r => nth (S j) r NaN) (map (fun xr => fst xr :: snd xr) (combine firsts rs))
  = map (fun r => nth j r NaN) rs.
Proof.
  revert firsts. induction rs as [| r rs IH]; intros [| x firsts] Hlen; cbn in *;
    try reflexivity; try discriminate.
  f_equal. apply IH. lia.
Qed.

(** The number of the rows of one alt set, as the loop leaves it. *)
Lemma alt_rows_number (cols : list string) (alt_number alt_label alt_value : string)
    (i : nat) (rs : list (list cell)) (acc acc' : alt_acc) :
  Pd.index_of alt_number cols = Some i ->
  alt_rows cols alt_number alt_label alt_value acc rs = Returns acc' ->
  alt_set_number acc' =
  if cell_eqb (alt_set_number acc) (Str "")
  then first_number (map (fun r => nth i r NaN) rs)
  else alt_set_number acc.
Proof.
  intros Hi. revert acc. induction rs as [| r rs IH]; intros acc H; cbn [alt_rows] in H.
  - injection H as <-. cbn [map]. unfold first_number. cbn [filter hd].
    destruct (alt_set_number acc) as [| s | z]; cbn [cell_eqb]; try reflexivity.
    destruct (String.eqb_spec s ""); subst; reflexivity.
  - destruct (alt_row cols alt_number alt_label alt_value acc r) as [acc1 |] eqn:E;
      [| discriminate].
    cbn [bind Monad_outcome] in H. rewrite (IH acc1 H). clear IH H.
    unfold alt_row in E. unfold Pd.row_get at 1 in E. rewrite Hi in E.
    assert (Hacc1 : alt_set_number acc1
                    = if cell_eqb (alt_set_number acc) (Str "")
                      then (if isnull (nth i r NaN) then alt_set_number acc
                            else nth i r NaN)
                      else alt_set_number acc).
    { destruct (cell_eqb (alt_set_number acc) (Str ""));
        cbn [bind Monad_outcome ret] in E;
        (destruct (if alt_set_value acc =? "" then _ else _); [| discriminate]);
        cbn [bind Monad_outcome] in E;
        (destruct (if alt_set_label acc =? "" then _ else _); [| discriminate]);
        cbn [bind Monad_outcome ret] in E; injection E as <-; reflexivity. }
    rewrite Hacc1. clear E Hacc1. cbn [map]. unfold first_number. cbn [filter].
    destruct (cell_eqb (alt_set_number acc) (Str "")) eqn:Ea.
    + destruct (isnull (nth i r NaN)) eqn:En; cbn [negb andb].
      * rewrite Ea. reflexivity.
      * destruct (cell_eqb (nth i r NaN) (Str "")); reflexivity.
    + rewrite Ea. reflexivity.
Qed.

Lemma alt_sets_rows (df : DataFrame) (alt_name alt_number alt_label alt_value : string)
    (names : list cell) (last_value : option string) (rs : list (list cell)) :
  alt_sets df alt_name alt_number alt_label alt_value last_value names = Returns rs ->
  map (fun r => nth 0 r NaN) rs = names /\
  Forall (fun r => List.length r = 4) rs /\
  forall i j k,
    Pd.index_of alt_name (columns df) = Some i ->
    Pd.index_of alt_number (columns df) = Some j ->
    Pd.index_of alt_label (columns df) = Some k ->
    map (fun r => (nth 1 r NaN, nth 2 r NaN)) rs
    = map (fun name =>
             (first_number (map (fun r => nth j r NaN) (group_rows df i name)),
              Str (labels_text (map (fun r => nth k r NaN) (group_rows df i name)))))
          names.
Proof.
  revert last_value rs. induction names as [| name rest IH]; intros last_value rs H;
    cbn [alt_sets] in H.
  - injection H as <-. repeat split. constructor.
  - destruct (alt_set_group df alt_name name) as [g |] eqn:Eg; [| discriminate].
    cbn [bind Monad_outcome] in H.
    destruct (alt_rows (columns g) alt_number alt_label alt_value _ (rows g))
      as [acc |] eqn:Eacc; [| discriminate].
    cbn [bind Monad_outcome] in H.
    destruct (alt_sets df alt_name alt_number alt_label alt_value (value acc) rest)
      as [others |] eqn:Eo; [| discriminate].
    cbn [bind Monad_outcome ret] in H. injection H as <-.
    destruct (IH _ _ Eo) as (Hnames & Hlen & Hrows). clear IH.
    cbn [map nth]. split; [now rewrite Hnames |].
    split; [constructor; [reflexivity | exact Hlen] |].
    intros i j k Hi Hj Hk. rewrite (Hrows i j k Hi Hj Hk). f_equal.
    destruct (alt_set_group_rows df g alt_name name i Hi Eg)
      as (newcol & firsts & Hcols & Hnew & Hg & Hfl).
    rewrite Hcols in Eacc.
    pose proof (alt_rows_number _ _ _ _ (S j) _ _ _
                  (index_of_behind _ _ _ _ Hnew Hj) Eacc) as Hnum.
    pose proof (alt_rows_label _ _ _ _ (S k) _ _ _
                  (index_of_behind _ _ _ _ Hnew Hk) Eacc) as Hlab.
    cbn [alt_set_number alt_set_label cell_eqb String.eqb] in Hnum, Hlab.
    rewrite Hg in Hnum, Hlab.
    rewrite (map_nth_behind j firsts _ Hfl) in Hnum.
    rewrite (map_nth_behind k firsts _ Hfl) in Hlab.
    unfold labels_text. now rewrite Hnum, Hlab.
Qed.

Lemma unique_go_NoDup (l seen : list cell) : NoDup (Pd.unique_go seen l).
Proof.
  revert seen. induction l as [| c l IH]; intros seen; cbn; [constructor |].
  destruct (existsb (cell_same c) seen); [apply IH |].
  constructor; [| apply IH].
  rewrite unique_go_In. intros [_ Hn]. apply Hn. now left.
Qed.

Lemma organize_alt_sets_inv (w : World) (df res : DataFrame)
    (alt_name alt_number alt_label alt_value : string) (out : list string) :
  organize_alt_sets w (Some df) alt_name alt_number alt_label alt_value
  = (out, Returns (Some res)) ->
  out = [] /\
  exists names rs,
    Pd.series df alt_name = Returns names /\
    alt_sets df alt_name alt_number alt_label alt_value None (Pd.unique names)
    = Returns rs /\
    res = mkDataFrame alt_set_columns
            (map (fun r => [nth 0 r NaN; nth 1 r NaN; nth 2 r NaN; nth 3 r NaN]) rs).
Proof.
  intros H. unfold organize_alt_sets in H.
  destruct (imports w _); cbn [negb] in H; [| cbn in H; discriminate].
  cbn [attribute_of lift bind Monad_Py app] in H.
  destruct (Pd.series df alt_name) as [names |] eqn:En; [| cbn in H; discriminate].
  cbn [lift bind Monad_Py app] in H.
  destruct (alt_sets df alt_name alt_number alt_label alt_value None (Pd.unique names))
    as [rs |] eqn:Ers; [| cbn in H; discriminate].
  cbn [lift bind Monad_Py app] in H.
  unfold Pd.select in H. cbn [columns rows] in H.
  change (Pd.indices_of alt_set_columns alt_set_columns)
    with (Returns [0; 1; 2; 3]%nat) in H.
  cbn in H. injection H as <- <-. split; [reflexivity |].
  exists names, rs. repeat split. exact Ers.
Qed.

(** X13: a table returned by [organize_alt_sets] has one row for every
    distinct value of the name column, in the order of their first
    occurrence and none twice, under the four fixed column labels. *)
Theorem organize_alt_sets_one_row_per_name (w : World) (df res : DataFrame)
    (alt_name alt_number alt_label alt_value : string) (out : list string) :
  organize_alt_sets w (Some df) alt_name alt_number alt_label alt_value
  = (out, Returns (Some res)) ->
  columns res = alt_set_columns /\
  exists names,
    Pd.series df alt_name = Returns names /\
    map (fun r => nth 0 r NaN) (rows res) = Pd.unique names /\
    NoDup (map (fun r => nth 0 r NaN) (rows res)) /\
    (forall c, In c names <-> In c (map (fun r => nth 0 r NaN) (rows res))).
Proof.
  intros H. destruct (organize_alt_sets_inv _ _ _ _ _ _ _ _ H)
    as (_ & names & rs & Hnames & Hrs & ->).
  split; [reflexivity |]. exists names. split; [exact Hnames |].
  destruct (alt_sets_rows _ _ _ _ _ _ _ _ Hrs) as (Hn & _ & _).
  cbn [rows]. rewrite map_map. cbn [nth]. rewrite Hn.
  split; [reflexivity |]. split; [apply unique_go_NoDup |].
  intros c. symmetry. apply unique_same_elements.
Qed.

Lemma organize_alt_sets_one_row_per_name_witness :
  exists res,
    organize_alt_sets no_files (Some second_without_value)
      "Name" "AltSetNumber" "InSurvey" "ExportValue" = ([], Returns (Some res)) /\
    columns res = alt_set_columns /\
    exists names,
      Pd.series second_without_value "Name" = Returns names /\
      map (fun r => nth 0 r NaN) (rows res) = Pd.unique names /\
      NoDup (map (fun r => nth 0 r NaN) (rows res)) /\
      (forall c, In c names <-> In c (map (fun r => nth 0 r NaN) (rows res))).
Proof.
  eexists. split; [vm_compute; reflexivity |].
  eapply (organize_alt_sets_one_row_per_name no_files second_without_value _
            "Name" "AltSetNumber" "InSurvey" "ExportValue").
  vm_compute. reflexivity.
Defined.

(** X14: in a table returned by [organize_alt_sets] the row of a name
    holds, as number, the first cell of the number column among the rows
    with that name that is neither null nor empty text (empty text when
    there is none), and as labels the text of the label cells of those
    rows, from the first one on that is neither null nor empty, joined by
    ["; "]; a later null label is written [nan].  A null name has no
    rows, so its number and labels are empty. *)
Theorem organize_alt_sets_number_and_labels (w : World) (df res : DataFrame)
    (alt_name alt_number alt_label alt_value : string) (out : list string)
    (i j k : nat) :
  organize_alt_sets w (Some df) alt_name alt_number alt_label alt_value
  = (out, Returns (Some res)) ->
  Pd.index_of alt_name (columns df) = Some i ->
  Pd.index_of alt_number (columns df) = Some j ->
  Pd.index_of alt_label (columns df) = Some k ->
  Forall (fun r =>
            nth 1 r NaN
            = first_number (map (fun x => nth j x NaN) (group_rows df i (nth 0 r NaN))) /\
            nth 2 r NaN
            = Str (labels_text (map (fun x => nth k x NaN)
                                    (group_rows df i (nth 0 r NaN)))) /\
            (nth 0 r NaN = NaN -> nth 1 r NaN = Str "" /\ nth 2 r NaN = Str ""))
         (rows res).
Proof.
  intros H Hi Hj Hk. destruct (organize_alt_sets_inv _ _ _ _ _ _ _ _ H)
    as (_ & names & rs & Hnames & Hrs & ->).
  destruct (alt_sets_rows _ _ _ _ _ _ _ _ Hrs) as (Hn & _ & Hrows).
  specialize (Hrows i j k Hi Hj Hk). rewrite <- Hn, map_map in Hrows.
  cbn [rows]. apply Forall_forall. intros r Hr. apply in_map_iff in Hr.
  destruct Hr as (r0 & <- & Hin). cbn [nth].
  assert (Hr0 : (nth 1 r0 NaN, nth 2 r0 NaN)
                = (first_number (map (fun x => nth j x NaN) (group_rows df i (nth 0 r0 NaN))),
                   Str (labels_text (map (fun x => nth k x NaN)
                                         (group_rows df i (nth 0 r0 NaN)))))).
  { clear - Hrows Hin. induction rs as [| a rs IH]; [contradiction |].
    cbn [map] in Hrows. injection Hrows as H1 H2 H3.
    destruct Hin as [<- | Hin]; [congruence | now apply IH]. }
  injection Hr0 as H1 H2. split; [exact H1 |]. split; [exact H2 |].
  intros Hnan. rewrite H1, H2, Hnan.
  assert (Hg : group_rows df i NaN = []).
  { unfold group_rows. induction (rows df) as [| x xs IHx]; [reflexivity |].
    cbn [filter]. destruct (nth i x NaN); cbn [cell_eqb]; exact IHx. }
  rewrite Hg. split; reflexivity.
Qed.

Lemma organize_alt_sets_number_and_labels_witness :
  exists res,
    organize_alt_sets no_files (Some yes_no_gap)
      "Name" "AltSetNumber" "InSurvey" "ExportValue" = ([], Returns (Some res)) /\
    Forall (fun r =>
              nth 1 r NaN
              = first_number (map (fun x => nth 0 x NaN)
                                  (group_rows yes_no_gap 1 (nth 0 r NaN))) /\
              nth 2 r NaN
              = Str (labels_text (map (fun x => nth 2 x NaN)
                                      (group_rows yes_no_gap 1 (nth 0 r NaN)))) /\
              (nth 0 r NaN = NaN -> nth 1 r NaN = Str "" /\ nth 2 r NaN = Str ""))
           (rows res).
Proof.
  eexists. split; [vm_compute; reflexivity |].
  eapply (organize_alt_sets_number_and_labels no_files yes_no_gap _
            "Name" "AltSetNumber" "InSurvey" "ExportValue");
    vm_compute; reflexivity.
Defined.

(** ** The edges of the k-field parser *)

Lemma dict_set_In {V} (d : list (string * V)) (k : string) (v : V)
    (k' : string) (v' : V) :
  NoDup (map fst d) ->
  In (k', v') (dict_set d k v) <-> (k' = k /\ v' = v) \/ (k' <> k /\ In (k', v') d).
Proof.
  induction d as [| [k0 v0] d IH]; cbn [dict_set map fst]; intros Hnd.
  - cbn. split.
    + intros [[= <- <-] | []]. now left.
    + intros [[-> ->] | [_ []]]. now left.
  - inversion Hnd as [| ? ? Hfresh Hnd']. subst.
    destruct (String.eqb_spec k0 k) as [-> | Hne].
    + cbn [In]. split.
      * intros [[= <- <-] | Hin]; [now left |]. right. split; [| now right].
        intros ->. apply Hfresh. apply in_map_iff. now exists (k, v').
      * intros [[-> ->] | [Hk [[= E _] | Hin]]]; [now left | congruence | now right].
    + cbn [In]. rewrite (IH Hnd'). split.
      * intros [[= <- <-] | [[-> ->] | [Hk Hin]]].
        -- right. split; [exact Hne | now left].
        -- now left.
        -- right. split; [exact Hk | now right].
      * intros [[-> ->] | [Hk [[= <- <-] | Hin]]].
        -- right. now left.
        -- now left.
        -- right. right. now split.
Qed.

Lemma dict_set_NoDup {V} (d : list (string * V)) (k : string) (v : V) :
  NoDup (map fst d) -> NoDup (map fst (dict_set d k v)).
Proof.
  induction d as [| [k0 v0] d IH]; cbn [dict_set map fst]; intros Hnd.
  - repeat constructor. intros [].
  - inversion Hnd as [| ? ? Hfresh Hnd']. subst.
    destruct (String.eqb_spec k0 k) as [-> | Hne]; cbn [map fst].
    + constructor; assumption.
    + constructor; [| now apply IH].
      intros Hin. apply in_map_iff in Hin. destruct Hin as ([k1 v1] & Hk1 & Hin).
      cbn in Hk1. subst k1. apply (dict_set_In d k v k0 v1 Hnd') in Hin.
      destruct Hin as [[-> _] | [_ Hin]]; [now apply Hne |].
      apply Hfresh. apply in_map_iff. now exists (k0, v1).
Qed.

(** The dictionary of the first loop: one entry per name, that of the
    last row filed under it. *)
Lemma k_field_dict_last (cols : list string) (i j : nat) (rs : list (list cell))
    (d d' : list (string * list string)) :
  Pd.index_of "# Key" cols = Some i ->
  Pd.index_of "Calculation" cols = Some j ->
  NoDup (map fst d) ->
  k_field_dict cols rs d = Returns d' ->
  forall key ms,
    In (key, ms) d' <->
    (exists r, last_row_named i j rs key r /\ snd (k_entry i j r) = ms) \/
    (In (key, ms) d /\ ~ In key (map (fun x => fst (k_entry i j x)) rs)).
Proof.
  intros Hi Hj. revert d. induction rs as [| r rs IH]; intros d Hnd H key ms.
  - cbn in H. injection H as <-. split.
    + intros Hin. right. split; [exact Hin | intros []].
    + intros [(r & (pre & post & Hrs & _) & _) | [Hin _]]; [| exact Hin].
      now destruct pre.
  - cbn [k_field_dict] in H. unfold Pd.row_get in H. rewrite Hi, Hj in H.
    cbn [bind Monad_outcome] in H.
    rewrite (IH _ (dict_set_NoDup _ _ _ Hnd) H key ms). clear IH H.
    rewrite (dict_set_In d _ _ key ms Hnd).
    change (PyStr.strip_char PyStr.SPACE (cell_str (nth i r NaN)))
      with (fst (k_entry i j r)).
    change (all_matches (cell_str (nth j r NaN))) with (snd (k_entry i j r)).
    cbn [map In]. split.
    + intros [(r' & (pre & post & -> & Hk & Hlast) & Hms) | [[[-> ->] | [Hne Hin]] Hrs]].
      * left. exists r'. split; [| exact Hms]. now exists (r :: pre), post.
      * left. exists r. split; [| reflexivity]. now exists [], rs.
      * right. split; [exact Hin |]. intros [E | Hin']; [now apply Hne | now apply Hrs].
    + intros [(r' & (pre & post & Hrs & Hk & Hlast) & Hms) | [Hin Hrs]].
      * destruct pre as [| x pre]; cbn in Hrs; injection Hrs as -> ->.
        -- right. split; [| exact Hlast]. left. now split.
        -- left. exists r'. split; [| exact Hms]. now exists pre, post.
      * right. split.
        -- right. split; [| exact Hin]. intros E. apply Hrs. now left.
        -- intros Hin'. apply Hrs. now right.
Qed.

(** X15: the edges of a table returned by [parse_k_fields] are exactly
    the pairs of a k-field name and a field such that the field is among
    the names the four patterns find in the calculation of the last row
    of the k-field table filed under that name, and is a key, blanks
    stripped, of one of the four tables.  So of two rows with the same
    name only the later one counts, and a name found in a calculation
    that is no key of a table gives no edge. *)
Theorem parse_k_fields_edges (w : World) (kf res : DataFrame)
    (q e a : option DataFrame) (out : list string) (i j : nat) :
  parse_k_fields w (Some kf) q e a = (out, Returns (Some res)) ->
  Pd.index_of "# Key" (columns kf) = Some i ->
  Pd.index_of "Calculation" (columns kf) = Some j ->
  exists ql el al kl,
    field_list q = Returns ql /\ field_list e = Returns el /\
    field_list a = Returns al /\ field_list (Some kf) = Returns kl /\
    forall c c',
      In (c, c') (edges_of res) <->
      exists key field r,
        c = Str key /\ c' = Str field /\
        last_row_named i j (rows kf) key r /\
        In field (all_matches (cell_str (nth j r NaN))) /\
        In field (el ++ ql ++ al ++ kl).
Proof.
  intros H Hi Hj. rewrite parse_k_fields_cases in H.
  destruct (imports w _); cbn [negb] in H; [| discriminate].
  cbn [attribute_of] in H. cbn [bind Monad_outcome] in H.
  destruct (k_field_dict (columns kf) (rows kf) []) as [d |] eqn:Ed;
    [| discriminate].
  cbn [bind Monad_outcome] in H.
  destruct (field_list q) as [ql |]; [| discriminate]. cbn [bind Monad_outcome] in H.
  destruct (field_list e) as [el |]; [| discriminate]. cbn [bind Monad_outcome] in H.
  destruct (field_list a) as [al |]; [| discriminate]. cbn [bind Monad_outcome] in H.
  destruct (field_list (Some kf)) as [kl |]; [| discriminate].
  cbn [bind Monad_outcome ret] in H. injection H as <- <-.
  pose proof (k_field_dict_last _ i j _ [] _ Hi Hj (NoDup_nil _) Ed) as Hd.
  exists ql, el, al, kl. do 4 (split; [reflexivity |]).
  intros c c'. rewrite edges_of_table. split.
  - intros Hin. apply in_map_iff in Hin.
    destruct Hin as ([key field] & Heq & Hin). cbn [fst snd] in Heq.
    apply k_field_edges_In in Hin.
    destruct Hin as (ms & Hms & Hall & Hf). apply Hd in Hms.
    destruct Hms as [(r & Hlast & Hsnd) | [[] _]].
    exists key, field, r. cbn [k_entry snd] in Hsnd.
    repeat split; try congruence; assumption.
  - intros (key & field & r & -> & -> & Hlast & Hf & Hall).
    apply in_map_iff. exists (key, field).
    split; [reflexivity |]. apply k_field_edges_In.
    exists (all_matches (cell_str (nth j r NaN))). repeat split; try assumption.
    apply Hd. left. exists r. split; [exact Hlast | reflexivity].
Qed.

Lemma parse_k_fields_edges_witness :
  exists res,
    parse_k_fields no_files (Some twice_k_1) (Some sample_q_keys)
                   (Some (key_table [])) (Some (key_table []))
    = ([], Returns (Some res)) /\
    exists ql el al kl,
      field_list (Some sample_q_keys) = Returns ql /\
      field_list (Some (key_table [])) = Returns el /\
      field_list (Some (key_table [])) = Returns al /\
      field_list (Some twice_k_1) = Returns kl /\
      forall c c',
        In (c, c') (edges_of res) <->
        exists key field r,
          c = Str key /\ c' = Str field /\
          last_row_named 0 1 (rows twice_k_1) key r /\
          In field (all_matches (cell_str (nth 1 r NaN))) /\
          In field (el ++ ql ++ al ++ kl).
Proof.
  eexists. split; [vm_compute; reflexivity |].
  eapply (parse_k_fields_edges no_files twice_k_1 _ (Some sample_q_keys)
            (Some (key_table [])) (Some (key_table [])) []);
    vm_compute; reflexivity.
Defined.

(** ** Stripping the columns of a table *)

Lemma rstrip_idempotent (p : ascii -> bool) (s : string) :
  PyStr.rstrip p (PyStr.rstrip p s) = PyStr.rstrip p s.
Proof.
  induction s as [| a s IH]; cbn [PyStr.rstrip]; [reflexivity |].
  destruct ((PyStr.rstrip p s =? "") && p a)%bool eqn:E; [reflexivity |].
  cbn [PyStr.rstrip]. rewrite IH, E. reflexivity.
Qed.

Lemma lstrip_head (p : ascii -> bool) (s : string) :
  match PyStr.lstrip p s with
  | String a _ => p a = false
  | EmptyString => True
  end.
Proof.
  induction s as [| a s IH]; cbn [PyStr.lstrip]; [exact I |].
  destruct (p a) eqn:E; [exact IH | exact E].
Qed.

Lemma strip_by_idempotent (p : ascii -> bool) (s : string) :
  PyStr.strip_by p (PyStr.strip_by p s) = PyStr.strip_by p s.
Proof.
  unfold PyStr.strip_by. pose proof (lstrip_head p s) as Hhead.
  destruct (PyStr.lstrip p s) as [| a t]; [reflexivity |].
  cbn [PyStr.rstrip]. rewrite Hhead, andb_false_r. cbn [PyStr.lstrip].
  rewrite Hhead. change (PyStr.rstrip p (String a (PyStr.rstrip p t)))
    with (if ((PyStr.rstrip p (PyStr.rstrip p t) =? "") && p a)%bool then ""%string
          else String a (PyStr.rstrip p (PyStr.rstrip p t))).
  now rewrite Hhead, andb_false_r, rstrip_idempotent.
Qed.

Lemma strip_cell_idempotent (c : cell) : strip_cell (strip_cell c) = strip_cell c.
Proof.
  destruct c as [| s | z]; cbn [strip_cell]; try reflexivity.
  f_equal. apply strip_by_idempotent.
Qed.

Lemma stripped_or_kept_trans (a b c : cell) :
  stripped_or_kept a b -> stripped_or_kept b c -> stripped_or_kept a c.
Proof.
  unfold stripped_or_kept. intros [-> | ->] [-> | ->]; auto.
  right. apply strip_cell_idempotent.
Qed.

Lemma Forall2_refl_on {A} (R : A -> A -> Prop) (l : list A) :
  (forall x, R x x) -> Forall2 R l l.
Proof. intros H. induction l; constructor; auto. Qed.

Lemma Forall2_trans_on {A} (R : A -> A -> Prop) (l1 l2 l3 : list A) :
  (forall x y z, R x y -> R y z -> R x z) ->
  Forall2 R l1 l2 -> Forall2 R l2 l3 -> Forall2 R l1 l3.
Proof.
  intros HR H12. revert l3. induction H12 as [| x y l1 l2 Hxy _ IH]; intros l3 H23;
    inversion H23; subst; constructor; eauto.
Qed.

Lemma rows_replaced {B} (i : nat) (f : B -> B) (g : list B -> B) (l : list (list B)) :
  map (fun rv : list B * B => Pd.replace_nth i (snd rv) (fst rv))
      (combine l (map f (map g l)))
  = map (fun r => Pd.replace_nth i (f (g r)) r) l.
Proof. induction l as [| r l IH]; cbn; [reflexivity | now rewrite IH]. Qed.

Lemma nth_replace_stripped (i p : nat) (r : list cell) :
  nth p (Pd.replace_nth i (strip_cell (nth i r NaN)) r) NaN
  = if (p =? i)%nat then strip_cell (nth p r NaN) else nth p r NaN.
Proof.
  revert i p. induction r as [| h t IH]; intros i p.
  - cbn. destruct p, i; cbn; try reflexivity. now destruct (p =? i)%nat.
  - destruct i as [| k], p as [| q]; cbn [Pd.replace_nth nth Nat.eqb]; try reflexivity.
    apply IH.
Qed.

Lemma length_replace_nth {A} (i : nat) (x : A) (r : list A) :
  List.length (Pd.replace_nth i x r) = List.length r.
Proof.
  revert i. induction r as [| h t IH]; intros [| k]; cbn; try reflexivity.
  now rewrite IH.
Qed.

Lemma replace_stripped_or_kept (i : nat) (r : list cell) :
  Forall2 stripped_or_kept r (Pd.replace_nth i (strip_cell (nth i r NaN)) r).
Proof.
  revert i. induction r as [| h t IH]; intros [| k]; cbn [Pd.replace_nth nth];
    try constructor.
  - now right.
  - apply Forall2_refl_on. intros x. now left.
  - now left.
  - apply IH.
Qed.

(** [strip_column] on a table: nothing when the label is missing or when
    no cell of the column is text, and every cell of the column stripped
    otherwise. *)
Lemma strip_column_spec (df : DataFrame) (col_name : string) :
  strip_column df col_name =
  match Pd.index_of col_name (columns df) with
  | None => df
  | Some i =>
      if existsb is_text (map (fun r => nth i r NaN) (rows df)) then
        mkDataFrame (columns df)
          (map (fun r => Pd.replace_nth i (strip_cell (nth i r NaN)) r) (rows df))
      else df
  end.
Proof.
  unfold strip_column, Pd.series.
  destruct (Pd.index_of col_name (columns df)) as [i |] eqn:Hi; [| reflexivity].
  cbn [bind Monad_outcome]. unfold Pd.str_strip.
  change (fun c : cell => match c with Str _ => true | _ => false end) with is_text.
  change (fun c : cell => match c with Str s => Str (PyStr.strip s) | _ => NaN end)
    with strip_cell.
  destruct df as [cols rs]. cbn [columns rows] in *.
  destruct rs as [| r rs].
  - cbn. unfold Pd.set_series. cbn [columns rows]. rewrite Hi. reflexivity.
  - set (col := map (fun r0 => nth i r0 NaN) (r :: rs)).
    assert (Hcol : col = nth i r NaN :: map (fun r0 => nth i r0 NaN) rs) by reflexivity.
    rewrite Hcol at 1.
    destruct (existsb is_text col) eqn:E; cbn [bind Monad_outcome ret try_pure];
      [| reflexivity].
    unfold Pd.set_series. cbn [columns rows]. rewrite Hi. f_equal.
    subst col. apply (rows_replaced i strip_cell (fun r0 => nth i r0 NaN)).
Qed.

Lemma strip_column_columns (df : DataFrame) (col_name : string) :
  columns (strip_column df col_name) = columns df.
Proof.
  rewrite strip_column_spec. destruct (Pd.index_of _ _); [| reflexivity].
  now destruct (existsb _ _).
Qed.

Lemma strip_column_cells (df : DataFrame) (col_name : string) :
  Forall2 (Forall2 stripped_or_kept) (rows df) (rows (strip_column df col_name)).
Proof.
  assert (Hrefl : Forall2 (Forall2 stripped_or_kept) (rows df) (rows df)).
  { apply Forall2_refl_on. intros r. apply Forall2_refl_on. intros c. now left. }
  rewrite strip_column_spec. destruct (Pd.index_of _ _) as [i |]; [| exact Hrefl].
  destruct (existsb _ _); [| exact Hrefl]. cbn [rows]. clear Hrefl.
  induction (rows df) as [| r rs IH]; cbn [map]; constructor; [| exact IH].
  apply replace_stripped_or_kept.
Qed.

Lemma strip_columns_cells (names : list string) (df : DataFrame) :
  columns (fold_left strip_column names df) = columns df /\
  Forall2 (Forall2 stripped_or_kept) (rows df) (rows (fold_left strip_column names df)).
Proof.
  revert df. induction names as [| c names IH]; intros df; cbn [fold_left].
  - split; [reflexivity |].
    apply Forall2_refl_on. intros r. apply Forall2_refl_on. intros x. now left.
  - destruct (IH (strip_column df c)) as [Hcols Hrows]. split.
    + now rewrite Hcols, strip_column_columns.
    + eapply Forall2_trans_on; [| apply strip_column_cells | exact Hrows].
      intros x y z. apply Forall2_trans_on. exact stripped_or_kept_trans.
Qed.

(** X16: on a table [strip_cols] never raises, with or without a column
    name, and returns a table with the same column labels, the same
    number of rows and cells, and in every place either the cell that was
    there or what [.str.strip()] makes of it: text without the white
    space around it, null for a cell that is not text. *)
Theorem strip_cols_cells (df : DataFrame) (col_name : option string) :
  exists df',
    strip_cols (Some df) col_name = Returns (Some df') /\
    columns df' = columns df /\
    Forall2 (Forall2 stripped_or_kept) (rows df) (rows df').
Proof.
  assert (Hall : exists df',
             Returns (Some (strip_all_columns df)) = Returns (Some df') /\
             columns df' = columns df /\
             Forall2 (Forall2 stripped_or_kept) (rows df) (rows df')).
  { exists (strip_all_columns df). split; [reflexivity |].
    apply strip_columns_cells. }
  destruct col_name as [[| a s] |]; cbn [strip_cols attribute_of bind Monad_outcome ret];
    try exact Hall.
  exists (strip_column df (String a s)). split; [reflexivity |].
  split; [apply strip_column_columns | apply strip_column_cells].
Qed.

(** X17: with a column name [strip_cols] never raises: a missing table
    ([None]) and a table without that column are returned as they were
    passed, and in a table with that column only the cells of that column
    change, all of them or none: they are all stripped when one of them
    is text, and the table is returned unchanged when none is. *)
Theorem strip_cols_one_column (df : DataFrame) (col_name : string) :
  col_name <> ""%string ->
  strip_cols None (Some col_name) = Returns None /\
  exists df',
    strip_cols (Some df) (Some col_name) = Returns (Some df') /\
    columns df' = columns df /\
    match Pd.index_of col_name (columns df) with
    | None => df' = df
    | Some i =>
        let stripped := existsb is_text (map (fun r => nth i r NaN) (rows df)) in
        (stripped = false -> df' = df) /\
        Forall2 (fun r r' =>
                   List.length r' = List.length r /\
                   forall p, nth p r' NaN
                             = if ((p =? i)%nat && stripped)%bool
                               then strip_cell (nth p r NaN)
                               else nth p r NaN)
                (rows df) (rows df')
    end.
Proof.
  intros Hne. destruct col_name as [| a s]; [congruence |].
  cbn [strip_cols option_map ret Monad_outcome]. split; [reflexivity |].
  exists (strip_column df (String a s)). split; [reflexivity |].
  split; [apply strip_column_columns |].
  rewrite strip_column_spec.
  destruct (Pd.index_of (String a s) (columns df)) as [i |]; [| reflexivity].
  cbv zeta. destruct (existsb is_text _); cbn [rows].
  - split; [discriminate |].
    induction (rows df) as [| r rs IH]; cbn [map]; constructor; [| exact IH].
    split; [apply length_replace_nth |]. intros p.
    rewrite nth_replace_stripped, andb_true_r. reflexivity.
  - split; [reflexivity |]. apply Forall2_refl_on. intros r.
    split; [reflexivity |]. intros p. now rewrite andb_false_r.
Qed.

Lemma strip_cols_one_column_witness :
  "Name"%string <> ""%string /\
  strip_cols None (Some "Name"%string) = Returns None /\
  exists df',
    strip_cols (Some yes_no) (Some "Name"%string) = Returns (Some df') /\
    columns df' = columns yes_no /\
    match Pd.index_of "Name" (columns yes_no) with
    | None => df' = yes_no
    | Some i =>
        let stripped := existsb is_text (map (fun r => nth i r NaN) (rows yes_no)) in
        (stripped = false -> df' = yes_no) /\
        Forall2 (fun r r' =>
                   List.length r' = List.length r /\
                   forall p, nth p r' NaN
                             = if ((p =? i)%nat && stripped)%bool
                               then strip_cell (nth p r NaN)
                               else nth p r NaN)
                (rows yes_no) (rows df')
    end.
Proof.
  split; [discriminate |].
  apply (strip_cols_one_column yes_no "Name"). discriminate.
Defined.

(** ** The table of the export-spec assembler *)

Lemma index_of_bound (name : string) (cols : list string) (i : nat) :
  Pd.index_of name cols = Some i -> (i < List.length cols)%nat.
Proof.
  revert i. induction cols as [| c cols IH]; intros i; cbn; [discriminate |].
  destruct (c =? name)%string.
  - intros [= <-]. lia.
  - destruct (Pd.index_of name cols) as [k |]; cbn; [| discriminate].
    intros [= <-]. specialize (IH k eq_refl). lia.
Qed.

Lemma indices_of_bound (names cols : list string) (idxs : list nat) :
  Pd.indices_of names cols = Returns idxs ->
  List.length idxs = List.length names /\
  Forall (fun i => (i < List.length cols)%nat) idxs.
Proof.
  revert idxs. induction names as [| n names IH]; intros idxs; cbn.
  - intros [= <-]. split; [reflexivity | constructor].
  - destruct (Pd.index_of n cols) as [i |] eqn:Hi; [| discriminate].
    destruct (Pd.indices_of names cols) as [rest |]; cbn; [| discriminate].
    intros [= <-]. destruct (IH rest eq_refl) as [Hlen Hall]. split.
    + cbn. now rewrite Hlen.
    + constructor; [exact (index_of_bound _ _ _ Hi) | exact Hall].
Qed.

(** A left join of a well-formed table is well formed, whatever the
    table on the right. *)
Lemma merge_left_well_formed (left right m : DataFrame) (lk rk : string)
    (sfx : string * string) :
  Pd.merge_left left right lk rk sfx = Returns m ->
  well_formed left -> well_formed m.
Proof.
  unfold Pd.merge_left, well_formed.
  destruct (Pd.index_of lk (columns left)) as [i |]; [| discriminate].
  destruct (Pd.index_of rk (columns right)) as [j |]; [| discriminate].
  cbv zeta.
  set (rcols := if (lk =? rk)%string then _ else _).
  destruct (Pd.indices_of rcols (columns right)) as [ridx |] eqn:Er; [| discriminate].
  cbn [bind Monad_outcome ret]. intros [= <-] Hleft. cbn [columns rows].
  destruct (indices_of_bound _ _ _ Er) as [Hlen _].
  rewrite length_app, !length_map.
  apply Forall_forall. intros row Hin. apply in_flat_map in Hin.
  destruct Hin as (l & Hl & Hrow).
  rewrite Forall_forall in Hleft. specialize (Hleft l Hl).
  destruct (filter _ (rows right)) as [| r0 ms].
  - destruct Hrow as [<- | []]. rewrite length_app, length_map. lia.
  - change (In row (map (fun r => l ++ map (fun k => nth k r NaN) ridx) (r0 :: ms)))
      in Hrow.
    apply in_map_iff in Hrow. destruct Hrow as (r & <- & _).
    rewrite length_app, length_map. lia.
Qed.

Lemma Forall2_Forall2_length {A} (R : A -> A -> Prop) (n : nat)
    (l l' : list (list A)) :
  Forall2 (Forall2 R) l l' ->
  Forall (fun r => List.length r = n) l -> Forall (fun r => List.length r = n) l'.
Proof.
  induction 1 as [| r r' l l' Hr _ IH]; intros Hall; [constructor |].
  inversion Hall; subst. constructor; [| now apply IH].
  symmetry. eapply Forall2_length. exact Hr.
Qed.

Lemma strip_all_columns_well_formed (df : DataFrame) :
  well_formed df -> well_formed (strip_all_columns df).
Proof.
  unfold well_formed, strip_all_columns.
  destruct (strip_columns_cells (columns df) df) as [Hcols Hrows].
  rewrite Hcols. eapply Forall2_Forall2_length. exact Hrows.
Qed.

Lemma read_exports_well_formed (w : World) (path export_name delim : string)
    (out : list string) (df : DataFrame) :
  read_exports w path export_name delim = (out, Returns (Some df)) ->
  well_formed df.
Proof.
  intros H. destruct (read_exports_inv _ _ _ _ _ _ H) as (-> & f & Hopen & Eloop).
  destruct (exports_loop_result _ _ _ _ Eloop)
    as [[Hacc _] | (pre & line & post & Hsplit & Hl & Htab & Hpost)];
    [discriminate |].
  destruct (export_table_rows _ _ _ Htab Hl) as (Hc & _ & Hall).
  unfold well_formed. rewrite Hc.
  eapply Forall_impl; [| exact Hall]. cbn. intros r (H1 & _). exact H1.
Qed.

Lemma nth_map_within {A B} (f : A -> B) (l : list A) (i : nat) (d : B) (d' : A) :
  (i < List.length l)%nat -> nth i (map f l) d = f (nth i l d').
Proof.
  revert i. induction l as [| x l IH]; intros [| i] H; cbn in *; try lia;
    [reflexivity | apply IH; lia].
Qed.

(** The named columns of a well-formed table whose nulls were filled:
    no cell is null. *)
Lemma select_fillna (df d : DataFrame) (v : cell) (names : list string) :
  Pd.select (Pd.fillna v df) names = Returns d ->
  isnull v = false ->
  well_formed df ->
  columns d = names /\
  Forall (fun row => List.length row = List.length names /\
                     Forall (fun c => isnull c = false) row)
         (rows d).
Proof.
  unfold Pd.select, well_formed. cbn [columns rows Pd.fillna].
  destruct (Pd.indices_of names (columns df)) as [idxs |] eqn:Ei; [| discriminate].
  cbn [bind Monad_outcome ret]. intros [= <-] Hv Hwf. cbn [columns rows].
  split; [reflexivity |].
  destruct (indices_of_bound _ _ _ Ei) as [Hlen Hbound].
  rewrite map_map. apply Forall_forall. intros row Hin.
  apply in_map_iff in Hin. destruct Hin as (r & <- & Hr).
  rewrite Forall_forall in Hwf. specialize (Hwf r Hr).
  split; [now rewrite length_map |].
  apply Forall_forall. intros c Hc. apply in_map_iff in Hc.
  destruct Hc as (i & <- & Hi).
  rewrite Forall_forall in Hbound. specialize (Hbound i Hi).
  rewrite (nth_map_within _ _ _ NaN NaN) by lia. destruct (isnull (nth i r NaN)) eqn:En; [exact Hv | exact En].
Qed.

(** The labels of a left join depend on the labels joined only. *)
Lemma merge_left_columns (left right m : DataFrame) (lk rk : string)
    (sfx : string * string) :
  Pd.merge_left left right lk rk sfx = Returns m ->
  Pd.merge_left (mkDataFrame (columns left) []) (mkDataFrame (columns right) [])
                lk rk sfx
  = Returns (mkDataFrame (columns m) []).
Proof.
  unfold Pd.merge_left. cbn [columns rows].
  destruct (Pd.index_of lk (columns left)) as [i |]; [| discriminate].
  destruct (Pd.index_of rk (columns right)) as [j |]; [| discriminate].
  cbv zeta.
  destruct (Pd.indices_of _ (columns right)) as [ridx |]; [| discriminate].
  cbn [bind Monad_outcome ret]. intros [= <-]. reflexivity.
Qed.

(** The rows of a left join: every left row, in order, extended at
    least once. *)
Lemma merge_left_extends (left right m : DataFrame) (lk rk : string)
    (sfx : string * string) :
  Pd.merge_left left right lk rk sfx = Returns m ->
  extends_rows (rows left) (rows m).
Proof.
  unfold Pd.merge_left.
  destruct (Pd.index_of lk (columns left)) as [i |]; [| discriminate].
  destruct (Pd.index_of rk (columns right)) as [j |]; [| discriminate].
  cbv zeta.
  destruct (Pd.indices_of _ (columns right)) as [ridx |]; [| discriminate].
  cbn [bind Monad_outcome ret]. intros [= <-]. cbn [rows].
  exists (fun l =>
            match filter (fun r => cell_same (nth i l NaN) (nth j r NaN)) (rows right) with
            | [] => [map (fun _ => NaN) ridx]
            | ms => map (fun r => map (fun k => nth k r NaN) ridx) ms
            end).
  split.
  - intros x. destruct (filter _ (rows right)); discriminate.
  - apply flat_map_ext. intros l.
    destruct (filter _ (rows right)) as [| r0 ms]; [reflexivity |].
    now rewrite map_map.
Qed.

Lemma flat_map_flat_map {A B C} (f : B -> list C) (g : A -> list B) (l : list A) :
  flat_map f (flat_map g l) = flat_map (fun x => flat_map f (g x)) l.
Proof.
  induction l as [| x l IH]; cbn; [reflexivity |].
  now rewrite flat_map_app, IH.
Qed.

Lemma extends_rows_trans (L M N : list (list cell)) :
  extends_rows L M -> extends_rows M N -> extends_rows L N.
Proof.
  intros (e1 & Hne1 & ->) (e2 & Hne2 & ->).
  exists (fun x => flat_map (fun t => map (fun u => t ++ u) (e2 (x ++ t))) (e1 x)).
  split.
  - intros x. specialize (Hne1 x). destruct (e1 x) as [| t ts]; [congruence |].
    cbn [flat_map]. specialize (Hne2 (x ++ t)).
    destruct (e2 (x ++ t)); [congruence | discriminate].
  - rewrite flat_map_flat_map. apply flat_map_ext. intros x.
    induction (e1 x) as [| t ts IH]; cbn [map flat_map]; [reflexivity |].
    rewrite map_app, IH, map_map. f_equal. apply map_ext. intros u.
    now rewrite app_assoc.
Qed.

(** The rows of the table [read_exports] returns hold four texts. *)
Lemma read_exports_text (w : World) (path export_name delim : string)
    (out : list string) (df : DataFrame) :
  read_exports w path export_name delim = (out, Returns (Some df)) ->
  columns df = col_headers /\
  Forall (fun r => List.length r = 4%nat /\ Forall (fun c => is_text c = true) r)
         (rows df).
Proof.
  intros H. destruct (read_exports_inv _ _ _ _ _ _ H) as (-> & f & Hopen & Eloop).
  destruct (exports_loop_result _ _ _ _ Eloop)
    as [[Hacc _] | (pre & line & post & Hsplit & Hl & Htab & Hpost)];
    [discriminate |].
  destruct (export_table_rows _ _ _ Htab Hl) as (Hc & Hn & Hall).
  split; [exact Hc |].
  apply Forall_forall. intros r Hr.
  assert (H0 : exists s, nth 0 r NaN = Str s).
  { assert (Hin : In (nth 0 r NaN) (map (fun r => nth 0 r NaN) (rows df)))
      by (apply in_map_iff; eauto).
    rewrite Hn in Hin. apply in_map_iff in Hin. destruct Hin as (i & <- & _). eauto. }
  rewrite Forall_forall in Hall.
  destruct (Hall r Hr) as (Hlen & H1 & H2 & field & H3 & _).
  destruct H0 as (s0 & H0).
  destruct r as [| a [| b [| c [| d [| ? ?]]]]]; try discriminate.
  cbn in H0, H1, H2, H3. subst. split; [reflexivity |]. repeat constructor.
Qed.

Lemma stripped_rows_text (l l' : list (list cell)) :
  Forall2 (Forall2 stripped_or_kept) l l' ->
  Forall (fun r => List.length r = 4%nat /\ Forall (fun c => is_text c = true) r) l ->
  Forall (fun r => List.length r = 4%nat /\ Forall (fun c => is_text c = true) r) l'.
Proof.
  induction 1 as [| r r' l l' Hr _ IH]; intros Hall; [constructor |].
  inversion Hall as [| ? ? [Hlen Htext] Hrest]; subst.
  constructor; [| now apply IH]. split.
  - rewrite <- Hlen. symmetry. eapply Forall2_length. exact Hr.
  - clear Hlen Hall Hrest IH.
    induction Hr as [| c c' r r' Hc _ IHr]; [constructor |].
    inversion Htext; subst. constructor; [| now apply IHr].
    destruct Hc as [-> | ->]; [assumption |].
    match goal with Ht : is_text c = true |- _ => destruct c; cbn in Ht |- * end;
      congruence.
Qed.

(** The nine columns of the export spec, taken from the twelve of the
    joined table. *)
Lemma export_part_of_joined (v : cell) (L M : list (list cell)) :
  extends_rows L M ->
  Forall (fun r => List.length r = 4%nat /\ Forall (fun c => is_text c = true) r) L ->
  exists groups,
    map (fun r => map (fun i => nth i r NaN) [0; 1; 2; 11; 5; 3; 7; 9; 10]%nat)
        (map (map (fun c => if isnull c then v else c)) M)
    = concat groups /\
    Forall2 (fun l g => g <> [] /\ Forall (fun row => export_part row = l) g) L groups.
Proof.
  intros (ext & Hne & ->) Hall.
  set (sel := fun r : list cell =>
                map (fun i => nth i r NaN) [0; 1; 2; 11; 5; 3; 7; 9; 10]%nat).
  set (fill := map (fun c => if isnull c then v else c)).
  exists (map (fun x => map (fun t => sel (fill (x ++ t))) (ext x)) L). split.
  - rewrite map_map. clear Hall. induction L as [| x L IH]; cbn [flat_map map concat];
      [reflexivity |].
    rewrite map_app, IH, map_map. reflexivity.
  - induction Hall as [| x L [Hlen Htext] _ IH]; cbn [map]; constructor; [| exact IH].
    split.
    + specialize (Hne x). destruct (ext x); [congruence | discriminate].
    + apply Forall_forall. intros row Hin. apply in_map_iff in Hin.
      destruct Hin as (t & <- & _).
      destruct x as [| a [| b [| c [| d [| ? ?]]]]]; try discriminate.
      inversion Htext as [| ? ? Ha H1]; subst. inversion H1 as [| ? ? Hb H2]; subst.
      inversion H2 as [| ? ? Hc H3]; subst. inversion H3 as [| ? ? Hd _]; subst.
      destruct a, b, c, d; try discriminate. reflexivity.
Qed.

Lemma organize_alt_sets_columns (w : World) (v : option DataFrame)
    (n u l vv : string) (res : DataFrame) :
  result (organize_alt_sets w v n u l vv) = Returns (Some res) ->
  columns res = alt_set_columns.
Proof.
  destruct v as [df |]; [| rewrite organize_alt_sets_none; discriminate].
  destruct (organize_alt_sets w (Some df) n u l vv) as [out o] eqn:E.
  cbn [result snd]. intros ->.
  destruct (organize_alt_sets_inv _ _ _ _ _ _ _ _ E) as (_ & names & rs & _ & _ & ->).
  reflexivity.
Qed.

Lemma set_series_columns (df : DataFrame) (name : string) (col vals : list cell) :
  Pd.series df name = Returns col ->
  columns (Pd.set_series df name vals) = columns df.
Proof.
  unfold Pd.series, Pd.set_series.
  destruct (Pd.index_of name (columns df)); [reflexivity | discriminate].
Qed.

(** What [create_export_spec] returns when it returns: [None] only
    without [pandas], and otherwise a table made of the rows of the
    export read, each joined to its field, alt set and question text. *)
Lemma create_export_spec_returned (w : World)
    (q_path e_path k_path alt_set_path export_path export_name survey_xml_path delim : string) :
  match result (create_export_spec w q_path e_path k_path alt_set_path export_path
                  export_name survey_xml_path delim) with
  | Returns None => imports w ["pandas"] = false
  | Returns (Some df) =>
      columns df = export_spec_labels /\
      Forall (fun row => List.length row = 9%nat /\
                         Forall (fun c => isnull c = false) row)
             (rows df) /\
      exists out ex groups,
        read_exports w fixed_export_path fixed_export_name PyStr.tab
        = (out, Returns (Some ex)) /\
        rows df = concat groups /\
        Forall2 (fun l g => g <> [] /\ Forall (fun row => export_part row = l) g)
                (rows (strip_all_columns ex)) groups
  | Raises _ => True
  end.
Proof.
  unfold create_export_spec.
  destruct (imports w ["pandas"]) eqn:Himp; cbn [negb]; [| reflexivity].
  cbv zeta.
  destruct (read_plain_fields_returns
              "python package 'pandas' and 'os' must be installed before using 'read_q_fields' function"
              "error occurred while reading in the q-field text file, check the file path and integrity of data"
              "please check the q-field text file path, it appears to be invalid"
              w fixed_q_path PyStr.tab) as (o1 & v1 & E1).
  destruct (read_plain_fields_returns
              "python package 'pandas' and 'os' must be installed before using 'read_e_fields' function"
              "error occurred while reading in the e-field text file, check the file path and integrity of data"
              "please check the e-field file path, it appears to be invalid"
              w fixed_e_path PyStr.tab) as (o2 & v2 & E2).
  destruct (read_k_fields_returns w fixed_k_path PyStr.tab) as (o3 & v3 & E3).
  destruct (read_alt_sets_returns w fixed_alt_set_path PyStr.tab) as (o4 & v4 & E4).
  destruct (read_exports_returns w fixed_export_path fixed_export_name PyStr.tab)
    as (o5 & v5 & E5).
  fold read_q_fields in E1. fold read_e_fields in E2.
  rewrite E1, E2, E3, E4, E5. cbn [assign_each]. clear E1 E2 E3 E4.
  do 2 next.
  (* df_q, df_e, df_k *)
  next. next. destruct v1 as [df_q |]; [| exact I].
  cbn [subscript]. destruct (Pd.select df_q field_columns) as [s1 |] eqn:S1; [| exact I].
  next. next. destruct v2 as [df_e |]; [| exact I].
  cbn [subscript]. destruct (Pd.select df_e field_columns) as [s2 |] eqn:S2; [| exact I].
  next. next. destruct v3 as [df_k |]; [| exact I].
  cbn [subscript]. destruct (Pd.select df_k field_columns) as [s3 |] eqn:S3; [| exact I].
  apply select_columns in S1, S2, S3.
  (* df_export *)
  next. cbn [strip_cols attribute_of bind ret Monad_outcome].
  next. next. destruct v5 as [df_export |]; [| exact I].
  cbn [strip_cols attribute_of bind ret Monad_outcome].
  destruct (read_exports_text _ _ _ _ _ _ E5) as [Hcols Htext].
  pose proof (strip_all_columns_well_formed _ (read_exports_well_formed _ _ _ _ _ _ E5))
    as Hwf.
  destruct (strip_columns_cells (columns df_export) df_export) as [Hcols' Hcells].
  fold (strip_all_columns df_export) in Hcols', Hcells.
  rewrite Hcols in Hcols'.
  pose proof (stripped_rows_text _ _ Hcells Htext) as Htext'. clear Hcells Htext.
  next. cbn [frame_of]. next. next.
  destruct (Pd.merge_left _ _ _ _ _) as [df_joined |] eqn:M1; [| exact I].
  apply (merge_left_well_formed _ _ _ _ _ _ M1) in Hwf.
  pose proof (merge_left_extends _ _ _ _ _ _ M1) as Hext.
  apply merge_left_columns in M1. rewrite Hcols' in M1.
  destruct (strip_columns_cells (columns (Pd.concat [s1; s2; s3]))
              (Pd.concat [s1; s2; s3])) as [Hcc _].
  fold (strip_all_columns (Pd.concat [s1; s2; s3])) in Hcc.
  assert (Hconcat : columns (Pd.concat [s1; s2; s3]) = field_columns).
  { destruct s1, s2, s3. cbn [columns] in S1, S2, S3. subst. reflexivity. }
  rewrite Hcc, Hconcat in M1.
  remember (columns df_joined) as labels eqn:Hl. vm_compute in M1.
  injection M1 as M1. subst labels.
  (* df_alt_set *)
  next. rewrite result_bind.
  destruct (result (organize_alt_sets w v4 _ _ _ _)) as [[df_alt_set |] |] eqn:EA;
    [| exact I | exact I].
  apply organize_alt_sets_columns in EA.
  next. cbn [frame_of]. next.
  destruct (Pd.series df_alt_set "alt_set_number") as [numbers |] eqn:Hnum; [| exact I].
  next. destruct (Pd.to_numeric numbers) as [numbers' |]; [| exact I].
  next.
  destruct (Pd.merge_left df_joined _ _ _ _) as [df_alt_set_joined |] eqn:M2;
    [| exact I].
  apply (merge_left_well_formed _ _ _ _ _ _ M2) in Hwf.
  pose proof (extends_rows_trans _ _ _ Hext (merge_left_extends _ _ _ _ _ _ M2)) as Hext2.
  clear Hext.
  apply merge_left_columns in M2.
  rewrite (set_series_columns _ _ _ numbers' Hnum), EA, <- M1 in M2.
  remember (columns df_alt_set_joined) as labels eqn:Hl. vm_compute in M2.
  injection M2 as M2. subst labels.
  (* df_survey_spec *)
  rewrite result_bind.
  destruct (result (create_survey_spec w _ _ _)) as [df_survey_spec |]; [| exact I].
  next. destruct (subscript df_survey_spec _) as [sub |]; [| exact I].
  next. destruct (Pd.set_columns sub _) as [renamed |] eqn:Hren; [| exact I].
  assert (Hrc : columns renamed = ["# Key"; "survey_question_text"]).
  { unfold Pd.set_columns in Hren. destruct (_ =? _)%nat; [| discriminate].
    now injection Hren as <-. }
  next.
  destruct (Pd.merge_left df_alt_set_joined _ _ _ _) as [df_merged |] eqn:M3;
    [| exact I].
  apply (merge_left_well_formed _ _ _ _ _ _ M3) in Hwf.
  pose proof (extends_rows_trans _ _ _ Hext2 (merge_left_extends _ _ _ _ _ _ M3)) as Hext3.
  clear Hext2.
  apply merge_left_columns in M3. rewrite Hrc, <- M2 in M3.
  remember (columns df_merged) as labels eqn:Hl. vm_compute in M3.
  injection M3 as M3. subst labels.
  next.
  destruct (Pd.select (Pd.fillna (Str "NA") df_merged) export_spec_columns)
    as [df_export_spec |] eqn:S; [| exact I].
  cbn [result snd ret Monad_Py].
  destruct (select_fillna _ _ _ _ S eq_refl Hwf) as [Hsc Hrows].
  unfold Pd.rename. cbn [columns rows]. rewrite Hsc.
  split; [reflexivity |]. split; [exact Hrows |].
  exists o5, df_export.
  destruct (export_part_of_joined (Str "NA") _ _ Hext3 Htext') as (groups & Hg & Hall).
  exists groups. split; [reflexivity |]. split; [| exact Hall].
  rewrite <- Hg. unfold Pd.select in S. cbn [Pd.fillna columns rows] in S.
  rewrite <- M3 in S.
  set (ix := Pd.indices_of _ _) in S. vm_compute in ix. subst ix.
  cbn [bind Monad_outcome ret] in S. injection S as <-. reflexivity.
Qed.

(** X18: with [pandas] at hand [create_export_spec] never returns
    [None]: it raises, or it returns a table with the nine labels of the
    export spec, every row of nine cells, none of them null. *)
Theorem create_export_spec_table (w : World)
    (q_path e_path k_path alt_set_path export_path export_name survey_xml_path delim : string)
    (r : option DataFrame) :
  imports w ["pandas"] = true ->
  result (create_export_spec w q_path e_path k_path alt_set_path export_path
            export_name survey_xml_path delim) = Returns r ->
  exists df,
    r = Some df /\
    columns df = export_spec_labels /\
    Forall (fun row => List.length row = 9%nat /\
                       Forall (fun c => isnull c = false) row)
           (rows df).
Proof.
  intros Himp H.
  pose proof (create_export_spec_returned w q_path e_path k_path alt_set_path
                export_path export_name survey_xml_path delim) as Hret.
  rewrite H in Hret. destruct r as [df |]; [| congruence].
  exists df. split; [reflexivity |]. split; apply Hret.
Qed.

Lemma create_export_spec_table_witness :
  imports export_spec_world ["pandas"] = true /\
  exists df,
    result (create_export_spec export_spec_world "q.txt" "e.txt" "k.txt" "alt.txt"
              "exports.txt" "Weekly file" "survey.xml" PyStr.tab)
    = Returns (Some df) /\
    columns df = export_spec_labels /\
    Forall (fun row => List.length row = 9%nat /\
                       Forall (fun c => isnull c = false) row)
           (rows df).
Proof.
  split; [reflexivity |]. eexists. split; [vm_compute; reflexivity |].
  match goal with
  | |- columns ?D = _ /\ _ =>
      destruct (create_export_spec_table export_spec_world "q.txt" "e.txt" "k.txt"
                  "alt.txt" "exports.txt" "Weekly file" "survey.xml" PyStr.tab
                  (Some D)) as (df' & Heq & Hrest);
        [reflexivity | vm_compute; reflexivity | injection Heq as <-; exact Hrest]
  end.
Defined.

(** X19: a table returned by [create_export_spec] holds the rows of the
    export read from the exports file, white space stripped, in their
    order and each at least once: its rows fall into one non-empty run
    per row of the export, and every row of a run carries the column
    number, export number, export name and field of that row.  No field
    of the export is lost, whether or not it is found in the field
    tables, the alt sets or the survey. *)
Theorem create_export_spec_keeps_export (w : World)
    (q_path e_path k_path alt_set_path export_path export_name survey_xml_path delim : string)
    (df : DataFrame) :
  result (create_export_spec w q_path e_path k_path alt_set_path export_path
            export_name survey_xml_path delim) = Returns (Some df) ->
  exists out ex groups,
    read_exports w fixed_export_path fixed_export_name PyStr.tab
    = (out, Returns (Some ex)) /\
    rows df = concat groups /\
    Forall2 (fun l g => g <> [] /\ Forall (fun row => export_part row = l) g)
            (rows (strip_all_columns ex)) groups.
Proof.
  intros H.
  pose proof (create_export_spec_returned w q_path e_path k_path alt_set_path
                export_path export_name survey_xml_path delim) as Hret.
  rewrite H in Hret. apply Hret.
Qed.

Lemma create_export_spec_keeps_export_witness :
  exists df,
    result (create_export_spec export_spec_world "q.txt" "e.txt" "k.txt" "alt.txt"
              "exports.txt" "Weekly file" "survey.xml" PyStr.tab)
    = Returns (Some df) /\
    exists out ex groups,
      read_exports export_spec_world fixed_export_path fixed_export_name PyStr.tab
      = (out, Returns (Some ex)) /\
      rows df = concat groups /\
      Forall2 (fun l g => g <> [] /\ Forall (fun row => export_part row = l) g)
              (rows (strip_all_columns ex)) groups.
Proof.
  eexists. split; [vm_compute; reflexivity |].
  apply (create_export_spec_keeps_export export_spec_world "q.txt" "e.txt" "k.txt"
           "alt.txt" "exports.txt" "Weekly file" "survey.xml" PyStr.tab).
  vm_compute. reflexivity.
Defined.

(** ** File concatenation *)

Lemma substring_at_end (s : string) :
  substring (String.length s) 1 (s ++ "/") = "/"%string.
Proof. induction s as [| a s IH]; cbn; [reflexivity | exact IH]. Qed.

Lemma length_with_slash (s : string) :
  String.length (s ++ "/") = S (String.length s).
Proof. induction s as [| a s IH]; cbn; [reflexivity | now rewrite IH]. Qed.

Lemma last_slice_slash (s : string) : last_slice (s ++ "/") = "/"%string.
Proof.
  unfold last_slice. rewrite length_with_slash. cbn [Nat.sub].
  rewrite Nat.sub_0_r. apply substring_at_end.
Qed.

(** X20: the path of the directory may be given with or without the
    slash at its end: the result is the same. *)
Theorem concatenate_files_trailing_slash (w : World) (d : Directories)
    (path file_type delim : string) (drop_dupes : option string)
    (filename_list : option (list string)) :
  last_slice path <> "/"%string ->
  concatenate_files w d (path ++ "/") file_type delim drop_dupes filename_list
  = concatenate_files w d path file_type delim drop_dupes filename_list.
Proof.
  intros H. unfold concatenate_files.
  assert (Hs : with_slash (path ++ "/") = with_slash path).
  { unfold with_slash. rewrite last_slice_slash. cbn [String.eqb Ascii.eqb negb].
    apply String.eqb_neq in H. rewrite H. reflexivity. }
  cbv zeta. rewrite Hs. reflexivity.
Qed.

Lemma concatenate_files_trailing_slash_witness :
  last_slice "data" <> "/"%string /\
  concatenate_files two_daily_files data_directory ("data" ++ "/") ".txt" PyStr.tab
    None None
  = concatenate_files two_daily_files data_directory "data" ".txt" PyStr.tab
      None None.
Proof.
  split; [discriminate |].
  apply (concatenate_files_trailing_slash two_daily_files data_directory "data").
  discriminate.
Defined.

(** X21: when there is no file to read, because the list passed in is
    empty or because no name in the directory ends with the file type,
    [concatenate_files] does not return an empty table: dropping the
    column [index] from the [None] the loop leaves raises, the handler
    prints its message, and [None] is returned. *)
Theorem concatenate_files_no_file (w : World) (d : Directories)
    (path file_type delim : string) (drop_dupes : option string)
    (filename_list : option (list string)) :
  imports w ["pandas"; "os.path"] = true ->
  isdir d (with_slash path) = true ->
  file_names d (with_slash path) file_type filename_list = Returns [] ->
  concatenate_files w d path file_type delim drop_dupes filename_list
  = (["error occurred while concatenating files, check the file path and the number and labeling of columns"],
     Returns None).
Proof.
  intros Himp Hdir Hnames. unfold concatenate_files.
  rewrite Himp. cbn [negb]. cbv zeta. rewrite Hdir, Hnames. reflexivity.
Qed.

Lemma concatenate_files_no_file_witness :
  concatenate_files two_daily_files data_directory "data" ".csv" PyStr.tab None None
  = (["error occurred while concatenating files, check the file path and the number and labeling of columns"],
     Returns None).
Proof.
  apply (concatenate_files_no_file two_daily_files data_directory "data" ".csv");
    reflexivity.
Defined.

Lemma index_of_absent (name : string) (cols : list string) :
  ~ In name cols -> Pd.index_of name cols = None.
Proof.
  induction cols as [| c cols IH]; cbn; intros H; [reflexivity |].
  destruct (String.eqb_spec c name) as [-> | _]; [exfalso; apply H; now left |].
  rewrite IH; [reflexivity |]. intros Hin. apply H. now right.
Qed.

Lemma index_of_present (name : string) (cols : list string) :
  In name cols -> exists i, Pd.index_of name cols = Some i.
Proof.
  induction cols as [| c cols IH]; cbn; intros H; [contradiction |].
  destruct (String.eqb_spec c name) as [-> | Hne]; [eauto |].
  destruct H as [H | H]; [congruence |].
  destruct (IH H) as [i ->]. cbn. eauto.
Qed.

Lemma index_of_app_l (name : string) (cols more : list string) (i : nat) :
  Pd.index_of name cols = Some i -> Pd.index_of name (cols ++ more) = Some i.
Proof.
  revert i. induction cols as [| c cols IH]; intros i; cbn; [discriminate |].
  destruct (c =? name)%string; [trivial |].
  destruct (Pd.index_of name cols) as [k |]; cbn; [| discriminate].
  intros [= <-]. now rewrite (IH k eq_refl).
Qed.

Lemma index_of_app_end (name : string) (cols : list string) :
  ~ In name cols -> Pd.index_of name (cols ++ [name]) = Some (List.length cols).
Proof.
  induction cols as [| c cols IH]; cbn; intros H.
  - now rewrite String.eqb_refl.
  - destruct (String.eqb_spec c name) as [-> | _]; [exfalso; apply H; now left |].
    rewrite IH; [reflexivity |]. intros Hin. apply H. now right.
Qed.

Lemma set_series_fresh (df : DataFrame) (name : string) (x : cell) :
  ~ In name (columns df) ->
  Pd.set_series df name (repeat x (List.length (rows df)))
  = mkDataFrame (columns df ++ [name]) (map (fun r => r ++ [x]) (rows df)).
Proof.
  intros H. unfold Pd.set_series. rewrite (index_of_absent _ _ H). f_equal.
  induction (rows df) as [| r rs IH]; cbn; [reflexivity | now rewrite IH].
Qed.

(** A row as long as a header without duplicates, read label by label,
    is the row. *)
Lemma widen_same (cols : list string) (r : list cell) :
  NoDup cols -> List.length r = List.length cols ->
  map (fun c => match Pd.index_of c cols with
                | Some i => nth i r NaN
                | None => NaN
                end) cols = r.
Proof.
  intros Hnd. revert r. induction Hnd as [| c cols Hfresh _ IH]; intros r Hlen.
  - destruct r; [reflexivity | discriminate].
  - destruct r as [| a r]; [discriminate |]. cbn [map Pd.index_of].
    rewrite String.eqb_refl. cbn [nth]. f_equal.
    transitivity (map (fun c0 => match Pd.index_of c0 cols with
                                 | Some i => nth i r NaN
                                 | None => NaN
                                 end) cols); [| apply IH; cbn in Hlen; lia].
    apply map_ext_in. intros c' Hin.
    destruct (String.eqb_spec c c') as [-> | _]; [contradiction |].
    destruct (Pd.index_of c' cols); reflexivity.
Qed.

Lemma concat_same_columns (a b : DataFrame) (cols : list string) :
  columns a = cols -> columns b = cols -> NoDup cols ->
  well_formed a -> well_formed b ->
  Pd.concat [a; b] = mkDataFrame cols (rows a ++ rows b).
Proof.
  unfold well_formed. intros Ha Hb Hnd Hwa Hwb. unfold Pd.concat.
  cbn [fold_left app]. rewrite Ha, Hb in *.
  assert (Hall : filter (fun c => negb (existsb (String.eqb c) [])) cols = cols).
  { clear. induction cols as [| c cols IH]; [reflexivity |].
    cbn [filter existsb negb]. f_equal. exact IH. }
  rewrite Hall.
  assert (Hnone : filter (fun c => negb (existsb (String.eqb c) cols)) cols = []).
  { assert (H : forall l, incl l cols ->
                          filter (fun c => negb (existsb (String.eqb c) cols)) l = []).
    { induction l as [| c l IH]; intros Hincl; [reflexivity |]. cbn [filter].
      assert (Hin : existsb (String.eqb c) cols = true).
      { apply existsb_exists. exists c. split; [apply Hincl; now left |].
        apply String.eqb_refl. }
      rewrite Hin. cbn [negb]. apply IH. intros x Hx. apply Hincl. now right. }
    apply H. apply incl_refl. }
  rewrite Hnone, app_nil_r. f_equal. cbn [flat_map]. rewrite app_nil_r. f_equal.
  - transitivity (map (fun r => r) (rows a)); [| apply map_id].
    apply map_ext_in. intros r Hr.
    rewrite Forall_forall in Hwa. rewrite Ha. apply widen_same; auto.
  - transitivity (map (fun r => r) (rows b)); [| apply map_id].
    apply map_ext_in. intros r Hr.
    rewrite Forall_forall in Hwb. rewrite Hb. apply widen_same; auto.
Qed.

(** The loop over files that all have the columns [cols]: their rows one
    file after the other, each with the name of its file at its end. *)
Lemma concat_loop_rows (w : World) (path delim : string) (cols : list string)
    (frame : string -> DataFrame) (files : list string) (R : list (list cell)) :
  NoDup (cols ++ ["source_file"]) ->
  (forall f, In f files ->
     read_csv w (path ++ f) delim 0 = Returns (frame f) /\
     columns (frame f) = cols /\ well_formed (frame f)) ->
  Forall (fun r => List.length r = List.length (cols ++ ["source_file"])) R ->
  concat_loop w path delim (Some (mkDataFrame (cols ++ ["source_file"]) R)) files
  = Returns (Some (mkDataFrame (cols ++ ["source_file"])
                     (R ++ flat_map (fun f => map (fun r => r ++ [Str f])
                                                  (rows (frame f))) files))).
Proof.
  intros Hnd. revert R. induction files as [| f files IH]; intros R Hfiles HR.
  - cbn. now rewrite app_nil_r.
  - destruct (Hfiles f (or_introl eq_refl)) as (Hread & Hcols & Hwf).
    cbn [concat_loop]. rewrite Hread. cbn [bind Monad_outcome]. cbv zeta.
    assert (Hfresh : ~ In "source_file"%string (columns (frame f))).
    { rewrite Hcols. intros Hin. apply NoDup_remove_2 with (l' := []) in Hnd.
      apply Hnd. now rewrite app_nil_r. }
    rewrite (set_series_fresh _ _ _ Hfresh), Hcols.
    assert (Hnew : Forall (fun r => List.length r = List.length (cols ++ ["source_file"]))
                          (map (fun r => r ++ [Str f]) (rows (frame f)))).
    { apply Forall_forall. intros r Hr. apply in_map_iff in Hr.
      destruct Hr as (r0 & <- & Hr0). unfold well_formed in Hwf.
      rewrite Forall_forall in Hwf. rewrite !length_app, (Hwf r0 Hr0), Hcols.
      reflexivity. }
    rewrite (concat_same_columns
               (mkDataFrame (cols ++ ["source_file"]) R)
               (mkDataFrame (cols ++ ["source_file"])
                  (map (fun r => r ++ [Str f]) (rows (frame f))))
               (cols ++ ["source_file"]) eq_refl eq_refl Hnd HR Hnew).
    cbn [rows]. rewrite IH.
    + cbn [flat_map]. now rewrite <- app_assoc.
    + intros g Hg. apply Hfiles. now right.
    + apply Forall_app. split; assumption.
Qed.

Lemma indices_of_nth (names cols : list string) (idxs : list nat) (c : string)
    (k : nat) :
  Pd.indices_of names cols = Returns idxs ->
  Pd.index_of c names = Some k ->
  Pd.index_of c cols = Some (nth k idxs 0%nat) /\ (k < List.length idxs)%nat.
Proof.
  revert idxs k. induction names as [| n names IH]; intros idxs k; cbn;
    [discriminate |].
  destruct (Pd.index_of n cols) as [i |] eqn:Hi; [| discriminate].
  destruct (Pd.indices_of names cols) as [rest |]; cbn; [| discriminate].
  intros [= <-]. destruct (String.eqb_spec n c) as [-> | _].
  - intros [= <-]. cbn. split; [exact Hi | lia].
  - destruct (Pd.index_of c names) as [k' |]; cbn; [| discriminate].
    intros [= <-]. destruct (IH rest k' eq_refl eq_refl) as [H1 H2].
    cbn. split; [exact H1 | lia].
Qed.

(** Selecting columns leaves the cells of a selected column as they
    are. *)
Lemma select_series (df d : DataFrame) (names : list string) (c : string) :
  Pd.select df names = Returns d -> In c names ->
  Pd.series d c = Pd.series df c.
Proof.
  unfold Pd.select.
  destruct (Pd.indices_of names (columns df)) as [idxs |] eqn:Ei; [| discriminate].
  cbn [bind Monad_outcome ret]. intros [= <-] Hin. unfold Pd.series. cbn [columns rows].
  destruct (index_of_present _ _ Hin) as [k Hk]. rewrite Hk.
  destruct (indices_of_nth _ _ _ _ _ Ei Hk) as [Hj Hlt]. rewrite Hj.
  rewrite map_map. f_equal. apply map_ext. intros r.
  now rewrite (nth_map_within _ _ _ NaN 0%nat Hlt).
Qed.

Lemma indices_of_present (names cols : list string) :
  incl names cols -> exists idxs, Pd.indices_of names cols = Returns idxs.
Proof.
  induction names as [| n names IH]; intros Hincl; cbn; [eauto |].
  destruct (index_of_present n cols) as [i ->]; [apply Hincl; now left |].
  destruct IH as [idxs ->]; [intros x Hx; apply Hincl; now right |].
  cbn. eauto.
Qed.

Lemma map_nth_tagged (j : nat) (x : cell) (rs : list (list cell)) (n : nat) :
  Forall (fun r => List.length r = n) rs -> (j < n)%nat ->
  map (fun r => nth j r NaN) (map (fun r => r ++ [x]) rs)
  = map (fun r => nth j r NaN) rs.
Proof.
  intros Hall Hj. rewrite map_map. apply map_ext_in. intros r Hr.
  rewrite Forall_forall in Hall. apply app_nth1. rewrite (Hall r Hr). exact Hj.
Qed.

Lemma map_nth_tag (x : cell) (rs : list (list cell)) (n : nat) :
  Forall (fun r => List.length r = n) rs ->
  map (fun r => nth n r NaN) (map (fun r => r ++ [x]) rs) = map (fun _ => x) rs.
Proof.
  intros Hall. rewrite map_map. apply map_ext_in. intros r Hr.
  rewrite Forall_forall in Hall. rewrite app_nth2; rewrite (Hall r Hr); [| lia].
  now rewrite Nat.sub_diag.
Qed.

(** X22: files with the same columns, read from an existing directory,
    give a table without the column [index] and with the column
    [source_file] at its end; every other column of the table holds the
    cells of that column of the files, one file after the other in the
    order of the list, and [source_file] holds for every row the name of
    the file it was read from. *)
Theorem concatenate_files_columns (w : World) (d : Directories)
    (path file_type delim : string) (drop_dupes : option string)
    (filename_list : option (list string))
    (files cols : list string) (frame : string -> DataFrame) :
  imports w ["pandas"; "os.path"] = true ->
  isdir d (with_slash path) = true ->
  file_names d (with_slash path) file_type filename_list = Returns files ->
  files <> [] ->
  NoDup cols -> In "index"%string cols -> ~ In "source_file"%string cols ->
  (forall f, In f files ->
     read_csv w (with_slash path ++ f) delim 0 = Returns (frame f) /\
     columns (frame f) = cols /\ well_formed (frame f)) ->
  drop_dupes <> Some "Y"%string ->
  exists df,
    concatenate_files w d path file_type delim drop_dupes filename_list
    = ([], Returns (Some df)) /\
    columns df
    = filter (fun c => negb (c =? "index")%string) cols ++ ["source_file"%string] /\
    (forall c, In c cols -> c <> "index"%string ->
       cells_of df c = flat_map (fun f => cells_of (frame f) c) files) /\
    cells_of df "source_file"
    = flat_map (fun f => map (fun _ => Str f) (rows (frame f))) files.
Proof.
  intros Himp Hdir Hnames Hne Hnd Hindex Hfresh Hfiles Hdupes.
  set (cols' := cols ++ ["source_file"%string]).
  assert (Hnd' : NoDup cols').
  { apply NoDup_app; [exact Hnd | repeat constructor; intros [] |].
    intros x Hx [<- | []]. contradiction. }
  set (tagged := flat_map (fun f => map (fun r => r ++ [Str f]) (rows (frame f))) files).
  assert (Hloop : concat_loop w (with_slash path) delim None files
                  = Returns (Some (mkDataFrame cols' tagged))).
  { destruct files as [| f files]; [congruence |].
    destruct (Hfiles f (or_introl eq_refl)) as (Hread & Hcols & Hwf).
    cbn [concat_loop]. rewrite Hread. cbn [bind Monad_outcome]. cbv zeta.
    assert (Hf : ~ In "source_file"%string (columns (frame f)))
      by now rewrite Hcols.
    rewrite (set_series_fresh _ _ _ Hf), Hcols.
    fold cols'. rewrite (concat_loop_rows w _ delim cols frame files _ Hnd').
    - reflexivity.
    - intros g Hg. apply Hfiles. now right.
    - apply Forall_forall. intros r Hr. apply in_map_iff in Hr.
      destruct Hr as (r0 & <- & Hr0). unfold well_formed in Hwf.
      rewrite Forall_forall in Hwf. rewrite !length_app, (Hwf r0 Hr0), Hcols.
      reflexivity. }
  set (keep := filter (fun c => negb (existsb (String.eqb c) ["index"%string])) cols').
  assert (Hkeep : keep = filter (fun c => negb (c =? "index")%string) cols
                         ++ ["source_file"%string]).
  { subst keep cols'. rewrite filter_app. cbn [filter existsb String.eqb Ascii.eqb orb negb].
    f_equal. apply filter_ext. intros c. cbn [existsb]. now rewrite orb_false_r. }
  destruct (indices_of_present keep cols') as [idxs Hidx].
  { intros c Hc. apply filter_In in Hc. apply Hc. }
  destruct (index_of_present "index" cols') as [i Hi].
  { apply in_or_app. now left. }
  set (df := mkDataFrame keep (map (fun r => map (fun k => nth k r NaN) idxs) tagged)).
  assert (Hsel : Pd.select (mkDataFrame cols' tagged) keep = Returns df).
  { unfold Pd.select. cbn [columns rows]. rewrite Hidx. reflexivity. }
  assert (Hrun : concatenate_files w d path file_type delim drop_dupes filename_list
                 = ([], Returns (Some df))).
  { assert (Hdc : dataframe_concat w (with_slash path) delim files = Returns df).
    { unfold dataframe_concat. rewrite Hloop.
      cbn [bind Monad_outcome attribute_of].
      unfold Pd.drop. cbn [columns Pd.indices_of]. rewrite Hi.
      cbn [bind Monad_outcome ret]. exact Hsel. }
    unfold concatenate_files. rewrite Himp. cbn [negb]. cbv zeta.
    rewrite Hdir, Hnames. cbn [lift bind Monad_Py app]. rewrite Hdc.
    cbn [try_except ret Monad_Py app].
    destruct drop_dupes as [s |]; [| reflexivity].
    destruct s as [| a s]; [reflexivity |].
    destruct a as [[] [] [] [] [] [] [] []]; try reflexivity.
    destruct s; [congruence | reflexivity]. }
  assert (Hlen : Forall (fun f => Forall (fun r => List.length r = List.length cols)
                                         (rows (frame f))) files).
  { apply Forall_forall. intros f Hf. destruct (Hfiles f Hf) as (_ & Hcols & Hwf).
    unfold well_formed in Hwf. now rewrite Hcols in Hwf. }
  exists df. split; [exact Hrun |]. split; [exact Hkeep |]. split.
  - intros c Hc Hci. unfold cells_of.
    assert (Hck : In c keep).
    { rewrite Hkeep. apply in_or_app. left. apply filter_In. split; [exact Hc |].
      apply String.eqb_neq in Hci. now rewrite Hci. }
    rewrite (select_series _ _ _ _ Hsel Hck).
    destruct (index_of_present c cols Hc) as [j Hj].
    unfold Pd.series. cbn [columns rows]. subst cols'.
    rewrite (index_of_app_l _ _ _ _ Hj). subst tagged.
    pose proof (index_of_bound _ _ _ Hj) as Hjlt.
    clear - Hfiles Hlen Hj Hjlt. induction files as [| f files IH]; [reflexivity |].
    cbn [flat_map]. rewrite map_app. inversion Hlen as [| ? ? Hf Hrest]; subst.
    rewrite IH by (try assumption; intros g Hg; apply Hfiles; now right). f_equal.
    destruct (Hfiles f (or_introl eq_refl)) as (_ & Hcols & _).
    rewrite Hcols, Hj. apply (map_nth_tagged j (Str f) _ _ Hf Hjlt).
  - unfold cells_of.
    assert (Hck : In "source_file"%string keep).
    { rewrite Hkeep. apply in_or_app. right. now left. }
    rewrite (select_series _ _ _ _ Hsel Hck).
    unfold Pd.series. cbn [columns rows]. subst cols'.
    rewrite (index_of_app_end _ _ Hfresh). subst tagged.
    clear - Hlen. induction files as [| f files IH]; [reflexivity |].
    cbn [flat_map]. rewrite map_app. inversion Hlen as [| ? ? Hf Hrest]; subst.
    rewrite (IH Hrest). f_equal. apply (map_nth_tag (Str f) _ _ Hf).
Qed.

Lemma concatenate_files_columns_witness :
  exists df,
    concatenate_files two_daily_files data_directory "data" ".txt" PyStr.tab None None
    = ([], Returns (Some df)) /\
    columns df
    = filter (fun c => negb (c =? "index")%string) ["index"; "vin"; "score"]%string
      ++ ["source_file"%string] /\
    (forall c, In c ["index"; "vin"; "score"]%string -> c <> "index"%string ->
       cells_of df c
       = flat_map (fun f => cells_of ((fun _ => daily_file) f) c) ["mon.txt"; "tue.txt"]%string) /\
    cells_of df "source_file"
    = flat_map (fun f => map (fun _ => Str f) (rows ((fun _ => daily_file) f)))
               ["mon.txt"; "tue.txt"]%string.
Proof.
  apply (concatenate_files_columns two_daily_files data_directory "data" ".txt"
           PyStr.tab None None ["mon.txt"; "tue.txt"]%string
           ["index"; "vin"; "score"]%string (fun _ => daily_file)).
  - reflexivity.
  - reflexivity.
  - reflexivity.
  - discriminate.
  - repeat constructor; cbn; intuition discriminate.
  - now left.
  - cbn. intuition discriminate.
  - intros f [<- | [<- | []]]; (split; [reflexivity |]); (split; [reflexivity |]);
      repeat constructor.
  - discriminate.
Defined.

Lemma indices_of_app (a b cols : list string) :
  Pd.indices_of (a ++ b) cols
  = match Pd.indices_of a cols, Pd.indices_of b cols with
    | Returns ia, Returns ib => Returns (ia ++ ib)
    | Raises e, _ => Raises e
    | Returns _, Raises e => Raises e
    end.
Proof.
  induction a as [| n a IH]; cbn.
  - now destruct (Pd.indices_of b cols).
  - destruct (Pd.index_of n cols); [| reflexivity]. rewrite IH.
    destruct (Pd.indices_of a cols); [| reflexivity].
    now destruct (Pd.indices_of b cols).
Qed.

Lemma indices_of_app_l (names cols more : list string) (idxs : list nat) :
  Pd.indices_of names cols = Returns idxs ->
  Pd.indices_of names (cols ++ more) = Returns idxs.
Proof.
  revert idxs. induction names as [| n names IH]; intros idxs; cbn; [trivial |].
  destruct (Pd.index_of n cols) as [i |] eqn:Hi; [| discriminate].
  rewrite (index_of_app_l _ _ more _ Hi).
  destruct (Pd.indices_of names cols) as [rest |]; [| discriminate].
  now rewrite (IH rest eq_refl).
Qed.

(** The cells at places within a row are those of the row with one
    more cell at its end, which is the cell at the place after the
    last. *)
Lemma select_tagged (idxs : list nat) (r : list cell) (x : cell) :
  Forall (fun i => (i < List.length r)%nat) idxs ->
  map (fun i => nth i (r ++ [x]) NaN) (idxs ++ [List.length r])
  = map (fun i => nth i r NaN) idxs ++ [x].
Proof.
  intros Hall. rewrite map_app. cbn [map]. f_equal.
  - apply map_ext_in. intros i Hi. rewrite Forall_forall in Hall.
    apply app_nth1. auto.
  - rewrite app_nth2 by lia. now rewrite Nat.sub_diag.
Qed.

(** What [dataframe_concat] returns for files that all have the columns
    [cols]: the rows of the files without their cell under [index], one
    file after the other, each row with the name of its file at its
    end. *)
Lemma dataframe_concat_rows (w : World) (path delim : string)
    (files cols : list string) (frame : string -> DataFrame) :
  files <> [] ->
  NoDup cols -> In "index"%string cols -> ~ In "source_file"%string cols ->
  (forall f, In f files ->
     read_csv w (path ++ f) delim 0 = Returns (frame f) /\
     columns (frame f) = cols /\ well_formed (frame f)) ->
  exists idxs,
    Pd.indices_of (filter (fun c => negb (existsb (String.eqb c) ["index"%string])) cols)
                  cols = Returns idxs /\
    dataframe_concat w path delim files
    = Returns
        (mkDataFrame
           (filter (fun c => negb (existsb (String.eqb c) ["index"%string])) cols
            ++ ["source_file"%string])
           (flat_map (fun f => map (fun r => map (fun i => nth i r NaN) idxs ++ [Str f])
                                   (rows (frame f))) files)).
Proof.
  intros Hne Hnd Hindex Hfresh Hfiles.
  set (keep := filter (fun c => negb (existsb (String.eqb c) ["index"%string])) cols).
  destruct (indices_of_present keep cols) as [idxs Hidx].
  { intros c Hc. apply filter_In in Hc. apply Hc. }
  exists idxs. split; [exact Hidx |].
  assert (Hnd' : NoDup (cols ++ ["source_file"%string])).
  { apply NoDup_app; [exact Hnd | repeat constructor; intros [] |].
    intros x Hx [<- | []]. contradiction. }
  unfold dataframe_concat.
  assert (Hloop : concat_loop w path delim None files
                  = Returns (Some (mkDataFrame (cols ++ ["source_file"%string])
                                     (flat_map (fun f => map (fun r => r ++ [Str f])
                                                             (rows (frame f))) files)))).
  { destruct files as [| f files]; [congruence |].
    destruct (Hfiles f (or_introl eq_refl)) as (Hread & Hcols & Hwf).
    cbn [concat_loop]. rewrite Hread. cbn [bind Monad_outcome]. cbv zeta.
    assert (Hf : ~ In "source_file"%string (columns (frame f)))
      by now rewrite Hcols.
    rewrite (set_series_fresh _ _ _ Hf), Hcols.
    rewrite (concat_loop_rows w _ delim cols frame files _ Hnd').
    - reflexivity.
    - intros g Hg. apply Hfiles. now right.
    - apply Forall_forall. intros r Hr. apply in_map_iff in Hr.
      destruct Hr as (r0 & <- & Hr0). unfold well_formed in Hwf.
      rewrite Forall_forall in Hwf. rewrite !length_app, (Hwf r0 Hr0), Hcols.
      reflexivity. }
  rewrite Hloop. cbn [bind Monad_outcome attribute_of].
  destruct (index_of_present "index" (cols ++ ["source_file"%string])) as [i Hi].
  { apply in_or_app. now left. }
  unfold Pd.drop. cbn [columns Pd.indices_of]. rewrite Hi.
  cbn [bind Monad_outcome ret]. rewrite filter_app.
  change (filter (fun c => negb (existsb (String.eqb c) ["index"%string]))
                 ["source_file"%string]) with ["source_file"%string].
  fold keep. unfold Pd.select. cbn [columns rows].
  rewrite indices_of_app, (indices_of_app_l _ _ _ _ Hidx).
  cbn [Pd.indices_of]. rewrite (index_of_app_end _ _ Hfresh).
  cbn [bind Monad_outcome ret]. f_equal. f_equal.
  destruct (indices_of_bound _ _ _ Hidx) as [_ Hbound].
  clear - Hfiles Hbound. induction files as [| f files IH]; [reflexivity |].
  cbn [flat_map]. rewrite map_app, IH by (intros g Hg; apply Hfiles; now right).
  f_equal. rewrite map_map. apply map_ext_in. intros r Hr.
  destruct (Hfiles f (or_introl eq_refl)) as (_ & Hcols & Hwf).
  unfold well_formed in Hwf. rewrite Forall_forall in Hwf.
  specialize (Hwf r Hr). rewrite Hcols in Hwf. rewrite <- Hwf.
  apply select_tagged. now rewrite Hwf.
Qed.

Lemma drop_duplicates_go_distinct (seen l : list (list cell)) :
  NoDup l -> (forall r, In r l -> ~ In r seen) ->
  drop_duplicates_go seen l = l.
Proof.
  intros Hnd. revert seen. induction Hnd as [| r l Hfresh _ IH]; intros seen Hseen;
    cbn [drop_duplicates_go]; [reflexivity |].
  destruct (existsb (row_same r) seen) eqn:E.
  - exfalso. apply existsb_exists in E. destruct E as (x & Hx & Hsame).
    unfold row_same in Hsame. destruct (list_eq_dec cell_eq_dec r x); [| discriminate].
    subst x. apply (Hseen r); [now left | exact Hx].
  - f_equal. apply IH. intros x Hx [<- | Hin]; [contradiction |].
    apply (Hseen x); [now right | exact Hin].
Qed.

Lemma tagged_rows_distinct (files : list string) (g : string -> list (list cell)) :
  NoDup files -> (forall f, In f files -> NoDup (g f)) ->
  NoDup (flat_map (fun f => map (fun r => r ++ [Str f]) (g f)) files).
Proof.
  intros Hnd. induction Hnd as [| f files Hfresh _ IH]; intros Hg; cbn [flat_map];
    [constructor |].
  apply NoDup_app.
  - assert (H : NoDup (g f)) by (apply Hg; now left).
    induction H as [| r l Hr _ IHl]; cbn [map]; constructor; [| exact IHl].
    intros Hin. apply in_map_iff in Hin. destruct Hin as (r' & Heq & Hr').
    apply app_inj_tail in Heq. destruct Heq as [-> _]. contradiction.
  - apply IH. intros f' Hf'. apply Hg. now right.
  - intros x Hx Hx'. apply in_map_iff in Hx. destruct Hx as (r & <- & _).
    apply in_flat_map in Hx'. destruct Hx' as (f' & Hf' & Hin).
    apply in_map_iff in Hin. destruct Hin as (r' & Heq & _).
    apply app_inj_tail in Heq. destruct Heq as [_ [= ->]]. contradiction.
Qed.

(** X23: [drop_dupes = 'Y'] never drops a row because of a row of
    another file.  The name of the file is put in every row before the
    duplicates are dropped, so when no file holds the same row twice,
    its index aside, nothing is dropped and the result is that without
    [drop_dupes], also when two files have the same content. *)
Theorem concatenate_files_drop_dupes_across_files (w : World) (d : Directories)
    (path file_type delim : string) (filename_list : option (list string))
    (files cols : list string) (frame : string -> DataFrame) :
  imports w ["pandas"; "os.path"] = true ->
  isdir d (with_slash path) = true ->
  file_names d (with_slash path) file_type filename_list = Returns files ->
  files <> [] -> NoDup files ->
  NoDup cols -> In "index"%string cols -> ~ In "source_file"%string cols ->
  (forall f, In f files ->
     read_csv w (with_slash path ++ f) delim 0 = Returns (frame f) /\
     columns (frame f) = cols /\ well_formed (frame f)) ->
  (forall f, In f files ->
     exists t, Pd.drop (frame f) ["index"%string] = Returns t /\ NoDup (rows t)) ->
  concatenate_files w d path file_type delim (Some "Y"%string) filename_list
  = concatenate_files w d path file_type delim None filename_list.
Proof.
  intros Himp Hdir Hnames Hne Hnf Hnd Hindex Hfresh Hfiles Hdistinct.
  destruct (dataframe_concat_rows w (with_slash path) delim files cols frame
              Hne Hnd Hindex Hfresh Hfiles) as (idxs & Hidx & Hdc).
  unfold concatenate_files. rewrite Himp. cbn [negb]. cbv zeta.
  rewrite Hdir, Hnames. cbn [lift bind Monad_Py app]. rewrite Hdc.
  cbn [try_except ret Monad_Py app]. do 3 f_equal.
  unfold drop_duplicates. cbn [columns rows]. f_equal.
  apply drop_duplicates_go_distinct; [| intros r _ []].
  rewrite (flat_map_ext _
             (fun f => map (fun r => r ++ [Str f])
                           (map (fun r => map (fun i => nth i r NaN) idxs)
                                (rows (frame f)))))
    by (intros f; now rewrite map_map).
  apply tagged_rows_distinct; [exact Hnf |].
  intros f Hf. destruct (Hdistinct f Hf) as (t & Ht & Hrows).
  destruct (Hfiles f Hf) as (_ & Hcols & _).
  destruct (index_of_present "index" cols Hindex) as [i Hi].
  unfold Pd.drop in Ht. rewrite Hcols in Ht. cbn [Pd.indices_of] in Ht.
  rewrite Hi in Ht. cbn [bind Monad_outcome ret] in Ht.
  unfold Pd.select in Ht. rewrite Hcols, Hidx in Ht.
  cbn [bind Monad_outcome ret] in Ht. injection Ht as <-. exact Hrows.
Qed.

Lemma concatenate_files_drop_dupes_across_files_witness :
  concatenate_files two_daily_files data_directory "data" ".txt" PyStr.tab
    (Some "Y"%string) None
  = concatenate_files two_daily_files data_directory "data" ".txt" PyStr.tab
      None None.
Proof.
  apply (concatenate_files_drop_dupes_across_files two_daily_files data_directory
           "data" ".txt" PyStr.tab None ["mon.txt"; "tue.txt"]%string
           ["index"; "vin"; "score"]%string (fun _ => daily_file)).
  - reflexivity.
  - reflexivity.
  - reflexivity.
  - discriminate.
  - repeat constructor; cbn; intuition discriminate.
  - repeat constructor; cbn; intuition discriminate.
  - now left.
  - cbn. intuition discriminate.
  - intros f [<- | [<- | []]]; (split; [reflexivity |]); (split; [reflexivity |]);
      repeat constructor.
  - intros f _. eexists. split; [reflexivity |].
    repeat constructor; cbn; intuition discriminate.
Defined.
